(** * Ice Cream Finder backend: vendor location state and discovery query

    A shallow embedding of [routes/sellers.ts], [routes/admin.ts],
    [routes/auth.ts], [middleware/auth.ts] and [db/schema.ts].

    Modelling conventions.
    - JavaScript numbers are real numbers ([R]): IEEE rounding, NaN and the
      infinities are outside the model.  [null] is [None].
    - Dates are integers ([Z]): milliseconds since the epoch.
    - A [decimal(10,7)] column rounds the number written to it to seven
      decimals, half away from zero, and refuses it when the rounded value
      does not lie strictly between -1000 and 1000.
    - The order of the rows of a table is the order in which a [select]
      without [ORDER BY] returns them.  The database may return them in
      another order after an [update]: answers of [GET /active] before and
      after an update are compared up to the order of the rows.
    - A handler is a function from the clock, the request and the database
      to a response and the database after the call.  One clock value
      stands for every [new Date()] and [Date.now()] of a call.
    - A [select] always succeeds; a write fails, and lands in the
      handler's [catch], only when a column refuses a value (a decimal out
      of range, a text that is no number, a text longer than its
      [varchar]) or a constraint of the schema (unique, references) is
      violated.  Writes are not wrapped in a transaction: what was written
      before a failure stays.
    - [jwt.sign], [bcrypt.hash] and [bcrypt.compare] belong to libraries:
      the first and the last are parameters, the hash is an input of the
      call that computes it. *)

From Stdlib Require Import Reals Lra ZArith Lia List String Bool.
From Stdlib Require Import Permutation Sorted.
Import ListNotations.

Open Scope string_scope.
Open Scope Z_scope.

(** ** db/schema.ts *)

Module Seller.
Record t : Type := mk {
  id : Z;
  userId : Z;
  businessName : string;
  ownerName : string;
  phone : string;
  description : option string;
  isActive : bool;
  latitude : option R;
  longitude : option R;
  lastLocationUpdate : option Z;
  createdAt : Z;
  updatedAt : Z
}.
End Seller.

Module Offering.
Record t : Type := mk {
  id : Z;
  sellerId : Z;
  name : string
}.
End Offering.

Record Db : Type := mkDb {
  sellers : list Seller.t;
  offerings : list Offering.t
}.

(** Rounding to the nearest integer, halves away from zero, as the
    database rounds a [decimal]. *)
Definition roundHalfAway (x : R) : Z :=
  if Rle_dec 0 x then Int_part (x + / 2)%R else - Int_part (- x + / 2)%R.

(** [decimal('latitude', { precision: 10, scale: 7 })]: the number that the
    column holds after [x] is written to it, [x] rounded to seven
    decimals. *)
Definition toScale7 (x : R) : R :=
  (IZR (roundHalfAway (x * 10 ^ 7)) / 10 ^ 7)%R.

(** Whether the column takes [x]: the rounded number has at most three
    digits before the point. *)
Definition decimalFits (x : R) : bool :=
  if Rlt_dec (Rabs (toScale7 x)) 1000 then true else false.

(** ** HTTP responses *)

Module Profile.
Record t : Type := mk {
  businessName : string;
  ownerName : string;
  phone : string;
  description : option string;
  offerings : list string
}.
End Profile.

Module Vendor.
(** One element of the array answered by [GET /active]. *)
Record t : Type := mk {
  id : Z;
  sellerId : Z;
  latitude : option R;
  longitude : option R;
  timestamp : option Z;
  seller : Profile.t;
  distance : R
}.
End Vendor.

Inductive Json : Type :=
  | JError (error : string)
  | JVendors (vendors : list Vendor.t)
  | JLocation (isActive : bool) (latitude longitude : option R)
      (lastLocationUpdate : option Z)
  | JToggle (message : string) (isActive : bool).

Record Response : Type := mkResponse {
  status : Z;
  json : Json
}.

(** [res.json(x)] answers with status 200. *)
Definition res_json (j : Json) : Response := mkResponse 200 j.

(** [res.status(c).json({ error })]. *)
Definition res_error (c : Z) (msg : string) : Response :=
  mkResponse c (JError msg).

(** ** middleware/auth.ts *)

(** What [authMiddleware] finds in the [Authorization] header: no bearer
    token, a token that [verifyToken] rejects, or a token that decodes to
    [{ userId, userType }]. *)
Inductive Authorization : Type :=
  | NoBearer
  | InvalidToken
  | Decoded (userId : Z) (userType : string).

Record AuthRequest (B : Type) : Type := mkReq {
  authorization : Authorization;
  body : B
}.
Arguments mkReq {B} _ _.
Arguments authorization {B} _.
Arguments body {B} _.

(** [inl res]: the middleware answered; [inr (userId, userType)]: [next()]. *)
Definition authMiddleware (a : Authorization) : Response + Z * string :=
  match a with
  | NoBearer => inl (res_error 401 "No token provided")
  | InvalidToken => inl (res_error 401 "Invalid token")
  | Decoded uid ut => inr (uid, ut)
  end.

Definition sellerOnly (userType : string) : option Response :=
  if String.eqb userType "seller" then None
  else Some (res_error 403 "Seller access required").

Definition adminOnly (userType : string) : option Response :=
  if String.eqb userType "admin" then None
  else Some (res_error 403 "Admin access required").

(** ** routes/sellers.ts *)

Definition STALE_THRESHOLD_MINUTES : Z := 15.

Open Scope R_scope.

(** [Math.atan2 y x] on the reals. *)
Definition atan2 (y x : R) : R :=
  if Rlt_dec 0 x then atan (y / x)
  else if Rlt_dec x 0 then
    (if Rle_dec 0 y then atan (y / x) + PI else atan (y / x) - PI)
  else if Rlt_dec 0 y then PI / 2
  else if Rlt_dec y 0 then - (PI / 2)
  else 0.

(** Over the reals [a] lies between 0 and 1.  In double arithmetic it can
    round above 1 for nearly antipodal points, where [Math.sqrt(1 - a)] and
    the result are NaN; the model does not show this. *)
Definition calculateDistance (lat1 lon1 lat2 lon2 : R) : R :=
  let R := 3959 in
  let dLat := (lat2 - lat1) * PI / 180 in
  let dLon := (lon2 - lon1) * PI / 180 in
  let a := sin (dLat / 2) * sin (dLat / 2) +
           cos (lat1 * PI / 180) * cos (lat2 * PI / 180) *
           sin (dLon / 2) * sin (dLon / 2) in
  let c := 2 * atan2 (sqrt a) (sqrt (1 - a)) in
  R * c.

(** JavaScript truthiness of a number or [null]: [null] and [0] are falsy. *)
Definition truthy (x : option R) : bool :=
  match x with
  | None => false
  | Some v => if Req_dec_T v 0 then false else true
  end.

(** [ToNumber]: [null] is [0] in arithmetic. *)
Definition toNumber (x : option R) : R :=
  match x with
  | None => 0
  | Some v => v
  end.

Close Scope R_scope.

(** [new Date(Date.now() - STALE_THRESHOLD_MINUTES * 60 * 1000)]. *)
Definition staleThreshold (now : Z) : Z :=
  now - STALE_THRESHOLD_MINUTES * 60 * 1000.

(** SQL [col >= v] in a [where]: a NULL column selects nothing. *)
Definition gte (col : option Z) (v : Z) : bool :=
  match col with
  | None => false
  | Some t => v <=? t
  end.

(** The staleness check of [GET /active]:
    [gte(sellers.lastLocationUpdate, staleThreshold)]. *)
Definition isFresh (lastLocationUpdate : option Z) (now : Z) : bool :=
  gte lastLocationUpdate (staleThreshold now).

(** The parsed query string of [GET /active].  [lat] and [lng] are [None]
    when the parameter is missing or empty and the [parseFloat] of its text
    otherwise; [radius] is [None] when missing. *)
Record ActiveQuery : Type := mkQuery {
  lat : option R;
  lng : option R;
  radius : option R
}.

(** [db.select().from(sellers).where(and(eq(isActive, true), gte(...)))]. *)
Definition activeSellers (now : Z) (db : Db) : list Seller.t :=
  filter (fun s => Seller.isActive s &&
                   gte (Seller.lastLocationUpdate s) (staleThreshold now))
         (sellers db).

(** [db.select().from(offerings).where(eq(offerings.sellerId, id))]. *)
Definition sellerOfferings (db : Db) (sid : Z) : list Offering.t :=
  filter (fun o => Offering.sellerId o =? sid) (offerings db).

(** The body of the [activeSellers.map] callback. *)
Definition vendorWithOfferings (userLat userLng : option R) (db : Db)
    (seller : Seller.t) : Vendor.t :=
  let sellerLat := Seller.latitude seller in
  let sellerLng := Seller.longitude seller in
  let distance :=
    if truthy userLat && truthy userLng && truthy sellerLat && truthy sellerLng
    then calculateDistance (toNumber userLat) (toNumber userLng)
                           (toNumber sellerLat) (toNumber sellerLng)
    else 0%R in
  Vendor.mk (Seller.id seller) (Seller.id seller) sellerLat sellerLng
    (Seller.lastLocationUpdate seller)
    (Profile.mk (Seller.businessName seller) (Seller.ownerName seller)
       (Seller.phone seller) (Seller.description seller)
       (map Offering.name (sellerOfferings db (Seller.id seller))))
    distance.

(** [Array.prototype.sort((a, b) => a.distance - b.distance)]: the stable
    sort by ascending distance, as insertion from the right. *)
Fixpoint insertByDistance (v : Vendor.t) (l : list Vendor.t) : list Vendor.t :=
  match l with
  | [] => [v]
  | w :: l' =>
      if Rle_dec (Vendor.distance v) (Vendor.distance w)
      then v :: w :: l'
      else w :: insertByDistance v l'
  end.

Fixpoint sortByDistance (l : list Vendor.t) : list Vendor.t :=
  match l with
  | [] => []
  | v :: l' => insertByDistance v (sortByDistance l')
  end.

Definition withinRadius (radiusMiles : R) (v : Vendor.t) : bool :=
  if Rle_dec (Vendor.distance v) radiusMiles then true else false.

Definition hasTruthyCoordinates (v : Vendor.t) : bool :=
  truthy (Vendor.latitude v) && truthy (Vendor.longitude v).

(** The array handed to [res.json] by [GET /active]. *)
Definition getActiveVendors (now : Z) (q : ActiveQuery) (db : Db)
    : list Vendor.t :=
  let userLat := lat q in
  let userLng := lng q in
  let radiusMiles := match radius q with None => 50%R | Some r => r end in
  let vendorsWithOfferings :=
    map (vendorWithOfferings userLat userLng db) (activeSellers now db) in
  let filteredVendors := filter hasTruthyCoordinates vendorsWithOfferings in
  if truthy userLat && truthy userLng
  then sortByDistance (filter (withinRadius radiusMiles) filteredVendors)
  else filteredVendors.

(** [router.get('/active', ...)]: no middleware, the database is only read. *)
Definition getActive (now : Z) (q : ActiveQuery) (db : Db) : Response :=
  res_json (JVendors (getActiveVendors now q db)).

(** *** PATCH /location *)

(** A text written to a decimal column, by what the column's input makes
    of it: the numeral of a number, or a text that it refuses.  The input
    also reads the text NaN, as not-a-number; like NaN elsewhere, that text
    is outside the model. *)
Inductive DecimalText : Type :=
  | Numeral (x : R)
  | NotNumeral.

(** A JSON value where the handler expects a coordinate: a number; [null];
    or a string, a boolean, an array or an object, given by the text that
    its [toString()] returns.  The text of a number is its numeral. *)
Inductive BodyValue : Type :=
  | Number (x : R)
  | Null
  | Other (text : DecimalText).

(** [v.toString()]; [None]: a TypeError is thrown. *)
Definition toString (v : BodyValue) : option DecimalText :=
  match v with
  | Number x => Some (Numeral x)
  | Null => None
  | Other text => Some text
  end.

(** The request body.  [None] is [undefined]; a coordinate is any JSON
    value and [isActive] a JSON boolean. *)
Record LocationBody : Type := mkLocationBody {
  b_latitude : option BodyValue;
  b_longitude : option BodyValue;
  b_isActive : option bool
}.

(** The [updateData] object: [None] is a key that is not set, [Some None]
    a key set to [null]. *)
Record UpdateData : Type := mkUpdateData {
  u_updatedAt : option Z;
  u_latitude : option (option DecimalText);
  u_longitude : option (option DecimalText);
  u_lastLocationUpdate : option (option Z);
  u_isActive : option bool
}.

Definition orKeep {A : Type} (u : option A) (old : A) : A :=
  match u with
  | None => old
  | Some v => v
  end.

(** What a decimal column holds after [.set]: the old value when the key is
    not set, [null], or the numeral rounded to seven decimals.  A text that
    the column refuses is not written. *)
Definition columnValue (v : option (option DecimalText)) (old : option R)
    : option R :=
  match v with
  | None => old
  | Some None => None
  | Some (Some (Numeral x)) => Some (toScale7 x)
  | Some (Some NotNumeral) => old
  end.

(** [.set(updateData)] on one row. *)
Definition setRow (u : UpdateData) (s : Seller.t) : Seller.t :=
  Seller.mk (Seller.id s) (Seller.userId s) (Seller.businessName s)
    (Seller.ownerName s) (Seller.phone s) (Seller.description s)
    (orKeep (u_isActive u) (Seller.isActive s))
    (columnValue (u_latitude u) (Seller.latitude s))
    (columnValue (u_longitude u) (Seller.longitude s))
    (orKeep (u_lastLocationUpdate u) (Seller.lastLocationUpdate s))
    (Seller.createdAt s)
    (orKeep (u_updatedAt u) (Seller.updatedAt s)).

(** The rows of the table after [.set(u).where(eq(sellers.id, sid))].  The
    updated row is written in its place; where the database returns it
    afterwards is not fixed by the query. *)
Definition rowsAfter (u : UpdateData) (sid : Z) (rows : list Seller.t)
    : list Seller.t :=
  map (fun s => if Seller.id s =? sid then setRow u s else s) rows.

(** Whether the database accepts a value written to a decimal column. *)
Definition columnAccepts (v : option (option DecimalText)) : bool :=
  match v with
  | Some (Some (Numeral x)) => decimalFits x
  | Some (Some NotNumeral) => false
  | _ => true
  end.

(** [db.update(sellers).set(u).where(eq(sellers.id, sid))].  [None]: the
    database raises, nothing is written. *)
Definition updateSellers (u : UpdateData) (sid : Z) (db : Db) : option Db :=
  if columnAccepts (u_latitude u) && columnAccepts (u_longitude u)
  then Some (mkDb (rowsAfter u sid (sellers db)) (offerings db))
  else None.

(** [db.select().from(sellers).where(eq(sellers.userId, uid)).limit(1)]. *)
Definition sellerByUserId (uid : Z) (db : Db) : option Seller.t :=
  find (fun s => Seller.userId s =? uid) (sellers db).

(** [db.select().from(sellers).where(eq(sellers.id, sid))], first row. *)
Definition sellerById (sid : Z) (db : Db) : option Seller.t :=
  find (fun s => Seller.id s =? sid) (sellers db).

(** The [isActive] part of the handler of [PATCH /location]. *)
Definition withIsActive (isActive : option bool) (u1 : UpdateData)
    : UpdateData :=
  match isActive with
  | Some isActive =>
      if negb isActive
      then mkUpdateData (u_updatedAt u1) (Some None) (Some None) (Some None)
             (Some isActive)
      else mkUpdateData (u_updatedAt u1) (u_latitude u1) (u_longitude u1)
             (u_lastLocationUpdate u1) (Some isActive)
  | None => u1
  end.

(** The [updateData] built by the handler of [PATCH /location]; [None]: a
    [toString()] has thrown. *)
Definition locationUpdateData (now : Z) (b : LocationBody)
    : option UpdateData :=
  let u0 := mkUpdateData (Some now) None None None None in
  match b_latitude b, b_longitude b with
  | Some latitude, Some longitude =>
      match toString latitude with
      | None => None
      | Some lat =>
          match toString longitude with
          | None => None
          | Some lng =>
              Some (withIsActive (b_isActive b)
                      (mkUpdateData (u_updatedAt u0) (Some (Some lat))
                         (Some (Some lng)) (Some (Some now)) (u_isActive u0)))
          end
      end
  | _, _ => Some (withIsActive (b_isActive b) u0)
  end.

(** The handler of [PATCH /location], after the middleware. *)
Definition patchLocationHandler (now : Z) (userId : Z) (b : LocationBody)
    (db : Db) : Response * Db :=
  match sellerByUserId userId db with
  | None => (res_error 404 "Seller profile not found", db)
  | Some seller =>
      match locationUpdateData now b with
      | None => (res_error 500 "Failed to update location", db)
      | Some updateData =>
          match updateSellers updateData (Seller.id seller) db with
          | None => (res_error 500 "Failed to update location", db)
          | Some db' =>
              match sellerById (Seller.id seller) db' with
              | None => (res_error 500 "Failed to update location", db')
              | Some updatedSeller =>
                  (res_json (JLocation (Seller.isActive updatedSeller)
                               (Seller.latitude updatedSeller)
                               (Seller.longitude updatedSeller)
                               (Seller.lastLocationUpdate updatedSeller)),
                   db')
              end
          end
      end
  end.

(** [router.patch('/location', authMiddleware, sellerOnly, handler)]. *)
Definition patchLocation (now : Z) (req : AuthRequest LocationBody) (db : Db)
    : Response * Db :=
  match authMiddleware (authorization req) with
  | inl res => (res, db)
  | inr (userId, userType) =>
      match sellerOnly userType with
      | Some res => (res, db)
      | None => patchLocationHandler now userId (body req) db
      end
  end.

(** ** routes/admin.ts *)

(** The update of [PUT /vendors/:id/toggle-active]:
    [{ isActive: !seller.isActive, updatedAt: new Date() }]. *)
Definition toggleUpdateData (now : Z) (seller : Seller.t) : UpdateData :=
  mkUpdateData (Some now) None None None (Some (negb (Seller.isActive seller))).

Definition toggleActiveHandler (now : Z) (sellerId : Z) (db : Db)
    : Response * Db :=
  match sellerById sellerId db with
  | None => (res_error 404 "Vendor not found", db)
  | Some seller =>
      match updateSellers (toggleUpdateData now seller) sellerId db with
      | None => (res_error 500 "Failed to toggle vendor status", db)
      | Some db' =>
          match sellerById sellerId db' with
          | None => (res_error 500 "Failed to toggle vendor status", db')
          | Some updatedSeller =>
              (res_json
                 (JToggle (if Seller.isActive updatedSeller
                           then "Vendor activated successfully"
                           else "Vendor deactivated successfully")
                          (Seller.isActive updatedSeller)),
               db')
          end
      end
  end.

(** [router.put('/vendors/:id/toggle-active', authMiddleware, adminOnly,
    handler)]; the body is the [:id] parameter. *)
Definition toggleActive (now : Z) (req : AuthRequest Z) (db : Db)
    : Response * Db :=
  match authMiddleware (authorization req) with
  | inl res => (res, db)
  | inr (_, userType) =>
      match adminOnly userType with
      | Some res => (res, db)
      | None => toggleActiveHandler now (body req) db
      end
  end.

(** ** The users table and the serial sequences *)

Module User.
Record t : Type := mk {
  id : Z;
  email : string;
  password : string;
  userType : string;
  createdAt : Z;
  updatedAt : Z
}.
End User.

(** The whole database: the two tables above, the users table, and the
    last value handed out by each [serial] column. *)
Record Store : Type := mkStore {
  tables : Db;
  users : list User.t;
  usersIdSeq : Z;
  sellersIdSeq : Z;
  offeringsIdSeq : Z
}.

Definition withTables (t : Db) (st : Store) : Store :=
  mkStore t (users st) (usersIdSeq st) (sellersIdSeq st) (offeringsIdSeq st).

(** JavaScript truthiness of a string or [undefined]: the empty string is
    falsy. *)
Definition truthyString (x : option string) : bool :=
  match x with
  | None => false
  | Some s => negb (String.eqb s "")
  end.

(** [varchar(n)]: at most [n] characters. *)
Definition varcharFits (n : nat) (s : string) : bool :=
  (String.length s <=? n)%nat.

(** The text of a value known to be a string. *)
Definition text (x : option string) : string :=
  match x with
  | None => ""
  | Some s => s
  end.

(** [db.select().from(users).where(eq(users.email, email)).limit(1)]. *)
Definition userByEmail (email : string) (st : Store) : option User.t :=
  find (fun u => String.eqb (User.email u) email) (users st).

(** [db.select().from(users).where(eq(users.id, uid))], first row. *)
Definition userById (uid : Z) (st : Store) : option User.t :=
  find (fun u => User.id u =? uid) (users st).

(** [db.insert(users).values({ email, password, userType }).returning()].
    [id] is the next value of the sequence, [createdAt] and [updatedAt]
    default to now; [email] is unique; the three texts are [varchar(255)],
    [varchar(255)] and [varchar(20)].  [None]: the database raises. *)
Definition insertUser (now : Z) (email password userType : string)
    (st : Store) : option (User.t * Store) :=
  if existsb (fun u => String.eqb (User.email u) email) (users st)
     || negb (varcharFits 255 email && varcharFits 255 password &&
              varcharFits 20 userType)
  then None
  else
    let newUser := User.mk (usersIdSeq st + 1) email password userType now now in
    Some (newUser,
          mkStore (tables st) (users st ++ [newUser]) (usersIdSeq st + 1)
            (sellersIdSeq st) (offeringsIdSeq st)).

(** [db.insert(sellers).values({ userId, businessName, ownerName, phone,
    description }).returning()].  [isActive] defaults to false, the location
    columns to NULL; [userId] is unique and references [users.id]; the
    names are [varchar(255)], the phone is [varchar(50)]. *)
Definition insertSeller (now : Z) (userId : Z)
    (businessName ownerName phone : string) (description : option string)
    (st : Store) : option (Seller.t * Store) :=
  if existsb (fun s => Seller.userId s =? userId) (sellers (tables st))
     || negb (existsb (fun u => User.id u =? userId) (users st))
     || negb (varcharFits 255 businessName && varcharFits 255 ownerName &&
              varcharFits 50 phone)
  then None
  else
    let newSeller :=
      Seller.mk (sellersIdSeq st + 1) userId businessName ownerName phone
        description false None None None now now in
    Some (newSeller,
          mkStore (mkDb (sellers (tables st) ++ [newSeller])
                        (offerings (tables st)))
            (users st) (usersIdSeq st) (sellersIdSeq st + 1)
            (offeringsIdSeq st)).

(** The rows of [values(names.map(name => ({ sellerId, name })))], numbered
    from the sequence. *)
Fixpoint offeringRows (seq : Z) (sellerId : Z) (names : list string)
    : list Offering.t :=
  match names with
  | [] => []
  | name :: names' =>
      Offering.mk (seq + 1) sellerId name :: offeringRows (seq + 1) sellerId names'
  end.

(** [db.insert(offerings).values(...)]; [sellerId] references
    [sellers.id], a name is [varchar(100)]. *)
Definition insertOfferings (sellerId : Z) (names : list string) (st : Store)
    : option Store :=
  if existsb (fun s => Seller.id s =? sellerId) (sellers (tables st))
     && forallb (varcharFits 100) names
  then Some (mkStore
               (mkDb (sellers (tables st))
                     (offerings (tables st) ++
                      offeringRows (offeringsIdSeq st) sellerId names))
               (users st) (usersIdSeq st) (sellersIdSeq st)
               (offeringsIdSeq st + Z.of_nat (List.length names)))
  else None.

(** [db.delete(offerings).where(eq(offerings.sellerId, sid))]. *)
Definition deleteOfferings (sid : Z) (st : Store) : Store :=
  withTables (mkDb (sellers (tables st))
                   (filter (fun o => negb (Offering.sellerId o =? sid))
                           (offerings (tables st))))
             st.

(** [db.delete(sellers).where(eq(sellers.id, sid))]: refused while an
    offering still references a row to delete. *)
Definition deleteSellers (sid : Z) (st : Store) : option Store :=
  if existsb (fun s => Seller.id s =? sid) (sellers (tables st))
     && existsb (fun o => Offering.sellerId o =? sid) (offerings (tables st))
  then None
  else Some (withTables
               (mkDb (filter (fun s => negb (Seller.id s =? sid))
                             (sellers (tables st)))
                     (offerings (tables st)))
               st).

(** [db.delete(users).where(eq(users.id, uid))]: refused while a seller
    still references a row to delete. *)
Definition deleteUsers (uid : Z) (st : Store) : option Store :=
  if existsb (fun u => User.id u =? uid) (users st)
     && existsb (fun s => Seller.userId s =? uid) (sellers (tables st))
  then None
  else Some (mkStore (tables st)
               (filter (fun u => negb (User.id u =? uid)) (users st))
               (usersIdSeq st) (sellersIdSeq st) (offeringsIdSeq st)).

(** ** Answers of the account, profile and admin routes *)

Module SellerData.
(** The [seller] object of the account answers and the profile answers;
    [location] is [None] where the answer has no coordinate keys. *)
Record t : Type := mk {
  id : Z;
  businessName : string;
  ownerName : string;
  phone : string;
  description : option string;
  offerings : list string;
  isActive : bool;
  location : option (option R * option R)
}.
End SellerData.

Inductive Payload : Type :=
  | PError (error : string)
  | PMessage (message : string)
  | PAccount (token : string) (id : Z) (email userType : string)
      (seller : option SellerData.t)
  | PProfile (seller : SellerData.t) (lastLocationUpdate : option (option Z))
  | PStats (totalUsers totalSellers activeSellers searcherUsers sellerUsers
            adminUsers : nat)
  | PVendor (message : string) (vendor : Seller.t).

Record Reply : Type := mkReply {
  code : Z;
  payload : Payload
}.

Definition reply_error (c : Z) (msg : string) : Reply := mkReply c (PError msg).

(** [sellerOfferings.map(o => o.name)]. *)
Definition offeringNames (t : Db) (sid : Z) : list string :=
  map Offering.name (sellerOfferings t sid).

(** ** routes/sellers.ts: the profile routes *)

(** The keys a handler may put into [.set(...)] besides the location:
    [None] is a key that is not set (or [undefined], which the query
    builder leaves out), [Some None] a description set to [null]. *)
Record ProfileData : Type := mkProfileData {
  pd_updatedAt : option Z;
  pd_businessName : option string;
  pd_ownerName : option string;
  pd_phone : option string;
  pd_description : option (option string);
  pd_isActive : option bool
}.

Definition setProfile (u : ProfileData) (s : Seller.t) : Seller.t :=
  Seller.mk (Seller.id s) (Seller.userId s)
    (orKeep (pd_businessName u) (Seller.businessName s))
    (orKeep (pd_ownerName u) (Seller.ownerName s))
    (orKeep (pd_phone u) (Seller.phone s))
    (orKeep (pd_description u) (Seller.description s))
    (orKeep (pd_isActive u) (Seller.isActive s))
    (Seller.latitude s) (Seller.longitude s) (Seller.lastLocationUpdate s)
    (Seller.createdAt s)
    (orKeep (pd_updatedAt u) (Seller.updatedAt s)).

(** Whether a text that is set fits its [varchar(n)] column. *)
Definition fitsIfSet (n : nat) (x : option string) : bool :=
  match x with
  | None => true
  | Some s => varcharFits n s
  end.

Definition profileFits (u : ProfileData) : bool :=
  fitsIfSet 255 (pd_businessName u) && fitsIfSet 255 (pd_ownerName u) &&
  fitsIfSet 50 (pd_phone u).

(** [db.update(sellers).set(u).where(eq(sellers.id, sid))] for such keys.
    [None]: a text does not fit its column, the database raises. *)
Definition updateProfile (u : ProfileData) (sid : Z) (st : Store)
    : option Store :=
  if profileFits u
  then Some (withTables
               (mkDb (map (fun s => if Seller.id s =? sid
                                    then setProfile u s else s)
                          (sellers (tables st)))
                     (offerings (tables st)))
               st)
  else None.

(** The answer of a route behind middleware: [inl] when a middleware
    answered, [inr] when the handler did. *)
Definition Answer : Type := Response + Reply.

Definition sellerData (t : Db) (seller : Seller.t)
    (location : option (option R * option R)) : SellerData.t :=
  SellerData.mk (Seller.id seller) (Seller.businessName seller)
    (Seller.ownerName seller) (Seller.phone seller)
    (Seller.description seller) (offeringNames t (Seller.id seller))
    (Seller.isActive seller) location.

(** The handler of [GET /profile]. *)
Definition getProfileHandler (userId : Z) (st : Store) : Reply :=
  match sellerByUserId userId (tables st) with
  | None => reply_error 404 "Seller profile not found"
  | Some seller =>
      mkReply 200
        (PProfile
           (sellerData (tables st) seller
              (Some (Seller.latitude seller, Seller.longitude seller)))
           (Some (Seller.lastLocationUpdate seller)))
  end.

(** [router.get('/profile', authMiddleware, sellerOnly, handler)]. *)
Definition getProfile (req : AuthRequest unit) (st : Store) : Answer :=
  match authMiddleware (authorization req) with
  | inl res => inl res
  | inr (userId, userType) =>
      match sellerOnly userType with
      | Some res => inl res
      | None => inr (getProfileHandler userId st)
      end
  end.

(** The body of [PUT /profile]: strings or [undefined]; the description
    may also be [null]. *)
Record ProfileBody : Type := mkProfileBody {
  p_businessName : option string;
  p_ownerName : option string;
  p_phone : option string;
  p_description : option (option string);
  p_offerings : option (list string)
}.

Definition ifTruthy (x : option string) : option string :=
  if truthyString x then x else None.

(** The [updateData] built by the handler of [PUT /profile]. *)
Definition profileUpdateData (now : Z) (b : ProfileBody) : ProfileData :=
  mkProfileData (Some now) (ifTruthy (p_businessName b))
    (ifTruthy (p_ownerName b)) (ifTruthy (p_phone b)) (p_description b) None.

(** The handler of [PUT /profile]. *)
Definition putProfileHandler (now : Z) (userId : Z) (b : ProfileBody)
    (st : Store) : Reply * Store :=
  match sellerByUserId userId (tables st) with
  | None => (reply_error 404 "Seller profile not found", st)
  | Some seller =>
      match updateProfile (profileUpdateData now b) (Seller.id seller) st with
      | None => (reply_error 500 "Failed to update profile", st)
      | Some st1 =>
          let replaced :=
            match p_offerings b with
            | None => inr st1
            | Some newOfferings =>
                let st2 := deleteOfferings (Seller.id seller) st1 in
                match newOfferings with
                | [] => inr st2
                | _ :: _ =>
                    match insertOfferings (Seller.id seller) newOfferings st2 with
                    | None => inl st2
                    | Some st3 => inr st3
                    end
                end
            end in
          match replaced with
          | inl failed => (reply_error 500 "Failed to update profile", failed)
          | inr st' =>
              match sellerById (Seller.id seller) (tables st') with
              | None => (reply_error 500 "Failed to update profile", st')
              | Some updatedSeller =>
                  (mkReply 200
                     (PProfile (sellerData (tables st') updatedSeller None) None),
                   st')
              end
          end
      end
  end.

(** [router.put('/profile', authMiddleware, sellerOnly, handler)]. *)
Definition putProfile (now : Z) (req : AuthRequest ProfileBody) (st : Store)
    : Answer * Store :=
  match authMiddleware (authorization req) with
  | inl res => (inl res, st)
  | inr (userId, userType) =>
      match sellerOnly userType with
      | Some res => (inl res, st)
      | None =>
          let (reply, st') := putProfileHandler now userId (body req) st in
          (inr reply, st')
      end
  end.

(** [PATCH /location] on the whole database. *)
Definition patchLocationStore (now : Z) (req : AuthRequest LocationBody)
    (st : Store) : Response * Store :=
  let (res, t) := patchLocation now req (tables st) in
  (res, withTables t st).

(** ** routes/admin.ts: the other routes *)

(** The handler of [GET /stats]. *)
Definition getStatsHandler (st : Store) : Reply :=
  let allUsers := users st in
  let allSellers := sellers (tables st) in
  let activeSellers := filter Seller.isActive allSellers in
  let ofType (t : string) :=
    filter (fun u => String.eqb (User.userType u) t) allUsers in
  mkReply 200
    (PStats (List.length allUsers) (List.length allSellers)
       (List.length activeSellers) (List.length (ofType "searcher"))
       (List.length (ofType "seller")) (List.length (ofType "admin"))).

(** [router.get('/stats', authMiddleware, adminOnly, handler)]. *)
Definition getStats (req : AuthRequest unit) (st : Store) : Answer :=
  match authMiddleware (authorization req) with
  | inl res => inl res
  | inr (_, userType) =>
      match adminOnly userType with
      | Some res => inl res
      | None => inr (getStatsHandler st)
      end
  end.

(** The body of [PUT /vendors/:id]. *)
Record VendorBody : Type := mkVendorBody {
  v_businessName : option string;
  v_ownerName : option string;
  v_phone : option string;
  v_description : option (option string);
  v_isActive : option bool
}.

(** The handler of [PUT /vendors/:id]: update, then 404 when [returning()]
    is empty. *)
Definition putVendorHandler (now : Z) (sellerId : Z) (b : VendorBody)
    (st : Store) : Reply * Store :=
  match updateProfile
          (mkProfileData (Some now) (v_businessName b) (v_ownerName b)
             (v_phone b) (v_description b) (v_isActive b))
          sellerId st with
  | None => (reply_error 500 "Failed to update vendor", st)
  | Some st' =>
      match sellerById sellerId (tables st') with
      | None => (reply_error 404 "Vendor not found", st')
      | Some updatedSeller =>
          (mkReply 200 (PVendor "Vendor updated successfully" updatedSeller),
           st')
      end
  end.

(** [router.put('/vendors/:id', authMiddleware, adminOnly, handler)]; the
    request carries the [:id] parameter and the body. *)
Definition putVendor (now : Z) (req : AuthRequest (Z * VendorBody))
    (st : Store) : Answer * Store :=
  match authMiddleware (authorization req) with
  | inl res => (inl res, st)
  | inr (_, userType) =>
      match adminOnly userType with
      | Some res => (inl res, st)
      | None =>
          let (reply, st') :=
            putVendorHandler now (fst (body req)) (snd (body req)) st in
          (inr reply, st')
      end
  end.

(** The handler of [DELETE /vendors/:id]. *)
Definition deleteVendorHandler (sellerId : Z) (st : Store) : Reply * Store :=
  match sellerById sellerId (tables st) with
  | None => (reply_error 404 "Vendor not found", st)
  | Some seller =>
      let st1 := deleteOfferings sellerId st in
      match deleteSellers sellerId st1 with
      | None => (reply_error 500 "Failed to delete vendor", st1)
      | Some st2 =>
          match deleteUsers (Seller.userId seller) st2 with
          | None => (reply_error 500 "Failed to delete vendor", st2)
          | Some st3 =>
              (mkReply 200 (PMessage "Vendor deleted successfully"), st3)
          end
      end
  end.

(** [router.delete('/vendors/:id', authMiddleware, adminOnly, handler)]. *)
Definition deleteVendor (req : AuthRequest Z) (st : Store) : Answer * Store :=
  match authMiddleware (authorization req) with
  | inl res => (inl res, st)
  | inr (_, userType) =>
      match adminOnly userType with
      | Some res => (inl res, st)
      | None =>
          let (reply, st') := deleteVendorHandler (body req) st in
          (inr reply, st')
      end
  end.

(** The handler of [DELETE /users/:id]; [reqUserId] is the caller. *)
Definition deleteUserHandler (reqUserId : Z) (userId : Z) (st : Store)
    : Reply * Store :=
  if userId =? reqUserId
  then (reply_error 400 "Cannot delete your own account", st)
  else
    match userById userId st with
    | None => (reply_error 404 "User not found", st)
    | Some user =>
        let cleared :=
          if String.eqb (User.userType user) "seller"
          then
            match sellerByUserId userId (tables st) with
            | None => inr st
            | Some seller =>
                let st1 := deleteOfferings (Seller.id seller) st in
                match deleteSellers (Seller.id seller) st1 with
                | None => inl st1
                | Some st2 => inr st2
                end
            end
          else inr st in
        match cleared with
        | inl failed => (reply_error 500 "Failed to delete user", failed)
        | inr st' =>
            match deleteUsers userId st' with
            | None => (reply_error 500 "Failed to delete user", st')
            | Some st'' =>
                (mkReply 200 (PMessage "User deleted successfully"), st'')
            end
        end
    end.

(** [router.delete('/users/:id', authMiddleware, adminOnly, handler)]. *)
Definition deleteUser (req : AuthRequest Z) (st : Store) : Answer * Store :=
  match authMiddleware (authorization req) with
  | inl res => (inl res, st)
  | inr (reqUserId, userType) =>
      match adminOnly userType with
      | Some res => (inl res, st)
      | None =>
          let (reply, st') := deleteUserHandler reqUserId (body req) st in
          (inr reply, st')
      end
  end.

(** [PUT /vendors/:id/toggle-active] on the whole database. *)
Definition toggleActiveStore (now : Z) (req : AuthRequest Z) (st : Store)
    : Response * Store :=
  let (res, t) := toggleActive now req (tables st) in
  (res, withTables t st).

(** ** routes/auth.ts *)

Record RegisterBody : Type := mkRegisterBody {
  r_email : option string;
  r_password : option string;
  r_businessName : option string;
  r_ownerName : option string;
  r_phone : option string;
  r_description : option string;
  r_offerings : option (list string)
}.

Record LoginBody : Type := mkLoginBody {
  l_email : option string;
  l_password : option string
}.

Section Accounts.

(** [jwt.sign] at a given clock and [bcrypt.compare], from the libraries. *)
Variable jwtSign : Z -> Z -> string -> string.
Variable bcryptCompare : string -> string -> bool.

(** [generateToken(userId, userType)] of middleware/auth.ts. *)
Definition generateToken (now : Z) (userId : Z) (userType : string) : string :=
  jwtSign now userId userType.

(** [router.post('/register', ...)]; [hashedPassword] is what
    [bcrypt.hash(password, 10)] returned in this call. *)
Definition register (now : Z) (hashedPassword : string) (b : RegisterBody)
    (st : Store) : Reply * Store :=
  if negb (truthyString (r_email b)) || negb (truthyString (r_password b))
     || negb (truthyString (r_businessName b))
     || negb (truthyString (r_ownerName b))
     || negb (truthyString (r_phone b))
  then (reply_error 400 "Missing required fields", st)
  else
    match userByEmail (text (r_email b)) st with
    | Some _ => (reply_error 400 "Email already registered", st)
    | None =>
        match insertUser now (text (r_email b)) hashedPassword "seller" st with
        | None => (reply_error 500 "Registration failed", st)
        | Some (newUser, st1) =>
            match insertSeller now (User.id newUser) (text (r_businessName b))
                    (text (r_ownerName b)) (text (r_phone b))
                    (Some (if truthyString (r_description b)
                           then text (r_description b) else ""))
                    st1 with
            | None => (reply_error 500 "Registration failed", st1)
            | Some (newSeller, st2) =>
                let inserted :=
                  match r_offerings b with
                  | Some (n :: l) =>
                      insertOfferings (Seller.id newSeller) (n :: l) st2
                  | _ => Some st2
                  end in
                match inserted with
                | None => (reply_error 500 "Registration failed", st2)
                | Some st3 =>
                    (mkReply 201
                       (PAccount (generateToken now (User.id newUser) "seller")
                          (User.id newUser) (User.email newUser) "seller"
                          (Some (SellerData.mk (Seller.id newSeller)
                                   (Seller.businessName newSeller)
                                   (Seller.ownerName newSeller)
                                   (Seller.phone newSeller)
                                   (Seller.description newSeller)
                                   (match r_offerings b with
                                    | Some l => l
                                    | None => []
                                    end)
                                   (Seller.isActive newSeller) None))),
                     st3)
                end
            end
        end
    end.

(** [router.post('/login', ...)]. *)
Definition login (now : Z) (b : LoginBody) (st : Store) : Reply :=
  if negb (truthyString (l_email b)) || negb (truthyString (l_password b))
  then reply_error 400 "Email and password required"
  else
    match userByEmail (text (l_email b)) st with
    | None => reply_error 401 "Invalid credentials"
    | Some user =>
        if negb (bcryptCompare (text (l_password b)) (User.password user))
        then reply_error 401 "Invalid credentials"
        else
          let seller :=
            if String.eqb (User.userType user) "seller"
            then
              match sellerByUserId (User.id user) (tables st) with
              | None => None
              | Some seller =>
                  Some (sellerData (tables st) seller
                          (Some (Seller.latitude seller,
                                 Seller.longitude seller)))
              end
            else None in
          mkReply 200
            (PAccount (generateToken now (User.id user) (User.userType user))
               (User.id user) (User.email user) (User.userType user) seller)
    end.

End Accounts.

(** ** The constraints of the schema *)

(** Primary keys and unique columns are distinct, references point to rows
    that exist, and no [serial] value is ahead of its sequence. *)
Record wellFormed (st : Store) : Prop := mkWellFormed {
  wf_user_ids : NoDup (map User.id (users st));
  wf_emails : NoDup (map User.email (users st));
  wf_seller_ids : NoDup (map Seller.id (sellers (tables st)));
  wf_seller_users : NoDup (map Seller.userId (sellers (tables st)));
  wf_offering_ids : NoDup (map Offering.id (offerings (tables st)));
  wf_seller_fk :
    forall s, In s (sellers (tables st)) ->
              In (Seller.userId s) (map User.id (users st));
  wf_offering_fk :
    forall o, In o (offerings (tables st)) ->
              In (Offering.sellerId o) (map Seller.id (sellers (tables st)));
  wf_user_seq : forall u, In u (users st) -> User.id u <= usersIdSeq st;
  wf_seller_seq :
    forall s, In s (sellers (tables st)) -> Seller.id s <= sellersIdSeq st;
  wf_offering_seq :
    forall o, In o (offerings (tables st)) -> Offering.id o <= offeringsIdSeq st
}.

(** The location columns are written together: both coordinates and the
    timestamp are present, or all three are absent. *)
Definition locationConsistent (s : Seller.t) : Prop :=
  (Seller.latitude s = None <-> Seller.longitude s = None) /\
  (Seller.latitude s = None <-> Seller.lastLocationUpdate s = None).

(** ** The specification's wording, for comparison with the code *)

Module Spec.
(** Staleness Evaluator: "absent timestamp => not fresh.  Otherwise fresh
    iff now - lastUpdate < 15 minutes". *)
Definition fresh (lastUpdate : option Z) (now : Z) : bool :=
  match lastUpdate with
  | None => false
  | Some t => now - t <? 15 * 60 * 1000
  end.

(** "latitude, longitude: optional<float>": a record bears coordinates
    when both are present. *)
Definition hasCoordinates (s : Seller.t) : bool :=
  match Seller.latitude s, Seller.longitude s with
  | Some _, Some _ => true
  | _, _ => false
  end.

(** Steps 1 to 3 of the Proximity Query Engine: active, fresh, bearing
    coordinates. *)
Definition survivors (now : Z) (db : Db) : list Seller.t :=
  filter (fun s => Seller.isActive s &&
                   fresh (Seller.lastLocationUpdate s) now &&
                   hasCoordinates s)
         (sellers db).
End Spec.

(** The rows that pass the code's [where] clause and bear coordinates. *)
Definition survivingSellers (now : Z) (db : Db) : list Seller.t :=
  filter (fun s => Seller.isActive s &&
                   isFresh (Seller.lastLocationUpdate s) now &&
                   Spec.hasCoordinates s)
         (sellers db).

(** No stored coordinate is exactly zero. *)
Definition noZeroCoordinate (s : Seller.t) : Prop :=
  Seller.latitude s <> Some 0%R /\ Seller.longitude s <> Some 0%R.

(** Equal distance, as a boolean. *)
Definition atDistance (d : R) (v : Vendor.t) : bool :=
  if Req_dec_T (Vendor.distance v) d then true else false.

(** [l'] keeps, among the elements at any one distance, the order of [l]. *)
Definition keepsTieOrder (l l' : list Vendor.t) : Prop :=
  forall d : R, filter (atDistance d) l' = filter (atDistance d) l.

Definition byDistance (v w : Vendor.t) : Prop :=
  (Vendor.distance v <= Vendor.distance w)%R.

(** ** Sample data *)

Module Sample.
(** A seller row as [POST /register] creates it, with the given location
    state. *)
Definition seller (id userId : Z) (isActive : bool) (lat lng : option R)
    (lastLocationUpdate : option Z) (updatedAt : Z) : Seller.t :=
  Seller.mk id userId "Sweet Treats" "John Doe" "555-0100" (Some "")
    isActive lat lng lastLocationUpdate 0 updatedAt.

Definition db (rows : list Seller.t) : Db :=
  mkDb rows [Offering.mk 1 1 "Vanilla"; Offering.mk 2 1 "Chocolate"].

(** Two active vendors with coordinates; the first reported at 500000,
    the second at 50000. *)
Definition twoVendors : Db :=
  db [seller 1 7 true (Some 40%R) (Some (-75)%R) (Some 500000) 0;
      seller 2 8 true (Some 41%R) (Some (-74)%R) (Some 50000) 0].

(** One active vendor whose last report, at 100000, is exactly 15 minutes
    old when the clock reads 1000000. *)
Definition staleAtBoundary : Db :=
  db [seller 1 7 true (Some 40%R) (Some (-75)%R) (Some 100000) 0].

(** One active vendor on the equator. *)
Definition onEquator : Db :=
  db [seller 1 7 true (Some 0%R) (Some (-75)%R) (Some 500000) 0].

Definition asSeller (userId : Z) (b : LocationBody)
    : AuthRequest LocationBody :=
  mkReq (Decoded userId "seller") b.
End Sample.

(** ** Auxiliary definitions for the statements *)


(** Two states of the tables with the same rows, the seller rows in any
    order. *)
Definition sameRows (db db' : Db) : Prop :=
  Permutation (sellers db) (sellers db') /\ offerings db = offerings db'.

(** The [radiusMiles] of a query. *)
Definition radiusMilesOf (q : ActiveQuery) : R :=
  match radius q with None => 50%R | Some r => r end.

(** A row whose [updatedAt] alone was written. *)
Definition touch (t : Z) (s : Seller.t) : Seller.t :=
  setRow (mkUpdateData (Some t) None None None None) s.

(** The active flag and the location columns of a row. *)
Definition locationState (s : Seller.t)
    : Z * bool * option R * option R * option Z :=
  (Seller.id s, Seller.isActive s, Seller.latitude s, Seller.longitude s,
   Seller.lastLocationUpdate s).

Definition sellerRequest {B : Type} (uid : Z) (b : B) : AuthRequest B :=
  mkReq (Decoded uid "seller") b.

Definition adminRequest {B : Type} (uid : Z) (b : B) : AuthRequest B :=
  mkReq (Decoded uid "admin") b.

(** The five fields [POST /register] requires. *)
Definition requiredFields (b : RegisterBody) : bool :=
  truthyString (r_email b) && truthyString (r_password b) &&
  truthyString (r_businessName b) && truthyString (r_ownerName b) &&
  truthyString (r_phone b).

(** The texts of a registration fit their columns. *)
Definition registrationFits (hashedPassword : string) (b : RegisterBody)
    : bool :=
  varcharFits 255 (text (r_email b)) && varcharFits 255 hashedPassword &&
  varcharFits 255 (text (r_businessName b)) &&
  varcharFits 255 (text (r_ownerName b)) &&
  varcharFits 50 (text (r_phone b)) &&
  forallb (varcharFits 100)
    (match r_offerings b with Some l => l | None => [] end).

(** [offeringsList || []]. *)
Definition offeringsList (b : RegisterBody) : list string :=
  match r_offerings b with Some l => l | None => [] end.

(** The rows a successful registration adds, and the database with them. *)
Definition registeredUser (now : Z) (hashedPassword : string)
    (b : RegisterBody) (st : Store) : User.t :=
  User.mk (usersIdSeq st + 1) (text (r_email b)) hashedPassword "seller" now now.

Definition registeredSeller (now : Z) (b : RegisterBody) (st : Store)
    : Seller.t :=
  Seller.mk (sellersIdSeq st + 1) (usersIdSeq st + 1) (text (r_businessName b))
    (text (r_ownerName b)) (text (r_phone b))
    (Some (if truthyString (r_description b) then text (r_description b) else ""))
    false None None None now now.

Definition registeredStore (now : Z) (hashedPassword : string)
    (b : RegisterBody) (st : Store) : Store :=
  mkStore
    (mkDb (sellers (tables st) ++ [registeredSeller now b st])
          (offerings (tables st) ++
           offeringRows (offeringsIdSeq st) (sellersIdSeq st + 1)
             (offeringsList b)))
    (users st ++ [registeredUser now hashedPassword b st])
    (usersIdSeq st + 1) (sellersIdSeq st + 1)
    (offeringsIdSeq st + Z.of_nat (List.length (offeringsList b))).

(** The database without the vendor [s]: its seller row, its offerings and
    its user removed. *)
Definition withoutVendor (s : Seller.t) (st : Store) : Store :=
  mkStore
    (mkDb (filter (fun r => negb (Seller.id r =? Seller.id s))
                  (sellers (tables st)))
          (filter (fun o => negb (Offering.sellerId o =? Seller.id s))
                  (offerings (tables st))))
    (filter (fun u => negb (User.id u =? Seller.userId s)) (users st))
    (usersIdSeq st) (sellersIdSeq st) (offeringsIdSeq st).

(** The texts of a [PUT /profile] body fit their columns. *)
Definition profileBodyFits (b : ProfileBody) : bool :=
  profileFits (profileUpdateData 0 b) &&
  forallb (varcharFits 100)
    (match p_offerings b with Some l => l | None => [] end).

(** The database after a successful [PUT /profile] on the row [s]. *)
Definition profileStored (now : Z) (b : ProfileBody) (s : Seller.t)
    (st : Store) : Store :=
  mkStore
    (mkDb (map (fun r => if Seller.id r =? Seller.id s
                         then setProfile (profileUpdateData now b) r else r)
               (sellers (tables st)))
          (match p_offerings b with
           | None => offerings (tables st)
           | Some l =>
               filter (fun o => negb (Offering.sellerId o =? Seller.id s))
                      (offerings (tables st)) ++
               offeringRows (offeringsIdSeq st) (Seller.id s) l
           end))
    (users st) (usersIdSeq st) (sellersIdSeq st)
    (match p_offerings b with
     | None => offeringsIdSeq st
     | Some l => offeringsIdSeq st + Z.of_nat (List.length l)
     end).

(** ** A sample database *)

Module Fixture.
Definition vendorUser : User.t :=
  User.mk 1 "seller@example.com" "stored-hash" "seller" 0 0.

Definition adminUser : User.t :=
  User.mk 2 "admin@example.com" "other-hash" "admin" 0 0.

(** A seller account whose user type was changed to admin by hand, as the
    README describes. *)
Definition promotedUser : User.t :=
  User.mk 3 "boss@example.com" "third-hash" "admin" 0 0.

Definition vendor : Seller.t :=
  Sample.seller 1 1 true (Some 40%R) (Some (-75)%R) (Some 500000) 0.

Definition promotedSeller : Seller.t :=
  Sample.seller 2 3 false None None None 0.

Definition store : Store :=
  mkStore (Sample.db [vendor]) [vendorUser; adminUser] 2 1 2.

Definition promoted : Store :=
  mkStore (Sample.db [vendor; promotedSeller])
    [vendorUser; adminUser; promotedUser] 3 2 2.

Definition newAccount : RegisterBody :=
  mkRegisterBody (Some "new@example.com") (Some "password123")
    (Some "Cool Cones") (Some "Jane Roe") (Some "555-0101") None
    (Some ["Mint"]).

(** The same registration with an offering name of more than 100
    characters. *)
Definition longOffering : RegisterBody :=
  mkRegisterBody (Some "new@example.com") (Some "password123")
    (Some "Cool Cones") (Some "Jane Roe") (Some "555-0101") None
    (Some ["Mint";
           "A very long name for an ice cream flavour that nobody will ever read to the end of, not even its maker"]).

Definition jwtSign (now userId : Z) (userType : string) : string :=
  "signed-token".

Definition bcryptCompare (password hash : string) : bool :=
  String.eqb hash ("hash-of-" ++ password).
End Fixture.

(** * Properties *)

(** ** Deciding comparisons of reals *)

Lemma truthy_zero : truthy (Some 0%R) = false.
Proof.
  unfold truthy. destruct (Req_dec_T 0 0) as [_ | n]; [reflexivity | ].
  exfalso; apply n; reflexivity.
Qed.

Lemma truthy_nonzero (x : R) : x <> 0%R -> truthy (Some x) = true.
Proof.
  intros Hx. unfold truthy. destruct (Req_dec_T x 0) as [e | _]; [ | reflexivity].
  contradiction.
Qed.

Lemma truthy_true_iff (o : option R) :
  truthy o = true <-> exists x, o = Some x /\ x <> 0%R.
Proof.
  destruct o as [x | ]; simpl.
  - destruct (Req_dec_T x 0) as [e | n]; split.
    + discriminate.
    + intros [y [Hy Hn]]. injection Hy as <-. contradiction.
    + intros _. exists x. split; [reflexivity | exact n].
    + reflexivity.
  - split; [discriminate | intros [x [Hx _]]; discriminate].
Qed.

Lemma decimalFits_true (x : R) :
  (Rabs (toScale7 x) < 1000)%R -> decimalFits x = true.
Proof.
  intros Hx. unfold decimalFits.
  destruct (Rlt_dec (Rabs (toScale7 x)) 1000); [reflexivity | contradiction].
Qed.

Lemma decimalFits_false (x : R) :
  (1000 <= Rabs (toScale7 x))%R -> decimalFits x = false.
Proof.
  intros Hx. unfold decimalFits.
  destruct (Rlt_dec (Rabs (toScale7 x)) 1000); [lra | reflexivity].
Qed.

(** ** Rounding to seven decimals *)

Section Rounding.
Open Scope R_scope.

Lemma Int_part_bounds (x : R) : IZR (Int_part x) <= x < IZR (Int_part x) + 1.
Proof. destruct (base_Int_part x). lra. Qed.

Lemma Int_part_unique (x : R) (z : Z) : IZR z <= x < IZR z + 1 -> Int_part x = z.
Proof. intros H. symmetry. apply Int_part_spec. lra. Qed.

Lemma roundHalfAway_IZR (n : Z) : roundHalfAway (IZR n) = n.
Proof.
  unfold roundHalfAway. destruct (Rle_dec 0 (IZR n)).
  - apply Int_part_unique. lra.
  - rewrite (Int_part_unique (- IZR n + / 2) (- n)); [lia | ].
    rewrite opp_IZR. lra.
Qed.


Lemma pow7_pos : 0 < 10 ^ 7.
Proof. apply pow_lt. lra. Qed.

Lemma pow7_IZR : 10 ^ 7 = IZR 10000000.
Proof. simpl. lra. Qed.

(** A number with at most seven decimals is stored as it is. *)
Lemma toScale7_exact (n : Z) : toScale7 (IZR n / 10 ^ 7) = IZR n / 10 ^ 7.
Proof.
  unfold toScale7. pose proof pow7_pos.
  replace (IZR n / 10 ^ 7 * 10 ^ 7) with (IZR n) by (field; lra).
  rewrite roundHalfAway_IZR. reflexivity.
Qed.

Lemma toScale7_IZR (n : Z) : toScale7 (IZR n) = IZR n.
Proof.
  pose proof pow7_pos as Hp.
  replace (IZR n) with (IZR (n * 10000000) / 10 ^ 7) at 1.
  - rewrite toScale7_exact. rewrite mult_IZR, pow7_IZR. field.
  - rewrite mult_IZR, pow7_IZR. field.
Qed.

Lemma toScale7_idempotent (x : R) : toScale7 (toScale7 x) = toScale7 x.
Proof. unfold toScale7 at 2 3. apply toScale7_exact. Qed.


Lemma roundHalfAway_lt (x : R) (n : Z) :
  (0 <= n)%Z -> (Z.abs (roundHalfAway x) < n)%Z <-> Rabs x < IZR n - / 2.
Proof.
  intros Hn. unfold roundHalfAway. destruct (Rle_dec 0 x) as [Hx | Hx].
  - pose proof (Int_part_bounds (x + / 2)) as [H1 H2].
    rewrite (Rabs_pos_eq x Hx).
    assert (H0 : (0 <= Int_part (x + / 2))%Z).
    { assert (-1 < Int_part (x + / 2))%Z; [ | lia]. apply lt_IZR. lra. }
    rewrite Z.abs_eq by exact H0. split; intros H.
    + assert (H3 : (Int_part (x + / 2) + 1 <= n)%Z) by lia.
      apply IZR_le in H3. rewrite plus_IZR in H3. lra.
    + apply lt_IZR. lra.
  - pose proof (Int_part_bounds (- x + / 2)) as [H1 H2].
    rewrite (Rabs_left x) by lra.
    assert (H0 : (0 <= Int_part (- x + / 2))%Z).
    { assert (-1 < Int_part (- x + / 2))%Z; [ | lia]. apply lt_IZR. lra. }
    rewrite Z.abs_opp, Z.abs_eq by exact H0. split; intros H.
    + assert (H3 : (Int_part (- x + / 2) + 1 <= n)%Z) by lia.
      apply IZR_le in H3. rewrite plus_IZR in H3. lra.
    + apply lt_IZR. lra.
Qed.

(** The column takes exactly the numbers of absolute value below
    999.99999995. *)
Lemma decimalFits_iff (x : R) :
  decimalFits x = true <-> Rabs x < 1000 - 5 / 10 ^ 8.
Proof.
  unfold decimalFits, toScale7. pose proof pow7_pos as Hp.
  assert (E : Rabs (IZR (roundHalfAway (x * 10 ^ 7)) / 10 ^ 7) < 1000 <->
              (Z.abs (roundHalfAway (x * 10 ^ 7)) < 10000000000)%Z).
  { unfold Rdiv. rewrite Rabs_mult, (Rabs_pos_eq (/ 10 ^ 7)).
    2:{ left. now apply Rinv_0_lt_compat. }
    rewrite <- abs_IZR. split; intros H.
    - apply lt_IZR.
      apply (Rmult_lt_compat_r (10 ^ 7)) in H; [ | exact Hp].
      rewrite Rmult_assoc, Rinv_l, Rmult_1_r in H by lra.
      pose proof pow7_IZR. lra.
    - apply IZR_lt in H.
      apply (Rmult_lt_reg_r (10 ^ 7)); [exact Hp | ].
      rewrite Rmult_assoc, Rinv_l, Rmult_1_r by lra.
      pose proof pow7_IZR. lra. }
  assert (F : Rabs (x * 10 ^ 7) < IZR 10000000000 - / 2 <->
              Rabs x < 1000 - 5 / 10 ^ 8).
  { rewrite Rabs_mult, (Rabs_pos_eq (10 ^ 7)) by lra.
    replace (10 ^ 8) with (10 * 10 ^ 7) by reflexivity.
    pose proof pow7_IZR as E7. split; intros H.
    - apply (Rmult_lt_reg_r (10 ^ 7)); [exact Hp | ].
      replace ((1000 - 5 / (10 * 10 ^ 7)) * 10 ^ 7)
        with (IZR 10000000000 - / 2) by (rewrite E7; field).
      exact H.
    - apply (Rmult_lt_compat_r (10 ^ 7)) in H; [ | exact Hp].
      replace ((1000 - 5 / (10 * 10 ^ 7)) * 10 ^ 7)
        with (IZR 10000000000 - / 2) in H by (rewrite E7; field).
      exact H. }
  rewrite <- F, <- (roundHalfAway_lt _ 10000000000) by lia.
  destruct (Rlt_dec _ 1000) as [H | H].
  - split; [intros _ | reflexivity]. now apply E.
  - split; [discriminate | intros Hx]. exfalso. apply H. now apply E.
Qed.

End Rounding.

Lemma withinRadius_true (r : R) (v : Vendor.t) :
  (Vendor.distance v <= r)%R -> withinRadius r v = true.
Proof.
  intros H. unfold withinRadius. destruct (Rle_dec (Vendor.distance v) r); [reflexivity | contradiction].
Qed.

Lemma withinRadius_iff (r : R) (v : Vendor.t) :
  withinRadius r v = true <-> (Vendor.distance v <= r)%R.
Proof.
  unfold withinRadius. destruct (Rle_dec (Vendor.distance v) r); split; auto; discriminate.
Qed.

(** Closes goals about absolute values of numerals. *)
Ltac rabs := unfold Rabs; destruct (Rcase_abs _); lra.

(** ** Staleness check *)

Lemma isFresh_absent (now : Z) : isFresh None now = false.
Proof. reflexivity. Qed.

(** C1, as the code has it: a timestamp is fresh iff it is present and at
    most 15 minutes old; the boundary itself counts as fresh. *)
Theorem isFresh_iff (lastUpdate : option Z) (now : Z) :
  isFresh lastUpdate now = true <->
  exists t, lastUpdate = Some t /\ now - t <= 15 * 60 * 1000.
Proof.
  unfold isFresh, gte, staleThreshold, STALE_THRESHOLD_MINUTES.
  destruct lastUpdate as [t | ].
  - rewrite Z.leb_le. split.
    + intros H. exists t. split; [reflexivity | lia].
    + intros [t' [Ht H]]. injection Ht as <-. lia.
  - split; [discriminate | intros [t [Ht _]]; discriminate].
Qed.

(** C1, refuted as worded: a timestamp exactly 15 minutes old passes the
    code's check although [now - lastUpdate < 15 minutes] fails. *)
Lemma isFresh_boundary_counterexample :
  isFresh (Some 0) 900000 = true /\
  ~ (900000 - 0 < 15 * 60 * 1000) /\
  Spec.fresh (Some 0) 900000 = false.
Proof.
  split; [reflexivity | split; [lia | reflexivity]].
Qed.

(** ** Distance Calculator *)

Lemma atan2_0_1 : atan2 0 1 = 0%R.
Proof.
  unfold atan2. destruct (Rlt_dec 0 1) as [_ | n]; [ | exfalso; apply n; lra].
  replace (0 / 1)%R with 0%R by lra. exact atan_0.
Qed.

Lemma calculateDistance_sym (lat1 lon1 lat2 lon2 : R) :
  calculateDistance lat1 lon1 lat2 lon2 = calculateDistance lat2 lon2 lat1 lon1.
Proof.
  unfold calculateDistance.
  replace ((lat1 - lat2) * PI / 180 / 2)%R
    with (- ((lat2 - lat1) * PI / 180 / 2))%R by lra.
  replace ((lon1 - lon2) * PI / 180 / 2)%R
    with (- ((lon2 - lon1) * PI / 180 / 2))%R by lra.
  rewrite !sin_neg.
  set (s := sin ((lat2 - lat1) * PI / 180 / 2)).
  set (u := sin ((lon2 - lon1) * PI / 180 / 2)).
  set (c1 := cos (lat1 * PI / 180)).
  set (c2 := cos (lat2 * PI / 180)).
  replace (- s * - s + c2 * c1 * - u * - u)%R with (s * s + c1 * c2 * u * u)%R by ring.
  reflexivity.
Qed.

Lemma calculateDistance_self (lat lon : R) :
  calculateDistance lat lon lat lon = 0%R.
Proof.
  unfold calculateDistance.
  replace ((lat - lat) * PI / 180 / 2)%R with 0%R by lra.
  replace ((lon - lon) * PI / 180 / 2)%R with 0%R by lra.
  rewrite sin_0.
  replace (0 * 0 + cos (lat * PI / 180) * cos (lat * PI / 180) * 0 * 0)%R
    with 0%R by ring.
  replace (1 - 0)%R with 1%R by ring.
  rewrite sqrt_0, sqrt_1, atan2_0_1. ring.
Qed.

(** C7: the distance is symmetric in its two points, and the distance from
    a point to itself is zero. *)
Theorem calculateDistance_symmetric_and_zero_on_diagonal :
  (forall lat1 lon1 lat2 lon2 : R,
      calculateDistance lat1 lon1 lat2 lon2 =
      calculateDistance lat2 lon2 lat1 lon1) /\
  (forall lat lon : R, calculateDistance lat lon lat lon = 0%R).
Proof.
  split.
  - exact calculateDistance_sym.
  - exact calculateDistance_self.
Qed.

(** ** The sellers table under [update ... where id = sid] *)

Lemma setRow_id (u : UpdateData) (s : Seller.t) :
  Seller.id (setRow u s) = Seller.id s.
Proof. reflexivity. Qed.

Lemma sellerByUserId_some (uid : Z) (db : Db) (s : Seller.t) :
  sellerByUserId uid db = Some s -> In s (sellers db) /\ Seller.userId s = uid.
Proof.
  unfold sellerByUserId. intros H. apply find_some in H.
  destruct H as [Hin Heq]. split; [exact Hin | now apply Z.eqb_eq].
Qed.

Lemma find_updated_row (u : UpdateData) (s : Seller.t) (l : list Seller.t) :
  NoDup (map Seller.id l) -> In s l ->
  find (fun r => Seller.id r =? Seller.id s) (rowsAfter u (Seller.id s) l)
  = Some (setRow u s).
Proof.
  induction l as [ | a l IH]; simpl; intros Hnd Hin; [contradiction | ].
  inversion Hnd as [ | x xs Hnotin Hnd']; subst.
  destruct (Seller.id a =? Seller.id s) eqn:E.
  - rewrite setRow_id, E.
    destruct Hin as [-> | Hin]; [reflexivity | ].
    exfalso. apply Hnotin. apply Z.eqb_eq in E. rewrite E.
    now apply in_map.
  - rewrite E. destruct Hin as [-> | Hin].
    + rewrite Z.eqb_refl in E. discriminate.
    + now apply IH.
Qed.

Lemma find_rowsAfter (u : UpdateData) (sid : Z) (l : list Seller.t) :
  find (fun r => Seller.id r =? sid) (rowsAfter u sid l)
  = option_map (setRow u) (find (fun r => Seller.id r =? sid) l).
Proof.
  induction l as [ | a l IH]; simpl; [reflexivity | ].
  destruct (Seller.id a =? sid) eqn:E.
  - rewrite setRow_id, E. reflexivity.
  - rewrite E. exact IH.
Qed.

(** A seller's [PATCH /location] on an existing record whose update the
    columns accept: the answer is the updated row, read back. *)
Lemma patchLocation_found (now uid : Z) (req : AuthRequest LocationBody)
    (db : Db) (s : Seller.t) (u : UpdateData) :
  authorization req = Decoded uid "seller" ->
  sellerByUserId uid db = Some s ->
  NoDup (map Seller.id (sellers db)) ->
  locationUpdateData now (body req) = Some u ->
  columnAccepts (u_latitude u) && columnAccepts (u_longitude u) = true ->
  let s' := setRow u s in
  patchLocation now req db =
  (res_json (JLocation (Seller.isActive s') (Seller.latitude s')
               (Seller.longitude s') (Seller.lastLocationUpdate s')),
   mkDb (rowsAfter u (Seller.id s) (sellers db)) (offerings db)).
Proof.
  intros Hauth Hfind Hnd Hu Hcols s'.
  unfold patchLocation. rewrite Hauth. simpl.
  unfold patchLocationHandler. rewrite Hfind, Hu.
  unfold updateSellers. rewrite Hcols.
  unfold sellerById. simpl sellers.
  apply sellerByUserId_some in Hfind. destruct Hfind as [Hin _].
  rewrite (find_updated_row _ s _ Hnd Hin). reflexivity.
Qed.






(** ** Deactivation *)


(** The admin's [toggle-active] at a concrete table: the flag goes off and
    the location stays in the row. *)
Lemma toggleActive_sample :
  toggleActive 2000 (mkReq (Decoded 9 "admin") 1)
    (Sample.db [Sample.seller 1 7 true (Some 40%R) (Some (-75)%R) (Some 1000) 0])
  = (res_json (JToggle "Vendor deactivated successfully" false),
     Sample.db [Sample.seller 1 7 false (Some 40%R) (Some (-75)%R) (Some 1000)
                  2000]).
Proof. reflexivity. Qed.

(** C2, what the code does where the claim fails: the admin's
    [toggle-active] on an active vendor turns the flag off and leaves
    latitude, longitude and lastLocationUpdate as they were. *)
Theorem toggleActive_keeps_location (now uid : Z) (req : AuthRequest Z)
    (db : Db) (s : Seller.t) :
  authorization req = Decoded uid "admin" ->
  sellerById (body req) db = Some s ->
  Seller.isActive s = true ->
  exists db',
    toggleActive now req db =
      (res_json (JToggle "Vendor deactivated successfully" false), db') /\
    exists s', sellerById (body req) db' = Some s' /\
               Seller.isActive s' = false /\
               Seller.latitude s' = Seller.latitude s /\
               Seller.longitude s' = Seller.longitude s /\
               Seller.lastLocationUpdate s' = Seller.lastLocationUpdate s.
Proof.
  intros Hauth Hfind Hon.
  assert (Hback : sellerById (body req)
                    (mkDb (rowsAfter (toggleUpdateData now s) (body req) (sellers db))
                          (offerings db))
                  = Some (setRow (toggleUpdateData now s) s)).
  { unfold sellerById in *. simpl sellers. rewrite find_rowsAfter, Hfind.
    reflexivity. }
  eexists. split.
  - unfold toggleActive. rewrite Hauth. simpl.
    unfold toggleActiveHandler. rewrite Hfind.
    unfold updateSellers. simpl columnAccepts. simpl andb. cbv iota.
    rewrite Hback. simpl. rewrite Hon. reflexivity.
  - exists (setRow (toggleUpdateData now s) s). split; [exact Hback | ].
    simpl. rewrite Hon. tauto.
Qed.

Lemma toggleActive_keeps_location_witness :
  exists db',
    toggleActive 2000 (mkReq (Decoded 9 "admin") 1)
      (Sample.db [Sample.seller 1 7 true (Some 40%R) (Some (-75)%R) (Some 1000) 0])
    = (res_json (JToggle "Vendor deactivated successfully" false), db') /\
    exists s', sellerById 1 db' = Some s' /\
               Seller.isActive s' = false /\
               Seller.latitude s' = Some 40%R /\
               Seller.longitude s' = Some (-75)%R /\
               Seller.lastLocationUpdate s' = Some 1000.
Proof.
  apply (toggleActive_keeps_location 2000 9 (mkReq (Decoded 9 "admin") 1)
           (Sample.db [Sample.seller 1 7 true (Some 40%R) (Some (-75)%R)
                         (Some 1000) 0])
           (Sample.seller 1 7 true (Some 40%R) (Some (-75)%R) (Some 1000) 0)).
  - reflexivity.
  - reflexivity.
  - reflexivity.
Defined.

(** ** Error answers of [PATCH /location] *)

(** C8: a caller without the seller role is answered 403, a seller without
    a record 404, and in both cases the database is returned untouched. *)
Theorem patchLocation_errors_leave_state (now uid : Z) (ut : string)
    (req : AuthRequest LocationBody) (db : Db) :
  authorization req = Decoded uid ut ->
  ut <> "seller" \/ sellerByUserId uid db = None ->
  patchLocation now req db =
  (if String.eqb ut "seller"
   then res_error 404 "Seller profile not found"
   else res_error 403 "Seller access required",
   db).
Proof.
  intros Hauth Hcase.
  unfold patchLocation. rewrite Hauth. simpl. unfold sellerOnly.
  destruct (String.eqb ut "seller") eqn:E.
  - apply String.eqb_eq in E.
    destruct Hcase as [Hne | Hnone]; [contradiction | ].
    unfold patchLocationHandler. rewrite Hnone. reflexivity.
  - reflexivity.
Qed.

Lemma patchLocation_errors_leave_state_witness :
  patchLocation 5000
    (mkReq (Decoded 3 "searcher") (mkLocationBody (Some (Number 40)) (Some (Number (-75))) None))
    (Sample.db [Sample.seller 1 7 true None None None 0])
  = (res_error 403 "Seller access required",
     Sample.db [Sample.seller 1 7 true None None None 0]) /\
  patchLocation 5000
    (mkReq (Decoded 8 "seller") (mkLocationBody None None (Some false)))
    (Sample.db [Sample.seller 1 7 true None None None 0])
  = (res_error 404 "Seller profile not found",
     Sample.db [Sample.seller 1 7 true None None None 0]).
Proof.
  split.
  - apply (patchLocation_errors_leave_state 5000 3 "searcher");
      [reflexivity | left; discriminate].
  - apply (patchLocation_errors_leave_state 5000 8 "seller");
      [reflexivity | right; reflexivity].
Defined.

(** ** Location writes *)

(** The update built for a body with both coordinates and no
    deactivation. *)
Lemma locationUpdateData_coordinates (now : Z) (b : LocationBody)
    (latitude longitude : BodyValue) (lat lng : DecimalText) :
  b_latitude b = Some latitude -> b_longitude b = Some longitude ->
  toString latitude = Some lat -> toString longitude = Some lng ->
  b_isActive b <> Some false ->
  locationUpdateData now b =
  Some (mkUpdateData (Some now) (Some (Some lat)) (Some (Some lng))
          (Some (Some now)) (b_isActive b)).
Proof.
  intros Hlat Hlng Tlat Tlng Hact. unfold locationUpdateData.
  rewrite Hlat, Hlng, Tlat, Tlng.
  destruct (b_isActive b) as [[ | ] | ]; simpl; try reflexivity.
  exfalso. apply Hact. reflexivity.
Qed.


(** A number below 999.99999995 in absolute value is written, rounded. *)
Lemma columnAccepts_numeral (x : R) :
  (Rabs x < 1000 - 5 / 10 ^ 8)%R ->
  columnAccepts (Some (Some (Numeral x))) = true.
Proof. intros H. simpl. now apply decimalFits_iff. Qed.

Lemma columnAccepts_overflow (x : R) :
  (1000 - 5 / 10 ^ 8 <= Rabs x)%R ->
  columnAccepts (Some (Some (Numeral x))) = false.
Proof.
  intros H. simpl. destruct (decimalFits x) eqn:E; [ | reflexivity].
  apply decimalFits_iff in E. lra.
Qed.

(** What the column does with three numbers: 40.123456789 is stored as
    40.1234568, 0.00000004 as 0, and 999.99999999 is refused. *)
Lemma decimal_column_samples :
  toScale7 (40123456789 / 10 ^ 9) = (401234568 / 10 ^ 7)%R /\
  toScale7 (4 / 10 ^ 8) = 0%R /\
  columnAccepts (Some (Some (Numeral (99999999999 / 10 ^ 8)))) = false.
Proof.
  pose proof pow7_pos as Hp. split; [ | split].
  - unfold toScale7, roundHalfAway.
    destruct (Rle_dec 0 (40123456789 / 10 ^ 9 * 10 ^ 7)) as [H | H].
    + rewrite (Int_part_unique _ 401234568); [reflexivity | ].
      simpl. lra.
    + exfalso. apply H. simpl. lra.
  - unfold toScale7, roundHalfAway.
    destruct (Rle_dec 0 (4 / 10 ^ 8 * 10 ^ 7)) as [H | H].
    + rewrite (Int_part_unique _ 0); [simpl; lra | ].
      simpl. lra.
    + exfalso. apply H. simpl. lra.
  - apply columnAccepts_overflow. unfold Rabs.
    destruct (Rcase_abs _); simpl in *; lra.
Qed.

(** C6, refuted as worded: an inactive vendor sends a bare location write;
    the answer is 200, the coordinates are stored and the flag stays off. *)
Lemma inactive_vendor_gains_coordinates :
  Seller.isActive (Sample.seller 1 7 false None None None 0) = false /\
  patchLocation 5000
    (Sample.asSeller 7 (mkLocationBody (Some (Number 40)) (Some (Number (-75))) None))
    (Sample.db [Sample.seller 1 7 false None None None 0])
  = (res_json (JLocation false (Some 40%R) (Some (-75)%R) (Some 5000)),
     Sample.db [Sample.seller 1 7 false (Some 40%R) (Some (-75)%R) (Some 5000)
                  5000]).
Proof.
  split; [reflexivity | ].
  rewrite (patchLocation_found 5000 7 _ _
             (Sample.seller 1 7 false None None None 0)
             (mkUpdateData (Some 5000) (Some (Some (Numeral 40)))
                (Some (Some (Numeral (-75)))) (Some (Some 5000)) None)).
  - cbn -[toScale7]. unfold setRow. cbn -[toScale7].
    rewrite !toScale7_IZR. reflexivity.
  - reflexivity.
  - reflexivity.
  - simpl. repeat constructor. simpl. tauto.
  - reflexivity.
  - cbn [u_latitude u_longitude].
    rewrite !columnAccepts_numeral by rabs. reflexivity.
Qed.

(** C6, as the code has it: a location write with [isActive] left out, sent
    by a vendor whose flag is off, is accepted; the coordinates, rounded to
    seven decimals by their columns, and the write time are stored and the
    flag stays off. *)
Theorem setLocation_on_inactive_vendor_stores (now uid : Z)
    (req : AuthRequest LocationBody) (db : Db) (s : Seller.t) (lat lng : R) :
  authorization req = Decoded uid "seller" ->
  body req = mkLocationBody (Some (Number lat)) (Some (Number lng)) None ->
  sellerByUserId uid db = Some s ->
  NoDup (map Seller.id (sellers db)) ->
  Seller.isActive s = false ->
  (Rabs lat < 1000 - 5 / 10 ^ 8)%R -> (Rabs lng < 1000 - 5 / 10 ^ 8)%R ->
  exists db',
    patchLocation now req db =
      (res_json (JLocation false (Some (toScale7 lat)) (Some (toScale7 lng))
                   (Some now)), db') /\
    exists s', sellerById (Seller.id s) db' = Some s' /\
               Seller.isActive s' = false /\
               Seller.latitude s' = Some (toScale7 lat) /\
               Seller.longitude s' = Some (toScale7 lng) /\
               Seller.lastLocationUpdate s' = Some now.
Proof.
  intros Hauth Hbody Hfind Hnd Hoff Hlat Hlng.
  assert (Hu : locationUpdateData now (body req) =
               Some (mkUpdateData (Some now) (Some (Some (Numeral lat)))
                       (Some (Some (Numeral lng))) (Some (Some now)) None)).
  { rewrite Hbody. reflexivity. }
  eexists. split.
  - rewrite (patchLocation_found now uid req db s _ Hauth Hfind Hnd Hu).
    + cbn -[toScale7]. rewrite Hoff. reflexivity.
    + cbn [u_latitude u_longitude].
      rewrite !columnAccepts_numeral by assumption. reflexivity.
  - eexists.
    unfold sellerById. simpl sellers.
    apply sellerByUserId_some in Hfind. destruct Hfind as [Hin _].
    rewrite (find_updated_row _ s _ Hnd Hin).
    split; [reflexivity | ]. unfold setRow. cbn -[toScale7].
    rewrite Hoff. tauto.
Qed.

Lemma setLocation_on_inactive_vendor_stores_witness :
  exists db',
    patchLocation 5000
      (Sample.asSeller 7 (mkLocationBody (Some (Number 12)) (Some (Number 34)) None))
      (Sample.db [Sample.seller 1 7 false None None None 0])
    = (res_json (JLocation false (Some 12%R) (Some 34%R) (Some 5000)), db') /\
    exists s', sellerById 1 db' = Some s' /\
               Seller.isActive s' = false /\
               Seller.latitude s' = Some 12%R /\
               Seller.longitude s' = Some 34%R /\
               Seller.lastLocationUpdate s' = Some 5000.
Proof.
  replace (Some 12%R) with (Some (toScale7 12)) by (now rewrite toScale7_IZR).
  replace (Some 34%R) with (Some (toScale7 34)) by (now rewrite toScale7_IZR).
  apply (setLocation_on_inactive_vendor_stores 5000 7 _ _
           (Sample.seller 1 7 false None None None 0) 12%R 34%R).
  - reflexivity.
  - reflexivity.
  - reflexivity.
  - simpl. repeat constructor. simpl. tauto.
  - reflexivity.
  - rabs.
  - rabs.
Defined.




(** ** The stable sort by distance *)

Section SortByDistance.

Lemma insertByDistance_perm (v : Vendor.t) (l : list Vendor.t) :
  Permutation (v :: l) (insertByDistance v l).
Proof.
  induction l as [ | w l IH]; simpl.
  - apply Permutation_refl.
  - destruct (Rle_dec (Vendor.distance v) (Vendor.distance w)).
    + apply Permutation_refl.
    + apply perm_trans with (w :: v :: l); [apply perm_swap | ].
      apply perm_skip. exact IH.
Qed.

Lemma sortByDistance_perm (l : list Vendor.t) :
  Permutation l (sortByDistance l).
Proof.
  induction l as [ | v l IH]; simpl.
  - apply perm_nil.
  - apply perm_trans with (v :: sortByDistance l).
    + apply perm_skip. exact IH.
    + apply insertByDistance_perm.
Qed.

Lemma insertByDistance_sorted (v : Vendor.t) (l : list Vendor.t) :
  StronglySorted byDistance l -> StronglySorted byDistance (insertByDistance v l).
Proof.
  induction l as [ | w l IH]; simpl; intros Hs.
  - constructor; constructor.
  - inversion Hs as [ | x xs Hs' Hall]; subst.
    destruct (Rle_dec (Vendor.distance v) (Vendor.distance w)) as [Hle | Hgt].
    + constructor; [exact Hs | ].
      constructor; [exact Hle | ].
      eapply Forall_impl; [ | exact Hall].
      intros x Hx. unfold byDistance in *. lra.
    + constructor; [apply IH; exact Hs' | ].
      apply (Permutation_Forall (insertByDistance_perm v l)).
      constructor; [ | exact Hall].
      unfold byDistance. lra.
Qed.

Lemma sortByDistance_sorted (l : list Vendor.t) :
  StronglySorted byDistance (sortByDistance l).
Proof.
  induction l as [ | v l IH]; simpl.
  - constructor.
  - apply insertByDistance_sorted. exact IH.
Qed.

Lemma insertByDistance_ties (d : R) (v : Vendor.t) (l : list Vendor.t) :
  filter (atDistance d) (insertByDistance v l) = filter (atDistance d) (v :: l).
Proof.
  induction l as [ | w l IH]; [reflexivity | ].
  simpl insertByDistance.
  destruct (Rle_dec (Vendor.distance v) (Vendor.distance w)) as [Hle | Hgt];
    [reflexivity | ].
  change (filter (atDistance d) (w :: insertByDistance v l))
    with (if atDistance d w
          then w :: filter (atDistance d) (insertByDistance v l)
          else filter (atDistance d) (insertByDistance v l)).
  rewrite IH. simpl. unfold atDistance.
  destruct (Req_dec_T (Vendor.distance w) d) as [Hw | Hw];
    destruct (Req_dec_T (Vendor.distance v) d) as [Hv | Hv];
    try reflexivity.
  exfalso. lra.
Qed.

Lemma sortByDistance_ties (l : list Vendor.t) :
  keepsTieOrder l (sortByDistance l).
Proof.
  intros d. induction l as [ | v l IH]; [reflexivity | ].
  simpl sortByDistance. rewrite insertByDistance_ties.
  simpl. rewrite IH. reflexivity.
Qed.

Lemma atDistance_self (v : Vendor.t) : atDistance (Vendor.distance v) v = true.
Proof.
  unfold atDistance.
  destruct (Req_dec_T (Vendor.distance v) (Vendor.distance v)) as [_ | n];
    [reflexivity | exfalso; apply n; reflexivity].
Qed.

Lemma atDistance_true (d : R) (v : Vendor.t) :
  atDistance d v = true -> Vendor.distance v = d.
Proof.
  unfold atDistance. destruct (Req_dec_T (Vendor.distance v) d); [auto | discriminate].
Qed.

(** Two ascending lists that agree on the order within every distance are
    the same list: a stable sort has one possible answer, whatever the
    algorithm behind [Array.prototype.sort]. *)
Lemma sorted_ties_unique (l1 l2 : list Vendor.t) :
  StronglySorted byDistance l1 -> StronglySorted byDistance l2 ->
  (forall d, filter (atDistance d) l1 = filter (atDistance d) l2) ->
  l1 = l2.
Proof.
  revert l2. induction l1 as [ | a l1 IH]; intros l2 Hs1 Hs2 Hties.
  - destruct l2 as [ | b l2]; [reflexivity | ].
    specialize (Hties (Vendor.distance b)). simpl in Hties.
    rewrite atDistance_self in Hties. discriminate.
  - destruct l2 as [ | b l2].
    + specialize (Hties (Vendor.distance a)). simpl in Hties.
      rewrite atDistance_self in Hties. discriminate.
    + inversion Hs1 as [ | x xs Hs1' Hall1]; subst.
      inversion Hs2 as [ | y ys Hs2' Hall2]; subst.
      assert (Hab : (Vendor.distance a <= Vendor.distance b)%R).
      { pose proof (Hties (Vendor.distance b)) as H. simpl in H.
        rewrite (atDistance_self b) in H.
        destruct (atDistance (Vendor.distance b) a) eqn:E.
        - apply atDistance_true in E. lra.
        - assert (Hin : In b (filter (atDistance (Vendor.distance b)) l1)).
          { rewrite H. left. reflexivity. }
          apply filter_In in Hin. destruct Hin as [Hin _].
          rewrite Forall_forall in Hall1. exact (Hall1 b Hin). }
      assert (Hba : (Vendor.distance b <= Vendor.distance a)%R).
      { pose proof (Hties (Vendor.distance a)) as H. simpl in H.
        rewrite (atDistance_self a) in H.
        destruct (atDistance (Vendor.distance a) b) eqn:E.
        - apply atDistance_true in E. lra.
        - assert (Hin : In a (filter (atDistance (Vendor.distance a)) l2)).
          { rewrite <- H. left. reflexivity. }
          apply filter_In in Hin. destruct Hin as [Hin _].
          rewrite Forall_forall in Hall2. exact (Hall2 a Hin). }
      assert (Heq : Vendor.distance a = Vendor.distance b) by lra.
      assert (a = b) as ->.
      { pose proof (Hties (Vendor.distance a)) as H. simpl in H.
        rewrite (atDistance_self a) in H. rewrite Heq in H.
        rewrite (atDistance_self b) in H. congruence. }
      f_equal. apply IH; [exact Hs1' | exact Hs2' | ].
      intros d. specialize (Hties d). simpl in Hties.
      destruct (atDistance d b); congruence.
Qed.

(** Any ascending, tie-preserving arrangement of [l] is [sortByDistance l]. *)
Lemma stable_sort_unique (l l' : list Vendor.t) :
  StronglySorted byDistance l' -> keepsTieOrder l l' -> l' = sortByDistance l.
Proof.
  intros Hs Hk. apply sorted_ties_unique.
  - exact Hs.
  - apply sortByDistance_sorted.
  - intros d. rewrite (Hk d). symmetry. apply sortByDistance_ties.
Qed.

End SortByDistance.

(** ** The discovery query *)

Lemma filter_map_swap {A B : Type} (f : A -> B) (p : B -> bool) (l : list A) :
  filter p (map f l) = map f (filter (fun x => p (f x)) l).
Proof.
  induction l as [ | x l IH]; simpl; [reflexivity | ].
  destruct (p (f x)); simpl; rewrite IH; reflexivity.
Qed.

Lemma filter_filter {A : Type} (p q : A -> bool) (l : list A) :
  filter q (filter p l) = filter (fun x => p x && q x) l.
Proof.
  induction l as [ | x l IH]; simpl; [reflexivity | ].
  destruct (p x); simpl; [destruct (q x) | ]; rewrite IH; reflexivity.
Qed.

Lemma filter_ext_Forall {A : Type} (P : A -> Prop) (p q : A -> bool)
    (l : list A) :
  Forall P l -> (forall x, P x -> p x = q x) -> filter p l = filter q l.
Proof.
  intros Hall Hpq. induction Hall as [ | x l Hx Hall IH]; simpl; [reflexivity | ].
  rewrite (Hpq x Hx), IH. reflexivity.
Qed.

(** Without a truthy origin the callback leaves the distance at zero. *)
Lemma vendorWithOfferings_no_origin (userLat userLng : option R) (db : Db)
    (s : Seller.t) :
  truthy userLat && truthy userLng = false ->
  vendorWithOfferings userLat userLng db s = vendorWithOfferings None None db s.
Proof.
  intros H. unfold vendorWithOfferings. rewrite H. reflexivity.
Qed.

Lemma vendorWithOfferings_distance (a b x y : R) (db : Db) (s : Seller.t) :
  a <> 0%R -> b <> 0%R ->
  Seller.latitude s = Some x -> Seller.longitude s = Some y ->
  x <> 0%R -> y <> 0%R ->
  Vendor.distance (vendorWithOfferings (Some a) (Some b) db s) =
  calculateDistance a b x y.
Proof.
  intros Ha Hb Hx Hy Hx0 Hy0. unfold vendorWithOfferings.
  cbv beta iota zeta delta [Vendor.distance].
  rewrite Hx, Hy, !truthy_nonzero by assumption. reflexivity.
Qed.

(** For a row without a zero coordinate, truthiness is presence. *)
Lemma truthy_coordinates_present (s : Seller.t) :
  noZeroCoordinate s ->
  truthy (Seller.latitude s) && truthy (Seller.longitude s) =
  Spec.hasCoordinates s.
Proof.
  intros [Hlat Hlng]. unfold Spec.hasCoordinates.
  destruct (Seller.latitude s) as [x | ]; [ | reflexivity].
  destruct (Seller.longitude s) as [y | ].
  - rewrite !truthy_nonzero; [reflexivity | | ]; intros ->; [apply Hlng | apply Hlat]; reflexivity.
  - apply andb_false_r.
Qed.

(** The vendors that pass the filter of line 72, as rows of the table. *)
Lemma filteredVendors_rows (userLat userLng : option R) (now : Z) (db : Db) :
  filter hasTruthyCoordinates
    (map (vendorWithOfferings userLat userLng db) (activeSellers now db)) =
  map (vendorWithOfferings userLat userLng db)
    (filter (fun s => Seller.isActive s &&
                      isFresh (Seller.lastLocationUpdate s) now &&
                      (truthy (Seller.latitude s) && truthy (Seller.longitude s)))
            (sellers db)).
Proof.
  rewrite filter_map_swap. unfold activeSellers. rewrite filter_filter.
  reflexivity.
Qed.

Lemma filteredVendors_survivors (userLat userLng : option R) (now : Z) (db : Db) :
  Forall noZeroCoordinate (sellers db) ->
  filter hasTruthyCoordinates
    (map (vendorWithOfferings userLat userLng db) (activeSellers now db)) =
  map (vendorWithOfferings userLat userLng db) (survivingSellers now db).
Proof.
  intros Hnz. rewrite filteredVendors_rows. unfold survivingSellers. f_equal.
  apply (filter_ext_Forall noZeroCoordinate); [exact Hnz | ].
  intros s Hs. rewrite (truthy_coordinates_present s Hs). reflexivity.
Qed.

Lemma survivingSellers_noZero (now : Z) (db : Db) :
  Forall noZeroCoordinate (sellers db) ->
  Forall noZeroCoordinate (survivingSellers now db).
Proof.
  intros H. rewrite Forall_forall in *. intros s Hs.
  apply H. unfold survivingSellers in Hs. apply filter_In in Hs. tauto.
Qed.

(** Every answered vendor was built from an active, fresh row whose
    coordinates are both truthy. *)
Lemma getActiveVendors_origin (now : Z) (q : ActiveQuery) (db : Db)
    (v : Vendor.t) :
  In v (getActiveVendors now q db) ->
  exists s, In s (sellers db) /\
            v = vendorWithOfferings (lat q) (lng q) db s /\
            Seller.isActive s = true /\
            isFresh (Seller.lastLocationUpdate s) now = true /\
            truthy (Seller.latitude s) = true /\
            truthy (Seller.longitude s) = true.
Proof.
  unfold getActiveVendors. intros Hin.
  assert (Hf : In v (filter hasTruthyCoordinates
                       (map (vendorWithOfferings (lat q) (lng q) db)
                            (activeSellers now db)))).
  { destruct (truthy (lat q) && truthy (lng q)); [ | exact Hin].
    apply (Permutation_in _ (Permutation_sym (sortByDistance_perm _))) in Hin.
    apply filter_In in Hin. tauto. }
  rewrite filteredVendors_rows in Hf. apply in_map_iff in Hf.
  destruct Hf as [s [Hv Hs]]. apply filter_In in Hs.
  destruct Hs as [Hs Hp]. rewrite !andb_true_iff in Hp.
  exists s. intuition.
Qed.

(** C9: a vendor with a stored latitude or longitude of exactly zero never
    appears in the answer, whatever its flag, timestamp and distance. *)
Theorem zero_coordinate_vendor_excluded (now : Z) (q : ActiveQuery) (db : Db)
    (s : Seller.t) :
  NoDup (map Seller.id (sellers db)) ->
  In s (sellers db) ->
  Seller.latitude s = Some 0%R \/ Seller.longitude s = Some 0%R ->
  forall v, In v (getActiveVendors now q db) -> Vendor.id v <> Seller.id s.
Proof.
  intros Hnd Hin Hzero v Hv Hid.
  apply getActiveVendors_origin in Hv.
  destruct Hv as [s' [Hin' [-> [_ [_ [Hlat Hlng]]]]]].
  simpl in Hid.
  assert (s' = s) as ->.
  { clear - Hnd Hin Hin' Hid. induction (sellers db) as [ | a l IH]; [contradiction | ].
    simpl in Hnd. inversion Hnd as [ | x xs Hnotin Hnd']; subst.
    destruct Hin as [-> | Hin]; destruct Hin' as [-> | Hin'].
    - reflexivity.
    - exfalso. apply Hnotin. rewrite <- Hid. now apply in_map.
    - exfalso. apply Hnotin. rewrite Hid. now apply in_map.
    - now apply IH. }
  destruct Hzero as [Hz | Hz]; rewrite Hz, truthy_zero in *; discriminate.
Qed.

(** C10: an origin whose latitude or longitude is zero is treated as no
    origin: same answer as without [lat] and [lng], built without radius
    filter and without sort, every distance zero. *)
Theorem zero_origin_is_no_origin (now : Z) (q : ActiveQuery) (db : Db) :
  lat q = Some 0%R \/ lng q = Some 0%R ->
  getActiveVendors now q db =
    getActiveVendors now (mkQuery None None (radius q)) db /\
  getActiveVendors now q db =
    filter hasTruthyCoordinates
      (map (vendorWithOfferings None None db) (activeSellers now db)) /\
  Forall (fun v => Vendor.distance v = 0%R) (getActiveVendors now q db).
Proof.
  intros Hzero.
  assert (Hfalsy : truthy (lat q) && truthy (lng q) = false).
  { destruct Hzero as [-> | ->]; rewrite truthy_zero;
      [reflexivity | apply andb_false_r]. }
  assert (Hres : getActiveVendors now q db =
                 filter hasTruthyCoordinates
                   (map (vendorWithOfferings None None db) (activeSellers now db))).
  { unfold getActiveVendors. rewrite Hfalsy. f_equal.
    apply map_ext. intros s. now apply vendorWithOfferings_no_origin. }
  split; [ | split].
  - rewrite Hres. reflexivity.
  - exact Hres.
  - rewrite Hres. rewrite Forall_forall. intros v Hv.
    apply filter_In in Hv. destruct Hv as [Hv _].
    apply in_map_iff in Hv. destruct Hv as [s [<- _]]. reflexivity.
Qed.

(** Settles the comparisons of numerals left in a goal by evaluation. *)
Ltac decide_reals :=
  repeat match goal with
         | |- context [Req_dec_T ?a ?b] =>
             destruct (Req_dec_T a b); try (exfalso; lra)
         | |- context [Rle_dec ?a ?b] =>
             destruct (Rle_dec a b); try (exfalso; lra)
         | |- context [Rlt_dec ?a ?b] =>
             destruct (Rlt_dec a b); try (exfalso; lra)
         end.

(** C4, refuted as worded: a vendor whose last update is exactly 15 minutes
    old is not fresh in the specification's sense, so the specified result
    is empty, yet the query without origin returns it. *)
Lemma boundary_vendor_listed_without_origin :
  Spec.survivors 1000000 Sample.staleAtBoundary = [] /\
  getActiveVendors 1000000 (mkQuery None None None) Sample.staleAtBoundary
  = [Vendor.mk 1 1 (Some 40%R) (Some (-75)%R) (Some 100000)
       (Profile.mk "Sweet Treats" "John Doe" "555-0100" (Some "")
          ["Vanilla"; "Chocolate"])
       0%R] /\
  ~ Permutation
      (getActiveVendors 1000000 (mkQuery None None None) Sample.staleAtBoundary)
      (map (vendorWithOfferings None None Sample.staleAtBoundary)
           (Spec.survivors 1000000 Sample.staleAtBoundary)).
Proof.
  assert (H : getActiveVendors 1000000 (mkQuery None None None)
                Sample.staleAtBoundary
              = [Vendor.mk 1 1 (Some 40%R) (Some (-75)%R) (Some 100000)
                   (Profile.mk "Sweet Treats" "John Doe" "555-0100" (Some "")
                      ["Vanilla"; "Chocolate"])
                   0%R]).
  { unfold getActiveVendors, hasTruthyCoordinates. simpl.
    decide_reals. reflexivity. }
  split; [reflexivity | split; [exact H | ]].
  rewrite H. simpl. intros Hp. apply Permutation_sym in Hp.
  exact (Permutation_nil_cons Hp).
Qed.

(** C4, as the code has it, for tables without a zero coordinate: without
    an origin the answer is, in table order, the active rows with
    coordinates whose last update is at most 15 minutes old, each at
    distance zero, whatever the radius; it is a 200 answer, empty when no
    row qualifies. *)
Theorem getActive_without_origin (now : Z) (r : option R) (db : Db) :
  Forall noZeroCoordinate (sellers db) ->
  getActiveVendors now (mkQuery None None r) db =
    map (vendorWithOfferings None None db) (survivingSellers now db) /\
  Forall (fun v => Vendor.distance v = 0%R)
    (getActiveVendors now (mkQuery None None r) db) /\
  status (getActive now (mkQuery None None r) db) = 200 /\
  (survivingSellers now db = [] ->
   getActive now (mkQuery None None r) db = res_json (JVendors [])).
Proof.
  intros Hnz.
  assert (Hres : getActiveVendors now (mkQuery None None r) db =
                 map (vendorWithOfferings None None db) (survivingSellers now db)).
  { unfold getActiveVendors. simpl. now apply filteredVendors_survivors. }
  split; [exact Hres | split; [ | split]].
  - rewrite Hres. rewrite Forall_forall. intros v Hv.
    apply in_map_iff in Hv. destruct Hv as [s [<- _]]. reflexivity.
  - reflexivity.
  - intros Hnone. unfold getActive. rewrite Hres, Hnone. reflexivity.
Qed.

Lemma twoVendors_noZero : Forall noZeroCoordinate (sellers Sample.twoVendors).
Proof.
  repeat constructor; simpl; intros H; injection H; lra.
Defined.

Lemma getActive_without_origin_witness :
  getActiveVendors 1000000 (mkQuery None None (Some 10%R)) Sample.twoVendors
  = map (vendorWithOfferings None None Sample.twoVendors)
        [Sample.seller 1 7 true (Some 40%R) (Some (-75)%R) (Some 500000) 0].
Proof.
  apply (getActive_without_origin 1000000 (Some 10%R) Sample.twoVendors).
  exact twoVendors_noZero.
Defined.

(** C3, refuted as worded: with an origin, the vendor whose last update is
    exactly 15 minutes old is returned although the specification's fresh
    set is empty. *)
Lemma boundary_vendor_listed_with_origin :
  Spec.survivors 1000000 Sample.staleAtBoundary = [] /\
  getActiveVendors 1000000 (mkQuery (Some 40%R) (Some (-75)%R) (Some 10%R))
    Sample.staleAtBoundary
  = [Vendor.mk 1 1 (Some 40%R) (Some (-75)%R) (Some 100000)
       (Profile.mk "Sweet Treats" "John Doe" "555-0100" (Some "")
          ["Vanilla"; "Chocolate"])
       0%R] /\
  ~ Permutation
      (getActiveVendors 1000000 (mkQuery (Some 40%R) (Some (-75)%R) (Some 10%R))
         Sample.staleAtBoundary)
      (filter (withinRadius 10%R)
         (map (vendorWithOfferings (Some 40%R) (Some (-75)%R)
                 Sample.staleAtBoundary)
              (Spec.survivors 1000000 Sample.staleAtBoundary))).
Proof.
  assert (H : getActiveVendors 1000000
                (mkQuery (Some 40%R) (Some (-75)%R) (Some 10%R))
                Sample.staleAtBoundary
              = [Vendor.mk 1 1 (Some 40%R) (Some (-75)%R) (Some 100000)
                   (Profile.mk "Sweet Treats" "John Doe" "555-0100" (Some "")
                      ["Vanilla"; "Chocolate"])
                   0%R]).
  { unfold getActiveVendors, hasTruthyCoordinates, vendorWithOfferings,
      withinRadius.
    simpl. decide_reals. simpl. rewrite calculateDistance_self.
    decide_reals. reflexivity. }
  split; [reflexivity | split; [exact H | ]].
  rewrite H. simpl. intros Hp. apply Permutation_sym in Hp.
  exact (Permutation_nil_cons Hp).
Qed.

(** A vendor on the equator is dropped by the filter of line 72, with or
    without an origin. *)
Lemma equator_vendor_not_listed :
  Spec.hasCoordinates
    (Sample.seller 1 7 true (Some 0%R) (Some (-75)%R) (Some 500000) 0) = true /\
  getActiveVendors 1000000 (mkQuery None None None) Sample.onEquator = [].
Proof.
  split; [reflexivity | ].
  unfold getActiveVendors, hasTruthyCoordinates, vendorWithOfferings.
  simpl. decide_reals. reflexivity.
Qed.

(** With an origin of latitude zero the radius is ignored: a vendor some
    forty degrees of latitude away is returned at distance zero. *)
Lemma zero_origin_returns_distant_vendor :
  getActiveVendors 1000000 (mkQuery (Some 0%R) (Some (-75)%R) (Some 10%R))
    (Sample.db [Sample.seller 1 7 true (Some 40%R) (Some (-75)%R) (Some 500000) 0])
  = [Vendor.mk 1 1 (Some 40%R) (Some (-75)%R) (Some 500000)
       (Profile.mk "Sweet Treats" "John Doe" "555-0100" (Some "")
          ["Vanilla"; "Chocolate"])
       0%R].
Proof.
  unfold getActiveVendors, hasTruthyCoordinates, vendorWithOfferings, withinRadius.
  simpl. decide_reals. reflexivity.
Qed.

(** C3, as the code has it, for a non-zero origin and tables without a zero
    coordinate: the candidates are the active rows with coordinates whose
    last update is at most 15 minutes old, each with its great-circle
    distance from the origin, kept when that distance is at most the radius
    (50 by default); the answer holds exactly the candidates, in ascending
    order of distance, equal distances in table order. *)
Theorem getActive_with_origin (now : Z) (a b : R) (r : option R) (db : Db) :
  a <> 0%R -> b <> 0%R ->
  Forall noZeroCoordinate (sellers db) ->
  let radiusMiles := match r with None => 50%R | Some x => x end in
  let candidates :=
    filter (withinRadius radiusMiles)
      (map (vendorWithOfferings (Some a) (Some b) db) (survivingSellers now db)) in
  let result := getActiveVendors now (mkQuery (Some a) (Some b) r) db in
  Forall (fun s => Vendor.distance (vendorWithOfferings (Some a) (Some b) db s) =
                   calculateDistance a b (toNumber (Seller.latitude s))
                                         (toNumber (Seller.longitude s)))
         (survivingSellers now db) /\
  (forall v, In v result <->
             exists s, In s (sellers db) /\
                       Seller.isActive s = true /\
                       isFresh (Seller.lastLocationUpdate s) now = true /\
                       Spec.hasCoordinates s = true /\
                       v = vendorWithOfferings (Some a) (Some b) db s /\
                       (Vendor.distance v <= radiusMiles)%R) /\
  Permutation candidates result /\
  StronglySorted byDistance result /\
  keepsTieOrder candidates result.
Proof.
  intros Ha Hb Hnz radiusMiles candidates result.
  assert (Hres : result = sortByDistance candidates).
  { unfold result, candidates, radiusMiles, getActiveVendors. simpl lat. simpl lng.
    rewrite !truthy_nonzero by assumption. simpl andb. cbv iota.
    rewrite (filteredVendors_survivors _ _ _ _ Hnz). reflexivity. }
  split; [ | split; [ | split; [ | split]]].
  - pose proof (survivingSellers_noZero now db Hnz) as Hs.
    rewrite Forall_forall in *. intros s Hin.
    destruct (Hs s Hin) as [Hlat Hlng].
    unfold survivingSellers in Hin. apply filter_In in Hin.
    destruct Hin as [_ Hp]. rewrite !andb_true_iff in Hp.
    destruct Hp as [_ Hc]. unfold Spec.hasCoordinates in Hc.
    destruct (Seller.latitude s) as [x | ] eqn:Ex; [ | discriminate].
    destruct (Seller.longitude s) as [y | ] eqn:Ey; [ | discriminate].
    apply (vendorWithOfferings_distance a b x y db s Ha Hb Ex Ey).
    + intros E0. apply Hlat. rewrite E0. reflexivity.
    + intros E0. apply Hlng. rewrite E0. reflexivity.
  - intros v. rewrite Hres. split.
    + intros Hin.
      apply (Permutation_in _ (Permutation_sym (sortByDistance_perm _))) in Hin.
      unfold candidates in Hin. apply filter_In in Hin.
      destruct Hin as [Hin Hr]. apply withinRadius_iff in Hr.
      apply in_map_iff in Hin. destruct Hin as [s [Hv Hs]].
      unfold survivingSellers in Hs. apply filter_In in Hs.
      destruct Hs as [Hs Hp]. rewrite !andb_true_iff in Hp.
      exists s. intuition.
    + intros [s [Hs [Hon [Hfr [Hco [Hv Hr]]]]]].
      apply (Permutation_in _ (sortByDistance_perm _)).
      unfold candidates. apply filter_In. split.
      * rewrite Hv. apply in_map. unfold survivingSellers. apply filter_In.
        split; [exact Hs | ]. rewrite Hon, Hfr, Hco. reflexivity.
      * now apply withinRadius_iff.
  - rewrite Hres. apply sortByDistance_perm.
  - rewrite Hres. apply sortByDistance_sorted.
  - rewrite Hres. apply sortByDistance_ties.
Qed.

Lemma getActive_with_origin_witness :
  Permutation
    (filter (withinRadius 50%R)
       (map (vendorWithOfferings (Some 40%R) (Some (-75)%R) Sample.twoVendors)
            (survivingSellers 1000000 Sample.twoVendors)))
    (getActiveVendors 1000000 (mkQuery (Some 40%R) (Some (-75)%R) None)
       Sample.twoVendors) /\
  StronglySorted byDistance
    (getActiveVendors 1000000 (mkQuery (Some 40%R) (Some (-75)%R) None)
       Sample.twoVendors) /\
  keepsTieOrder
    (filter (withinRadius 50%R)
       (map (vendorWithOfferings (Some 40%R) (Some (-75)%R) Sample.twoVendors)
            (survivingSellers 1000000 Sample.twoVendors)))
    (getActiveVendors 1000000 (mkQuery (Some 40%R) (Some (-75)%R) None)
       Sample.twoVendors).
Proof.
  refine (proj2 (proj2 (getActive_with_origin 1000000 40%R (-75)%R None
                          Sample.twoVendors _ _ twoVendors_noZero))); lra.
Defined.

Lemma zero_coordinate_vendor_excluded_witness :
  Forall (fun v => Vendor.id v <> 1)
    (getActiveVendors 1000000 (mkQuery (Some 1%R) (Some (-75)%R) None)
       Sample.onEquator).
Proof.
  apply Forall_forall.
  apply (zero_coordinate_vendor_excluded 1000000
           (mkQuery (Some 1%R) (Some (-75)%R) None) Sample.onEquator
           (Sample.seller 1 7 true (Some 0%R) (Some (-75)%R) (Some 500000) 0)).
  - simpl. repeat constructor. simpl. tauto.
  - simpl. left. reflexivity.
  - left. reflexivity.
Defined.

Lemma zero_origin_is_no_origin_witness :
  getActiveVendors 1000000 (mkQuery (Some 0%R) (Some (-75)%R) (Some 10%R))
    Sample.twoVendors =
  getActiveVendors 1000000 (mkQuery None None (Some 10%R)) Sample.twoVendors.
Proof.
  apply (zero_origin_is_no_origin 1000000
           (mkQuery (Some 0%R) (Some (-75)%R) (Some 10%R)) Sample.twoVendors).
  left. reflexivity.
Defined.

(** * Further properties *)

(** ** The distance on the sphere *)

Open Scope R_scope.

Lemma atan2_sin_cos (u : R) :
  0 <= u <= PI / 2 -> atan2 (sin u) (cos u) = u.
Proof.
  intros [Hlo Hhi]. pose proof PI_RGT_0 as Hpi. unfold atan2.
  destruct (Rlt_dec 0 (cos u)) as [Hc | Hc].
  - assert (Hlt : u < PI / 2).
    { destruct Hhi as [Hlt | Heq]; [exact Hlt | ].
      rewrite Heq, cos_PI2 in Hc. lra. }
    change (sin u / cos u) with (tan u).
    apply atan_tan. lra.
  - assert (Heq : u = PI / 2).
    { destruct Hhi as [Hlt | Heq]; [ | exact Heq].
      exfalso. apply Hc. apply cos_gt_0; lra. }
    rewrite Heq, cos_PI2, sin_PI2.
    destruct (Rlt_dec 0 0); [lra | ].
    destruct (Rlt_dec 0 1); [reflexivity | lra].
Qed.

Lemma calculateDistance_meridian_up (lat1 lat2 lon : R) :
  lat1 <= lat2 -> lat2 - lat1 <= 180 ->
  calculateDistance lat1 lon lat2 lon = 3959 * ((lat2 - lat1) * PI / 180).
Proof.
  intros Hle Hspan. pose proof PI_RGT_0 as Hpi. unfold calculateDistance.
  set (u := (lat2 - lat1) * PI / 180 / 2).
  assert (Hu : 0 <= u <= PI / 2) by (unfold u; split; nra).
  replace ((lon - lon) * PI / 180 / 2) with 0 by lra.
  rewrite sin_0.
  assert (Hs : 0 <= sin u) by (apply sin_ge_0; lra).
  assert (Hc : 0 <= cos u) by (apply cos_ge_0; lra).
  replace (sin u * sin u + cos (lat1 * PI / 180) * cos (lat2 * PI / 180) * 0 * 0)
    with (sin u * sin u) by ring.
  replace (1 - sin u * sin u) with (cos u * cos u)
    by (pose proof (sin2_cos2 u) as H; unfold Rsqr in H; lra).
  rewrite (sqrt_square _ Hs), (sqrt_square _ Hc), (atan2_sin_cos u Hu).
  unfold u. lra.
Qed.

(** X2: along a meridian the distance is the difference of the latitudes,
    in radians, times 3959: one degree of latitude is 3959 * PI / 180
    miles, whatever the longitude. *)
Theorem calculateDistance_meridian (lat1 lat2 lon : R) :
  Rabs (lat2 - lat1) <= 180 ->
  calculateDistance lat1 lon lat2 lon = 3959 * (Rabs (lat2 - lat1) * PI / 180).
Proof.
  intros Hspan. unfold Rabs in *.
  destruct (Rcase_abs (lat2 - lat1)) as [Hneg | Hpos].
  - rewrite calculateDistance_sym.
    rewrite calculateDistance_meridian_up by lra. lra.
  - rewrite calculateDistance_meridian_up by lra. reflexivity.
Qed.

Lemma calculateDistance_meridian_witness :
  calculateDistance 40 (-75) 41 (-75) = 3959 * (Rabs (41 - 40) * PI / 180).
Proof.
  apply (calculateDistance_meridian 40 41 (-75)).
  unfold Rabs. destruct (Rcase_abs (41 - 40)); lra.
Defined.

Close Scope R_scope.

(** ** Writes of [PATCH /location] *)

Lemma find_by_id_some (s : Seller.t) (l : list Seller.t) :
  In s l -> exists r, find (fun r => Seller.id r =? Seller.id s) l = Some r.
Proof.
  intros Hin.
  destruct (find (fun r => Seller.id r =? Seller.id s) l) as [r | ] eqn:E.
  - exists r. reflexivity.
  - exfalso. apply (find_none _ _ E) in Hin. rewrite Z.eqb_refl in Hin. discriminate.
Qed.

Lemma rowsAfter_ids (u : UpdateData) (sid : Z) (l : list Seller.t) :
  map Seller.id (rowsAfter u sid l) = map Seller.id l.
Proof.
  unfold rowsAfter. rewrite map_map. apply map_ext.
  intros s. destruct (Seller.id s =? sid); reflexivity.
Qed.

Lemma rowsAfter_userIds (u : UpdateData) (sid : Z) (l : list Seller.t) :
  map Seller.userId (rowsAfter u sid l) = map Seller.userId l.
Proof.
  unfold rowsAfter. rewrite map_map. apply map_ext.
  intros s. destruct (Seller.id s =? sid); reflexivity.
Qed.

(** What [PATCH /location] can return, case by case. *)
Lemma patchLocation_cases (now : Z) (req : AuthRequest LocationBody) (db : Db) :
  (status (fst (patchLocation now req db)) <> 200 /\
   snd (patchLocation now req db) = db) \/
  (exists uid s u,
      authorization req = Decoded uid "seller" /\
      sellerByUserId uid db = Some s /\
      locationUpdateData now (body req) = Some u /\
      columnAccepts (u_latitude u) && columnAccepts (u_longitude u) = true /\
      status (fst (patchLocation now req db)) = 200 /\
      snd (patchLocation now req db) =
        mkDb (rowsAfter u (Seller.id s) (sellers db)) (offerings db)).
Proof.
  unfold patchLocation.
  destruct (authorization req) as [ | | uid ut] eqn:Ha; simpl;
    try (left; split; [discriminate | reflexivity]).
  unfold sellerOnly. destruct (String.eqb ut "seller") eqn:Et;
    [ | left; split; [discriminate | reflexivity]].
  apply String.eqb_eq in Et. subst ut.
  unfold patchLocationHandler.
  destruct (sellerByUserId uid db) as [s | ] eqn:Hs;
    [ | left; split; [discriminate | reflexivity]].
  destruct (locationUpdateData now (body req)) as [u | ] eqn:Hu;
    [ | left; split; [discriminate | reflexivity]].
  unfold updateSellers.
  destruct (columnAccepts _ && columnAccepts _) eqn:Hc;
    [ | left; split; [discriminate | reflexivity]].
  unfold sellerById. simpl sellers. rewrite find_rowsAfter.
  destruct (sellerByUserId_some _ _ _ Hs) as [Hin _].
  destruct (find_by_id_some s _ Hin) as [r Hr]. rewrite Hr. simpl.
  right. exists uid, s, u. auto 6.
Qed.

(** X3: [PATCH /location] writes only when it answers 200, and no call
    touches the offerings, nor the ids and owners of the seller rows. *)
Theorem patchLocation_writes_only_on_200 (now : Z)
    (req : AuthRequest LocationBody) (db : Db) :
  (status (fst (patchLocation now req db)) = 200 \/
   snd (patchLocation now req db) = db) /\
  offerings (snd (patchLocation now req db)) = offerings db /\
  map Seller.id (sellers (snd (patchLocation now req db))) =
    map Seller.id (sellers db) /\
  map Seller.userId (sellers (snd (patchLocation now req db))) =
    map Seller.userId (sellers db).
Proof.
  destruct (patchLocation_cases now req db)
    as [[Hst Hdb] | [uid [s [u [_ [_ [_ [_ [Hst Hdb]]]]]]]]]; rewrite Hdb.
  - auto.
  - simpl. rewrite rowsAfter_ids, rowsAfter_userIds. auto.
Qed.

Lemma same_id_same_row (l : list Seller.t) (r s : Seller.t) :
  NoDup (map Seller.id l) -> In r l -> In s l -> Seller.id r = Seller.id s ->
  r = s.
Proof.
  induction l as [ | a l IH]; intros Hnd Hr Hs Hid; [contradiction | ].
  simpl in Hnd. inversion Hnd as [ | x xs Hnotin Hnd']; subst.
  destruct Hr as [-> | Hr]; destruct Hs as [-> | Hs].
  - reflexivity.
  - exfalso. apply Hnotin. rewrite Hid. now apply in_map.
  - exfalso. apply Hnotin. rewrite <- Hid. now apply in_map.
  - now apply IH.
Qed.

Lemma rowsAfter_other (u : UpdateData) (sid : Z) (l : list Seller.t)
    (r : Seller.t) :
  In r l -> Seller.id r <> sid -> In r (rowsAfter u sid l).
Proof.
  intros Hin Hne. unfold rowsAfter. apply in_map_iff. exists r.
  split; [ | exact Hin].
  destruct (Seller.id r =? sid) eqn:E; [ | reflexivity].
  apply Z.eqb_eq in E. contradiction.
Qed.

(** X4: the record of another user is left exactly as it was. *)
Theorem patchLocation_other_sellers_untouched (now uid : Z) (ut : string)
    (req : AuthRequest LocationBody) (db : Db) (r : Seller.t) :
  NoDup (map Seller.id (sellers db)) ->
  authorization req = Decoded uid ut ->
  In r (sellers db) -> Seller.userId r <> uid ->
  In r (sellers (snd (patchLocation now req db))).
Proof.
  intros Hnd Ha Hin Hother.
  destruct (patchLocation_cases now req db)
    as [[_ Hdb] | [uid' [s [u [Ha' [Hs [_ [_ [_ Hdb]]]]]]]]]; rewrite Hdb.
  - exact Hin.
  - simpl. rewrite Ha in Ha'. injection Ha' as <- _.
    destruct (sellerByUserId_some _ _ _ Hs) as [Hsin Hsu].
    apply rowsAfter_other; [exact Hin | ].
    intros Hid. apply Hother.
    rewrite (same_id_same_row _ r s Hnd Hin Hsin Hid). exact Hsu.
Qed.

Lemma locationUpdateData_shape (now : Z) (b : LocationBody) (u : UpdateData) :
  locationUpdateData now b = Some u ->
  (u_latitude u = None /\ u_longitude u = None /\ u_lastLocationUpdate u = None) \/
  (u_latitude u = Some None /\ u_longitude u = Some None /\
   u_lastLocationUpdate u = Some None) \/
  (exists x y, u_latitude u = Some (Some x) /\ u_longitude u = Some (Some y) /\
               u_lastLocationUpdate u = Some (Some now)).
Proof.
  unfold locationUpdateData.
  destruct (b_latitude b) as [[x | | t] | ], (b_longitude b) as [[y | | t'] | ],
    (b_isActive b) as [[ | ] | ]; simpl; intros H;
    try discriminate H; injection H as <-; simpl; eauto 10.
Qed.

(** An update of [PATCH /location] that the columns accept leaves the
    location of a row paired. *)
Lemma setRow_locationConsistent (now : Z) (b : LocationBody) (u : UpdateData)
    (s : Seller.t) :
  locationUpdateData now b = Some u ->
  columnAccepts (u_latitude u) && columnAccepts (u_longitude u) = true ->
  locationConsistent s ->
  locationConsistent (setRow u s).
Proof.
  intros Hu Hc Hs. unfold locationConsistent, setRow. cbn -[toScale7].
  apply andb_true_iff in Hc. destruct Hc as [Hc1 Hc2].
  destruct (locationUpdateData_shape now b u Hu)
    as [[E1 [E2 E3]] | [[E1 [E2 E3]] | [x [y [E1 [E2 E3]]]]]];
    rewrite E1, E2, E3 in *; cbn -[toScale7].
  - exact Hs.
  - tauto.
  - destruct x as [x | ], y as [y | ]; try discriminate.
    split; split; discriminate.
Qed.

(** X5: the location columns stay paired: if in every row the coordinates
    and the timestamp are all present or all absent, so they are after any
    call. *)
Theorem patchLocation_keeps_location_paired (now : Z)
    (req : AuthRequest LocationBody) (db : Db) :
  Forall locationConsistent (sellers db) ->
  Forall locationConsistent (sellers (snd (patchLocation now req db))).
Proof.
  intros Hall.
  destruct (patchLocation_cases now req db)
    as [[_ Hdb] | [uid [s [u [_ [_ [Hu [Hc [_ Hdb]]]]]]]]]; rewrite Hdb;
    [exact Hall | ].
  simpl. unfold rowsAfter. rewrite Forall_forall in *.
  intros r Hr. apply in_map_iff in Hr. destruct Hr as [r0 [<- Hr0]].
  destruct (Seller.id r0 =? Seller.id s).
  - apply (setRow_locationConsistent now (body req) u _ Hu Hc). now apply Hall.
  - now apply Hall.
Qed.

(** ** What the discovery query lists *)

Lemma isFresh_some (t now : Z) :
  isFresh (Some t) now = true <-> now - t <= 15 * 60 * 1000.
Proof.
  unfold isFresh, gte, staleThreshold, STALE_THRESHOLD_MINUTES.
  rewrite Z.leb_le. lia.
Qed.

Lemma getActiveVendors_within (now : Z) (q : ActiveQuery) (db : Db)
    (v : Vendor.t) :
  In v (getActiveVendors now q db) ->
  truthy (lat q) && truthy (lng q) = true ->
  (Vendor.distance v <= radiusMilesOf q)%R.
Proof.
  unfold getActiveVendors, radiusMilesOf. intros Hin Ht. rewrite Ht in Hin.
  apply (Permutation_in _ (Permutation_sym (sortByDistance_perm _))) in Hin.
  apply filter_In in Hin. destruct Hin as [_ Hr].
  now apply withinRadius_iff.
Qed.

(** X6: whatever the query, a listed vendor is a row of the table that is
    flagged active, was updated at most 15 minutes ago and has two non-zero
    coordinates; it carries that row's coordinates and offerings, and with
    an origin in effect its distance is within the radius. *)
Theorem getActive_lists_only_live_vendors (now : Z) (q : ActiveQuery)
    (db : Db) (v : Vendor.t) :
  In v (getActiveVendors now q db) ->
  exists s t x y,
    In s (sellers db) /\ Vendor.id v = Seller.id s /\
    Seller.isActive s = true /\
    Seller.lastLocationUpdate s = Some t /\ now - t <= 15 * 60 * 1000 /\
    Seller.latitude s = Some x /\ Seller.longitude s = Some y /\
    x <> 0%R /\ y <> 0%R /\
    Vendor.latitude v = Some x /\ Vendor.longitude v = Some y /\
    Profile.offerings (Vendor.seller v) =
      map Offering.name (sellerOfferings db (Seller.id s)) /\
    (truthy (lat q) && truthy (lng q) = true ->
     (Vendor.distance v <= radiusMilesOf q)%R).
Proof.
  intros Hin. pose proof (getActiveVendors_within now q db v Hin) as Hrad.
  apply getActiveVendors_origin in Hin.
  destruct Hin as [s [Hs [Hv [Hon [Hfr [Hlat Hlng]]]]]].
  apply truthy_true_iff in Hlat. destruct Hlat as [x [Hx Hx0]].
  apply truthy_true_iff in Hlng. destruct Hlng as [y [Hy Hy0]].
  destruct (Seller.lastLocationUpdate s) as [t | ] eqn:Et; [ | discriminate].
  apply isFresh_some in Hfr.
  exists s, t, x, y. subst v.
  repeat (split; [first [assumption | reflexivity] | ]). exact Hrad.
Qed.

(** A row that is flagged off contributes nothing. *)
Lemma inactive_id_not_listed (now : Z) (q : ActiveQuery) (db : Db) (sid : Z) :
  (forall r, In r (sellers db) -> Seller.id r = sid -> Seller.isActive r = false) ->
  forall v, In v (getActiveVendors now q db) -> Vendor.id v <> sid.
Proof.
  intros Hoff v Hin Hid. apply getActiveVendors_origin in Hin.
  destruct Hin as [s [Hs [Hv [Hon _]]]]. subst v. simpl in Hid.
  rewrite (Hoff s Hs Hid) in Hon. discriminate.
Qed.

Lemma rowsAfter_In (u : UpdateData) (sid : Z) (l : list Seller.t) (r : Seller.t) :
  In r (rowsAfter u sid l) ->
  exists r0, In r0 l /\
             r = (if Seller.id r0 =? sid then setRow u r0 else r0).
Proof.
  unfold rowsAfter. intros H. apply in_map_iff in H.
  destruct H as [r0 [<- Hr0]]. exists r0. auto.
Qed.

Lemma rowsAfter_same_id (u : UpdateData) (sid : Z) (l : list Seller.t)
    (r : Seller.t) :
  In r (rowsAfter u sid l) -> Seller.id r = sid ->
  exists r0, In r0 l /\ Seller.id r0 = sid /\ r = setRow u r0.
Proof.
  intros H Hid. apply rowsAfter_In in H. destruct H as [r0 [Hr0 Hr]].
  exists r0. destruct (Seller.id r0 =? sid) eqn:E.
  - apply Z.eqb_eq in E. auto.
  - subst r. apply Z.eqb_neq in E. contradiction.
Qed.

(** A seller's [PATCH /location] whose update the columns accept writes
    the update into the caller's row. *)
Lemma patchLocation_written (now uid : Z) (req : AuthRequest LocationBody)
    (db : Db) (s : Seller.t) (u : UpdateData) :
  authorization req = Decoded uid "seller" ->
  sellerByUserId uid db = Some s ->
  locationUpdateData now (body req) = Some u ->
  columnAccepts (u_latitude u) && columnAccepts (u_longitude u) = true ->
  status (fst (patchLocation now req db)) = 200 /\
  snd (patchLocation now req db) =
    mkDb (rowsAfter u (Seller.id s) (sellers db)) (offerings db).
Proof.
  intros Ha Hs Hu Hc. unfold patchLocation. rewrite Ha. simpl.
  unfold patchLocationHandler. rewrite Hs, Hu. unfold updateSellers. rewrite Hc.
  unfold sellerById. simpl sellers. rewrite find_rowsAfter.
  destruct (sellerByUserId_some _ _ _ Hs) as [Hin _].
  destruct (find_by_id_some s _ Hin) as [r Hr]. rewrite Hr. simpl. auto.
Qed.


(** The column holds 0 exactly for the numbers below 0.00000005 in absolute
    value. *)
Lemma toScale7_zero_iff (x : R) :
  toScale7 x = 0%R <-> (Rabs x < 5 / 10 ^ 8)%R.
Proof.
  pose proof pow7_pos as Hp. pose proof pow7_IZR as E7.
  assert (F : (Rabs (x * 10 ^ 7) < IZR 1 - / 2)%R <-> (Rabs x < 5 / 10 ^ 8)%R).
  { rewrite Rabs_mult, (Rabs_pos_eq (10 ^ 7)%R) by lra.
    replace (10 ^ 8)%R with (10 * 10 ^ 7)%R by reflexivity.
    split; intros H.
    - apply (Rmult_lt_reg_r (10 ^ 7)); [exact Hp | ].
      replace (5 / (10 * 10 ^ 7) * 10 ^ 7)%R with (IZR 1 - / 2)%R
        by (rewrite E7; field).
      exact H.
    - apply (Rmult_lt_compat_r (10 ^ 7)) in H; [ | exact Hp].
      replace (5 / (10 * 10 ^ 7) * 10 ^ 7)%R with (IZR 1 - / 2)%R in H
        by (rewrite E7; field).
      exact H. }
  rewrite <- F, <- (roundHalfAway_lt _ 1) by lia.
  unfold toScale7. split; intros H.
  - assert (E : IZR (roundHalfAway (x * 10 ^ 7)) = 0%R).
    { apply (Rmult_eq_reg_r (/ 10 ^ 7)); [ | apply Rinv_neq_0_compat; lra].
      rewrite Rmult_0_l. exact H. }
    apply eq_IZR in E. rewrite E. reflexivity.
  - assert (E : roundHalfAway (x * 10 ^ 7) = 0) by lia.
    rewrite E. unfold Rdiv. apply Rmult_0_l.
Qed.

(** X8: a location report with two numbers that the columns take, from a
    seller who is, or thereby becomes, active, is listed by the query
    without origin exactly as long as it is at most 15 minutes old, provided
    neither number is so small (below 0.00000005 in absolute value) that it
    is stored as 0: then it is never listed.  The entry carries the
    coordinates as the columns rounded them. *)
Theorem reported_location_listed_until_stale (now uid : Z)
    (req : AuthRequest LocationBody) (db : Db) (s : Seller.t) (x y : R) :
  authorization req = Decoded uid "seller" ->
  sellerByUserId uid db = Some s ->
  b_latitude (body req) = Some (Number x) ->
  b_longitude (body req) = Some (Number y) ->
  orKeep (b_isActive (body req)) (Seller.isActive s) = true ->
  (Rabs x < 1000 - 5 / 10 ^ 8)%R -> (Rabs y < 1000 - 5 / 10 ^ 8)%R ->
  forall later r,
    ((exists v,
         In v (getActiveVendors later (mkQuery None None r)
                 (snd (patchLocation now req db))) /\
         Vendor.id v = Seller.id s)
     <-> (later - now <= 15 * 60 * 1000 /\
          (5 / 10 ^ 8 <= Rabs x)%R /\ (5 / 10 ^ 8 <= Rabs y)%R)) /\
    (forall v,
        In v (getActiveVendors later (mkQuery None None r)
                (snd (patchLocation now req db))) ->
        Vendor.id v = Seller.id s ->
        Vendor.latitude v = Some (toScale7 x) /\
        Vendor.longitude v = Some (toScale7 y)).
Proof.
  intros Ha Hs Hx Hy Hon Hxf Hyf later r.
  assert (Hact : b_isActive (body req) <> Some false).
  { intros E. rewrite E in Hon. discriminate. }
  pose proof (locationUpdateData_coordinates now _ _ _ _ _
                Hx Hy eq_refl eq_refl Hact) as Hu.
  destruct (patchLocation_written now uid req db s _ Ha Hs Hu) as [_ Hdb].
  { cbn [u_latitude u_longitude].
    rewrite !columnAccepts_numeral by assumption. reflexivity. }
  rewrite Hdb. clear Hdb.
  set (u := mkUpdateData _ _ _ _ _) in *.
  set (db' := mkDb _ _).
  assert (Hrow : forall v,
            In v (getActiveVendors later (mkQuery None None r) db') ->
            Vendor.id v = Seller.id s ->
            later - now <= 15 * 60 * 1000 /\
            truthy (Some (toScale7 x)) = true /\
            truthy (Some (toScale7 y)) = true).
  { intros v Hin Hid. apply getActiveVendors_origin in Hin.
    destruct Hin as [s0 [Hs0 [Hv [_ [Hfr [Hlat Hlng]]]]]]. subst v.
    simpl in Hid. unfold db' in Hs0. simpl in Hs0.
    destruct (rowsAfter_same_id _ _ _ _ Hs0 Hid) as [r0 [_ [_ ->]]].
    split; [now apply isFresh_some | split; assumption]. }
  assert (Hnz : forall z, truthy (Some (toScale7 z)) = true <->
                          (5 / 10 ^ 8 <= Rabs z)%R).
  { intros z. unfold truthy. destruct (Req_dec_T (toScale7 z) 0) as [E | E].
    - apply toScale7_zero_iff in E. split; [discriminate | lra].
    - split; [intros _ | reflexivity].
      destruct (Rle_lt_dec (5 / 10 ^ 8) (Rabs z)) as [H | H]; [exact H | ].
      exfalso. apply E. now apply toScale7_zero_iff. }
  split; [split | ].
  - intros [v [Hin Hid]].
    destruct (Hrow v Hin Hid) as [Hfresh [Hlat Hlng]].
    apply Hnz in Hlat. apply Hnz in Hlng. auto.
  - intros [Hfresh [Hx0 Hy0]].
    destruct (sellerByUserId_some _ _ _ Hs) as [Hsin _].
    exists (vendorWithOfferings None None db' (setRow u s)).
    split; [ | reflexivity].
    unfold getActiveVendors. cbn [lat lng truthy andb].
    rewrite filteredVendors_rows. apply in_map. apply filter_In. split.
    + unfold db'. cbn [sellers]. unfold rowsAfter. apply in_map_iff. exists s.
      rewrite Z.eqb_refl. auto.
    + rewrite !andb_true_iff. repeat split.
      * exact Hon.
      * change (isFresh (Some now) later = true). now apply isFresh_some.
      * change (truthy (Some (toScale7 x)) = true). now apply Hnz.
      * change (truthy (Some (toScale7 y)) = true). now apply Hnz.
  - intros v Hin Hid. apply getActiveVendors_origin in Hin.
    destruct Hin as [s0 [Hs0 [Hv _]]]. subst v.
    simpl in Hid. unfold db' in Hs0. simpl in Hs0.
    destruct (rowsAfter_same_id _ _ _ _ Hs0 Hid) as [r0 [_ [_ ->]]].
    split; reflexivity.
Qed.

(** ** Discovery does not look at [updatedAt] *)

Lemma getActiveVendors_congr (now : Z) (q : ActiveQuery) (db db' : Db)
    (g : Seller.t -> Seller.t) :
  sellers db' = map g (sellers db) ->
  offerings db' = offerings db ->
  (forall r, In r (sellers db) -> g r = r \/ exists t, g r = touch t r) ->
  getActiveVendors now q db' = getActiveVendors now q db.
Proof.
  intros Hrows Hoffs Hg.
  assert (Hview : forall r, In r (sellers db) ->
            Seller.isActive (g r) = Seller.isActive r /\
            Seller.lastLocationUpdate (g r) = Seller.lastLocationUpdate r /\
            vendorWithOfferings (lat q) (lng q) db' (g r) =
            vendorWithOfferings (lat q) (lng q) db r).
  { intros r Hr.
    assert (Hv : forall r', vendorWithOfferings (lat q) (lng q) db' r' =
                            vendorWithOfferings (lat q) (lng q) db r').
    { intros r'. unfold vendorWithOfferings, sellerOfferings.
      rewrite Hoffs. reflexivity. }
    destruct (Hg r Hr) as [-> | [t ->]]; rewrite Hv; auto. }
  unfold getActiveVendors.
  replace (map (vendorWithOfferings (lat q) (lng q) db') (activeSellers now db'))
    with (map (vendorWithOfferings (lat q) (lng q) db) (activeSellers now db));
    [reflexivity | ].
  unfold activeSellers. rewrite Hrows.
  clear Hrows Hg. induction (sellers db) as [ | r l IH]; [reflexivity | ].
  simpl.
  destruct (Hview r (or_introl eq_refl)) as [-> [-> Hv]].
  assert (IH' := IH (fun r' Hr' => Hview r' (or_intror Hr'))).
  destruct (Seller.isActive r && gte (Seller.lastLocationUpdate r) (staleThreshold now));
    simpl; rewrite ?Hv, IH'; reflexivity.
Qed.

(** ** The admin's toggle *)

Lemma toggleActive_cases (now : Z) (req : AuthRequest Z) (db : Db) :
  (status (fst (toggleActive now req db)) <> 200 /\
   snd (toggleActive now req db) = db /\
   (forall uid, authorization req = Decoded uid "admin" ->
                sellerById (body req) db = None)) \/
  (exists uid s,
      authorization req = Decoded uid "admin" /\
      sellerById (body req) db = Some s /\
      status (fst (toggleActive now req db)) = 200 /\
      snd (toggleActive now req db) =
        mkDb (rowsAfter (toggleUpdateData now s) (body req) (sellers db))
             (offerings db)).
Proof.
  unfold toggleActive.
  destruct (authorization req) as [ | | uid ut] eqn:Ha; simpl;
    try (left; split; [discriminate | split; [reflexivity | intros ? H; discriminate H]]).
  unfold adminOnly. destruct (String.eqb ut "admin") eqn:Et.
  - apply String.eqb_eq in Et. subst ut.
    unfold toggleActiveHandler.
    destruct (sellerById (body req) db) as [s | ] eqn:Hs.
    + unfold updateSellers. simpl columnAccepts. simpl andb. cbv iota.
      unfold sellerById in *. simpl sellers. rewrite find_rowsAfter, Hs. simpl.
      right. exists uid, s. auto.
    + left. split; [discriminate | split; [reflexivity | reflexivity]].
  - left. split; [discriminate | split; [reflexivity | ]].
    intros uid' H. injection H as _ ->. discriminate.
Qed.

Lemma toggleActive_found (now uid : Z) (req : AuthRequest Z) (db : Db)
    (s : Seller.t) :
  authorization req = Decoded uid "admin" ->
  sellerById (body req) db = Some s ->
  snd (toggleActive now req db) =
    mkDb (rowsAfter (toggleUpdateData now s) (body req) (sellers db))
         (offerings db).
Proof.
  intros Ha Hs.
  destruct (toggleActive_cases now req db)
    as [[_ [_ Hnone]] | [uid' [s' [_ [Hs' [_ Hdb]]]]]].
  - rewrite (Hnone uid Ha) in Hs. discriminate.
  - rewrite Hs in Hs'. injection Hs' as <-. exact Hdb.
Qed.

(** X9: the toggle answers 403 to a caller who is not an admin and 404 for
    an id without a row, and both leave the table as it was. *)
Theorem toggleActive_errors_leave_state (now uid : Z) (ut : string)
    (req : AuthRequest Z) (db : Db) :
  authorization req = Decoded uid ut ->
  ut <> "admin" \/ sellerById (body req) db = None ->
  toggleActive now req db =
  (if String.eqb ut "admin"
   then res_error 404 "Vendor not found"
   else res_error 403 "Admin access required",
   db).
Proof.
  intros Ha Hcase. unfold toggleActive. rewrite Ha. simpl. unfold adminOnly.
  destruct (String.eqb ut "admin") eqn:E; [ | reflexivity].
  apply String.eqb_eq in E. destruct Hcase as [Hne | Hnone]; [contradiction | ].
  unfold toggleActiveHandler. rewrite Hnone. reflexivity.
Qed.

(** X10: after the admin has toggled an active vendor off, no discovery
    query lists it, although its coordinates are still stored. *)
Theorem toggled_off_vendor_never_listed (now uid : Z) (req : AuthRequest Z)
    (db : Db) (s : Seller.t) :
  authorization req = Decoded uid "admin" ->
  sellerById (body req) db = Some s ->
  Seller.isActive s = true ->
  forall later q v,
    In v (getActiveVendors later q (snd (toggleActive now req db))) ->
    Vendor.id v <> body req.
Proof.
  intros Ha Hs Hon later q.
  destruct (toggleActive_cases now req db)
    as [[_ [_ Hnone]] | [uid' [s' [_ [Hs' [_ Hdb]]]]]].
  - rewrite (Hnone uid Ha) in Hs. discriminate.
  - rewrite Hs in Hs'. injection Hs' as <-. rewrite Hdb.
    apply inactive_id_not_listed. simpl. intros r Hr Hid.
    destruct (rowsAfter_same_id _ _ _ _ Hr Hid) as [r0 [_ [_ ->]]].
    simpl. rewrite Hon. reflexivity.
Qed.

Lemma sellerById_some (sid : Z) (db : Db) (s : Seller.t) :
  sellerById sid db = Some s -> In s (sellers db) /\ Seller.id s = sid.
Proof.
  unfold sellerById. intros H. apply find_some in H.
  destruct H as [Hin Heq]. split; [exact Hin | now apply Z.eqb_eq].
Qed.

Lemma filter_perm {A : Type} (p : A -> bool) (l l' : list A) :
  Permutation l l' -> Permutation (filter p l) (filter p l').
Proof.
  induction 1 as [ | a l l' _ IH | a b l | l l' l'' _ IH1 _ IH2]; simpl.
  - constructor.
  - destruct (p a); [now constructor | exact IH].
  - destruct (p a), (p b); try apply Permutation_refl. constructor.
  - now apply (Permutation_trans IH1).
Qed.

(** The vendors of a discovery answer do not depend on the order in which
    the seller rows are selected. *)
Lemma getActiveVendors_sameRows (now : Z) (q : ActiveQuery) (db db' : Db) :
  sameRows db db' ->
  Permutation (getActiveVendors now q db) (getActiveVendors now q db').
Proof.
  intros [Hrows Hoffs].
  assert (Hv : vendorWithOfferings (lat q) (lng q) db' =
               vendorWithOfferings (lat q) (lng q) db).
  { unfold vendorWithOfferings, sellerOfferings. rewrite Hoffs. reflexivity. }
  assert (Hf : Permutation
                 (filter hasTruthyCoordinates
                    (map (vendorWithOfferings (lat q) (lng q) db)
                       (activeSellers now db)))
                 (filter hasTruthyCoordinates
                    (map (vendorWithOfferings (lat q) (lng q) db')
                       (activeSellers now db')))).
  { rewrite Hv. apply filter_perm, Permutation_map. unfold activeSellers.
    now apply filter_perm. }
  unfold getActiveVendors.
  destruct (truthy (lat q) && truthy (lng q)); [ | exact Hf].
  eapply Permutation_trans;
    [apply Permutation_sym, sortByDistance_perm | ].
  eapply Permutation_trans; [ | apply sortByDistance_perm].
  now apply filter_perm.
Qed.

Lemma sameRows_refl (db : Db) : sameRows db db.
Proof. split; [apply Permutation_refl | reflexivity]. Qed.

Lemma sameRows_sym (db db' : Db) : sameRows db db' -> sameRows db' db.
Proof. intros [H1 H2]. split; [now apply Permutation_sym | now symmetry]. Qed.

Lemma sameRows_trans (a b c : Db) : sameRows a b -> sameRows b c -> sameRows a c.
Proof.
  intros [H1 H2] [H3 H4].
  split; [now apply (Permutation_trans H1) | congruence].
Qed.

(** A row found by its id in a table with distinct ids is found in every
    order of the rows. *)
Lemma sellerById_sameRows (sid : Z) (db db' : Db) (s : Seller.t) :
  NoDup (map Seller.id (sellers db)) -> sameRows db db' ->
  sellerById sid db = Some s -> sellerById sid db' = Some s.
Proof.
  intros Hnd [Hrows _] Hs.
  destruct (sellerById_some _ _ _ Hs) as [Hin Hid].
  assert (Hin' : In s (sellers db')) by now apply (Permutation_in _ Hrows).
  destruct (find_by_id_some s _ Hin') as [r Hr].
  unfold sellerById. rewrite <- Hid, Hr. f_equal.
  apply find_some in Hr. destruct Hr as [Hrin Hrid]. apply Z.eqb_eq in Hrid.
  apply (Permutation_in _ (Permutation_sym Hrows)) in Hrin.
  exact (same_id_same_row _ r s Hnd Hrin Hin Hrid).
Qed.

(** X11: toggling the same vendor twice leaves every discovery answer with
    the same vendors, in whatever order the database returns the rows
    after each update: the flag is back, and the location and its
    timestamp never moved. *)
Theorem toggleActive_twice_same_discovery (now1 now2 : Z) (req : AuthRequest Z)
    (db db1 db2 : Db) :
  NoDup (map Seller.id (sellers db)) ->
  sameRows (snd (toggleActive now1 req db)) db1 ->
  sameRows (snd (toggleActive now2 req db1)) db2 ->
  forall later q,
    Permutation (getActiveVendors later q db2) (getActiveVendors later q db).
Proof.
  intros Hnd H1 H2 later q.
  destruct (toggleActive_cases now1 req db)
    as [[_ [Hdb Hnone]] | [uid [s [Ha [Hs [_ Hdb]]]]]]; rewrite Hdb in H1.
  - destruct (toggleActive_cases now2 req db1)
      as [[_ [Hdb2 _]] | [uid [s [Ha [Hs _]]]]].
    + rewrite Hdb2 in H2. apply getActiveVendors_sameRows.
      apply sameRows_sym. now apply (sameRows_trans _ db1).
    + assert (Hnd1 : NoDup (map Seller.id (sellers db1))).
      { apply (Permutation_NoDup (Permutation_map _ (proj1 H1)) Hnd). }
      rewrite (sellerById_sameRows _ _ _ _ Hnd1 (sameRows_sym _ _ H1) Hs)
        in Hnone.
      discriminate (Hnone uid Ha).
  - set (u1 := toggleUpdateData now1 s) in *.
    set (t1 := mkDb (rowsAfter u1 (body req) (sellers db)) (offerings db)) in *.
    assert (Hnd1 : NoDup (map Seller.id (sellers t1))).
    { unfold t1. simpl. now rewrite rowsAfter_ids. }
    assert (Hs1 : sellerById (body req) db1 = Some (setRow u1 s)).
    { apply (sellerById_sameRows _ t1 _ _ Hnd1 H1).
      unfold sellerById in *. simpl. rewrite find_rowsAfter, Hs. reflexivity. }
    rewrite (toggleActive_found now2 uid req db1 _ Ha Hs1) in H2.
    set (u2 := toggleUpdateData now2 (setRow u1 s)) in *.
    destruct (sellerById_some _ _ _ Hs) as [Hin Hid].
    set (g := fun r => if Seller.id r =? body req
                       then setRow u2 (setRow u1 r) else r).
    assert (Hg : sameRows (mkDb (map g (sellers db)) (offerings db)) db2).
    { apply (sameRows_trans _ (mkDb (rowsAfter u2 (body req) (sellers db1))
                                 (offerings db1))); [ | exact H2].
      destruct H1 as [Hrows Hoffs]. split; [ | exact Hoffs].
      simpl in *. unfold rowsAfter at 1.
      apply (Permutation_trans (l' := map (fun r => if Seller.id r =? body req
                                                    then setRow u2 r else r)
                                        (rowsAfter u1 (body req) (sellers db)))).
      - unfold rowsAfter. rewrite map_map.
        replace (map g (sellers db))
          with (map (fun x => if Seller.id (if Seller.id x =? body req
                                            then setRow u1 x else x) =? body req
                              then setRow u2 (if Seller.id x =? body req
                                              then setRow u1 x else x)
                              else if Seller.id x =? body req
                                   then setRow u1 x else x) (sellers db));
          [apply Permutation_refl | ].
        apply map_ext. intros r. unfold g.
        destruct (Seller.id r =? body req) eqn:E; [ | rewrite E; reflexivity].
        rewrite setRow_id, E. reflexivity.
      - now apply Permutation_map. }
    eapply Permutation_trans;
      [apply getActiveVendors_sameRows, sameRows_sym, Hg | ].
    rewrite (getActiveVendors_congr later q db _ g); [apply Permutation_refl | .. ].
    + reflexivity.
    + reflexivity.
    + intros r Hr. unfold g.
      destruct (Seller.id r =? body req) eqn:E; [ | left; reflexivity].
      right. exists now2. apply Z.eqb_eq in E.
      assert (r = s) as ->.
      { apply (same_id_same_row _ _ _ Hnd Hr Hin). congruence. }
      unfold u2, u1, touch, toggleUpdateData, setRow. simpl.
      rewrite negb_involutive. reflexivity.
Qed.

(** ** Filtering a sorted answer *)

Lemma insertByDistance_front (v : Vendor.t) (l : list Vendor.t) :
  Forall (byDistance v) l -> insertByDistance v l = v :: l.
Proof.
  intros H. destruct l as [ | w l]; [reflexivity | ].
  inversion H as [ | x xs Hvw _]; subst. simpl.
  destruct (Rle_dec (Vendor.distance v) (Vendor.distance w)); [reflexivity | ].
  contradiction.
Qed.

Lemma filter_insertByDistance (p : Vendor.t -> bool) (v : Vendor.t)
    (l : list Vendor.t) :
  StronglySorted byDistance l ->
  filter p (insertByDistance v l) =
  if p v then insertByDistance v (filter p l) else filter p l.
Proof.
  induction l as [ | w l IH]; intros Hs.
  - simpl. destruct (p v); reflexivity.
  - inversion Hs as [ | x xs Hs' Hall]; subst. simpl insertByDistance.
    destruct (Rle_dec (Vendor.distance v) (Vendor.distance w)) as [Hle | Hgt].
    + change (filter p (v :: w :: l))
        with (if p v then v :: filter p (w :: l) else filter p (w :: l)).
      destruct (p v); [ | reflexivity].
      symmetry. apply insertByDistance_front.
      apply Forall_forall. intros z Hz. apply filter_In in Hz.
      destruct Hz as [[<- | Hz] _]; [exact Hle | ].
      rewrite Forall_forall in Hall. specialize (Hall z Hz).
      unfold byDistance in *. lra.
    + change (filter p (w :: insertByDistance v l))
        with (if p w then w :: filter p (insertByDistance v l)
              else filter p (insertByDistance v l)).
      rewrite (IH Hs'). simpl filter.
      destruct (p w), (p v); try reflexivity.
      simpl. destruct (Rle_dec (Vendor.distance v) (Vendor.distance w));
        [contradiction | reflexivity].
Qed.

Lemma filter_sortByDistance (p : Vendor.t -> bool) (l : list Vendor.t) :
  filter p (sortByDistance l) = sortByDistance (filter p l).
Proof.
  induction l as [ | v l IH]; [reflexivity | ].
  simpl. rewrite filter_insertByDistance by apply sortByDistance_sorted.
  rewrite IH. destruct (p v); reflexivity.
Qed.

(** X12: with an origin in effect, the answer for a smaller radius is the
    answer for a larger one cut down to the smaller radius, in the same
    order. *)
Theorem getActive_smaller_radius (now : Z) (a b r1 r2 : R) (db : Db) :
  a <> 0%R -> b <> 0%R -> (r1 <= r2)%R ->
  getActiveVendors now (mkQuery (Some a) (Some b) (Some r1)) db =
  filter (withinRadius r1)
    (getActiveVendors now (mkQuery (Some a) (Some b) (Some r2)) db).
Proof.
  intros Ha Hb Hr. unfold getActiveVendors. simpl lat. simpl lng. simpl radius.
  rewrite !truthy_nonzero by assumption. simpl andb. cbv iota.
  set (F := filter hasTruthyCoordinates _).
  rewrite filter_sortByDistance, filter_filter.
  apply (f_equal sortByDistance). apply filter_ext. intros v.
  destruct (withinRadius r1 v) eqn:E1.
  - apply withinRadius_iff in E1.
    rewrite (withinRadius_true r2 v) by lra. reflexivity.
  - symmetry. apply andb_false_r.
Qed.

(** ** The schema's constraints under the table operations *)

Lemma filter_keeps_distinct {Row Key : Type} (key : Row -> Key)
    (keep : Row -> bool) (rows : list Row) :
  NoDup (map key rows) -> NoDup (map key (filter keep rows)).
Proof.
  induction rows as [ | r rows IH]; simpl; intros H; [constructor | ].
  inversion H as [ | x xs Hnotin Hnd]; subst.
  destruct (keep r); simpl; [ | now apply IH].
  constructor; [ | now apply IH].
  intros Hin. apply Hnotin. apply in_map_iff in Hin.
  destruct Hin as [z [Hz Hin]]. apply filter_In in Hin.
  apply in_map_iff. exists z. tauto.
Qed.

Lemma NoDup_map_snoc {A B : Type} (f : A -> B) (l : list A) (a : A) :
  NoDup (map f l) -> ~ In (f a) (map f l) -> NoDup (map f (l ++ [a])).
Proof.
  intros Hnd Hnotin. rewrite map_app. simpl.
  apply NoDup_app.
  - exact Hnd.
  - constructor; [intros [] | constructor].
  - intros x Hx [<- | []]. contradiction.
Qed.

Lemma existsb_false_not_in {A : Type} (f : A -> Z) (k : Z) (l : list A) :
  existsb (fun a => f a =? k) l = false -> ~ In k (map f l).
Proof.
  intros H Hin. apply in_map_iff in Hin. destruct Hin as [a [Ha Hin]].
  assert (E : existsb (fun a => f a =? k) l = true).
  { apply existsb_exists. exists a. split; [exact Hin | now apply Z.eqb_eq]. }
  congruence.
Qed.

Lemma existsb_true_in {A : Type} (f : A -> Z) (k : Z) (l : list A) :
  existsb (fun a => f a =? k) l = true -> In k (map f l).
Proof.
  intros H. apply existsb_exists in H. destruct H as [a [Hin Ha]].
  apply Z.eqb_eq in Ha. apply in_map_iff. exists a. auto.
Qed.

(** Rewriting seller rows in place, ids and owners kept. *)
Lemma wellFormed_rows (g : Seller.t -> Seller.t) (st : Store) :
  (forall s, Seller.id (g s) = Seller.id s) ->
  (forall s, Seller.userId (g s) = Seller.userId s) ->
  wellFormed st ->
  wellFormed (withTables (mkDb (map g (sellers (tables st)))
                               (offerings (tables st))) st).
Proof.
  intros Hid Huid [H1 H2 H3 H4 H5 H6 H7 H8 H9 H10].
  assert (Eid : map Seller.id (map g (sellers (tables st))) =
                map Seller.id (sellers (tables st))).
  { rewrite map_map. apply map_ext. exact Hid. }
  assert (Euid : map Seller.userId (map g (sellers (tables st))) =
                 map Seller.userId (sellers (tables st))).
  { rewrite map_map. apply map_ext. exact Huid. }
  constructor; simpl; try assumption.
  - rewrite Eid. exact H3.
  - rewrite Euid. exact H4.
  - intros s Hs. apply in_map_iff in Hs. destruct Hs as [s0 [<- Hs0]].
    rewrite Huid. now apply H6.
  - intros o Ho. rewrite Eid. now apply H7.
  - intros s Hs. apply in_map_iff in Hs. destruct Hs as [s0 [<- Hs0]].
    rewrite Hid. now apply H9.
Qed.

Lemma wellFormed_insertUser (now : Z) (email password userType : string)
    (st st' : Store) (u : User.t) :
  wellFormed st ->
  insertUser now email password userType st = Some (u, st') ->
  wellFormed st'.
Proof.
  intros [H1 H2 H3 H4 H5 H6 H7 H8 H9 H10]. unfold insertUser.
  destruct (existsb _ (users st)) eqn:E; [discriminate | ].
  destruct (negb _); [discriminate | ]. simpl.
  intros H. injection H as <- <-.
  constructor; simpl; try assumption.
  - apply NoDup_map_snoc; [exact H1 | ]. simpl. intros Hin.
    apply in_map_iff in Hin. destruct Hin as [u0 [Hid Hu0]].
    specialize (H8 u0 Hu0). lia.
  - apply NoDup_map_snoc; [exact H2 | ]. simpl. intros Hin.
    apply in_map_iff in Hin. destruct Hin as [u0 [He Hu0]].
    assert (existsb (fun u => String.eqb (User.email u) email) (users st) = true).
    { apply existsb_exists. exists u0. split; [exact Hu0 | now apply String.eqb_eq]. }
    congruence.
  - intros s Hs. rewrite map_app. apply in_or_app. left. now apply H6.
  - intros u0 Hu0. apply in_app_or in Hu0. destruct Hu0 as [Hu0 | [<- | []]].
    + specialize (H8 u0 Hu0). lia.
    + simpl. lia.
Qed.

Lemma wellFormed_insertSeller (now userId : Z)
    (businessName ownerName phone : string) (description : option string)
    (st st' : Store) (s : Seller.t) :
  wellFormed st ->
  insertSeller now userId businessName ownerName phone description st
    = Some (s, st') ->
  wellFormed st'.
Proof.
  intros [H1 H2 H3 H4 H5 H6 H7 H8 H9 H10]. unfold insertSeller.
  destruct (existsb _ (sellers (tables st))) eqn:E1; [discriminate | ].
  destruct (existsb _ (users st)) eqn:E2; [ | discriminate].
  destruct (negb (varcharFits _ _ && _ && _)); [discriminate | ].
  simpl. intros H. injection H as <- <-.
  constructor; simpl; try assumption.
  - apply NoDup_map_snoc; [exact H3 | ]. simpl. intros Hin.
    apply in_map_iff in Hin. destruct Hin as [s0 [Hid Hs0]].
    specialize (H9 s0 Hs0). lia.
  - apply NoDup_map_snoc; [exact H4 | ]. simpl.
    now apply existsb_false_not_in.
  - intros s Hs. apply in_app_or in Hs. destruct Hs as [Hs | [<- | []]].
    + now apply H6.
    + simpl. now apply existsb_true_in.
  - intros o Ho. rewrite map_app. apply in_or_app. left. now apply H7.
  - intros s Hs. apply in_app_or in Hs. destruct Hs as [Hs | [<- | []]].
    + specialize (H9 s Hs). lia.
    + simpl. lia.
Qed.

Lemma offeringRows_ids (seq sid : Z) (names : list string) (o : Offering.t) :
  In o (offeringRows seq sid names) ->
  seq < Offering.id o <= seq + Z.of_nat (List.length names) /\
  Offering.sellerId o = sid.
Proof.
  revert seq. induction names as [ | n names IH]; intros seq Hin; [contradiction | ].
  simpl in Hin. destruct Hin as [<- | Hin].
  - simpl List.length. simpl. split; [lia | reflexivity].
  - apply IH in Hin. simpl List.length. split; [lia | tauto].
Qed.

Lemma offeringRows_NoDup (seq sid : Z) (names : list string) :
  NoDup (map Offering.id (offeringRows seq sid names)).
Proof.
  revert seq. induction names as [ | n names IH]; intros seq; simpl; constructor.
  - intros Hin. apply in_map_iff in Hin. destruct Hin as [o [Hid Ho]].
    apply offeringRows_ids in Ho. lia.
  - apply IH.
Qed.

Lemma offeringRows_names (seq sid : Z) (names : list string) :
  map Offering.name (offeringRows seq sid names) = names.
Proof.
  revert seq. induction names as [ | n names IH]; intros seq; simpl;
    [reflexivity | now rewrite IH].
Qed.

Lemma wellFormed_insertOfferings (sid : Z) (names : list string)
    (st st' : Store) :
  wellFormed st -> insertOfferings sid names st = Some st' -> wellFormed st'.
Proof.
  intros [H1 H2 H3 H4 H5 H6 H7 H8 H9 H10]. unfold insertOfferings.
  destruct (existsb _ (sellers (tables st))) eqn:E; [ | discriminate].
  destruct (forallb _ names); [ | discriminate]. simpl.
  intros H. injection H as <-.
  constructor; simpl; try assumption.
  - rewrite map_app. apply NoDup_app.
    + exact H5.
    + apply offeringRows_NoDup.
    + intros x Hx Hy. apply in_map_iff in Hx. destruct Hx as [o [<- Ho]].
      apply in_map_iff in Hy. destruct Hy as [o' [Hid Ho']].
      apply offeringRows_ids in Ho'. specialize (H10 o Ho). lia.
  - intros o Ho. apply in_app_or in Ho. destruct Ho as [Ho | Ho].
    + now apply H7.
    + apply offeringRows_ids in Ho. destruct Ho as [_ ->].
      now apply existsb_true_in.
  - intros o Ho. apply in_app_or in Ho. destruct Ho as [Ho | Ho].
    + specialize (H10 o Ho). lia.
    + apply offeringRows_ids in Ho. lia.
Qed.

Lemma wellFormed_deleteOfferings (sid : Z) (st : Store) :
  wellFormed st -> wellFormed (deleteOfferings sid st).
Proof.
  intros [H1 H2 H3 H4 H5 H6 H7 H8 H9 H10].
  constructor; simpl; try assumption.
  - now apply filter_keeps_distinct.
  - intros o Ho. apply filter_In in Ho. apply H7. tauto.
  - intros o Ho. apply filter_In in Ho. apply H10. tauto.
Qed.

Lemma wellFormed_deleteSellers (sid : Z) (st st' : Store) :
  wellFormed st -> deleteSellers sid st = Some st' -> wellFormed st'.
Proof.
  intros [H1 H2 H3 H4 H5 H6 H7 H8 H9 H10]. unfold deleteSellers.
  destruct (existsb _ (sellers (tables st)) && existsb _ (offerings (tables st)))
    eqn:E; [discriminate | ].
  intros H. injection H as <-.
  constructor; simpl; try assumption.
  - now apply filter_keeps_distinct.
  - now apply filter_keeps_distinct.
  - intros s Hs. apply filter_In in Hs. apply H6. tauto.
  - intros o Ho. pose proof (H7 o Ho) as Hfk.
    apply in_map_iff in Hfk. destruct Hfk as [s [Hid Hs]].
    apply in_map_iff. exists s. split; [exact Hid | ].
    apply filter_In. split; [exact Hs | ].
    destruct (Seller.id s =? sid) eqn:Es; [ | reflexivity].
    exfalso. apply andb_false_iff in E. destruct E as [E | E].
    + assert (existsb (fun s => Seller.id s =? sid) (sellers (tables st)) = true).
      { apply existsb_exists. exists s. auto. }
      congruence.
    + assert (existsb (fun o => Offering.sellerId o =? sid)
                (offerings (tables st)) = true).
      { apply existsb_exists. exists o. split; [exact Ho | ]. now rewrite <- Hid. }
      congruence.
  - intros s Hs. apply filter_In in Hs. apply H9. tauto.
Qed.

Lemma wellFormed_deleteUsers (uid : Z) (st st' : Store) :
  wellFormed st -> deleteUsers uid st = Some st' -> wellFormed st'.
Proof.
  intros [H1 H2 H3 H4 H5 H6 H7 H8 H9 H10]. unfold deleteUsers.
  destruct (existsb _ (users st) && existsb _ (sellers (tables st)))
    eqn:E; [discriminate | ].
  intros H. injection H as <-.
  constructor; simpl; try assumption.
  - now apply filter_keeps_distinct.
  - now apply filter_keeps_distinct.
  - intros s Hs. pose proof (H6 s Hs) as Hfk.
    apply in_map_iff in Hfk. destruct Hfk as [u [Hid Hu]].
    apply in_map_iff. exists u. split; [exact Hid | ].
    apply filter_In. split; [exact Hu | ].
    destruct (User.id u =? uid) eqn:Eu; [ | reflexivity].
    exfalso. apply andb_false_iff in E. destruct E as [E | E].
    + assert (existsb (fun u => User.id u =? uid) (users st) = true).
      { apply existsb_exists. exists u. auto. }
      congruence.
    + assert (existsb (fun s => Seller.userId s =? uid)
                (sellers (tables st)) = true).
      { apply existsb_exists. exists s. split; [exact Hs | ]. now rewrite <- Hid. }
      congruence.
  - intros u Hu. apply filter_In in Hu. apply H8. tauto.
Qed.

Lemma find_snoc_new {A : Type} (p : A -> bool) (l : list A) (a : A) :
  find p l = None -> p a = true -> find p (l ++ [a]) = Some a.
Proof.
  induction l as [ | x l IH]; simpl; intros Hn Ha.
  - rewrite Ha. reflexivity.
  - destruct (p x); [discriminate | now apply IH].
Qed.

Lemma filter_none {A : Type} (p : A -> bool) (l : list A) :
  (forall a, In a l -> p a = false) -> filter p l = [].
Proof.
  induction l as [ | x l IH]; simpl; intros H; [reflexivity | ].
  rewrite (H x (or_introl eq_refl)). apply IH. intros a Ha. apply H. now right.
Qed.

Lemma filter_all {A : Type} (p : A -> bool) (l : list A) :
  (forall a, In a l -> p a = true) -> filter p l = l.
Proof.
  induction l as [ | x l IH]; simpl; intros H; [reflexivity | ].
  rewrite (H x (or_introl eq_refl)). f_equal. apply IH. intros a Ha. apply H. now right.
Qed.

(** ** Accounts *)

Lemma insertUser_some (now : Z) (email password userType : string)
    (st st' : Store) (u : User.t) :
  insertUser now email password userType st = Some (u, st') ->
  u = User.mk (usersIdSeq st + 1) email password userType now now /\
  st' = mkStore (tables st) (users st ++ [u]) (usersIdSeq st + 1)
          (sellersIdSeq st) (offeringsIdSeq st).
Proof.
  unfold insertUser. destruct (_ || _); [discriminate | ].
  intros H. injection H as <- <-. auto.
Qed.

Lemma insertSeller_some (now userId : Z)
    (businessName ownerName phone : string) (description : option string)
    (st st' : Store) (s : Seller.t) :
  insertSeller now userId businessName ownerName phone description st
    = Some (s, st') ->
  s = Seller.mk (sellersIdSeq st + 1) userId businessName ownerName phone
        description false None None None now now /\
  st' = mkStore (mkDb (sellers (tables st) ++ [s]) (offerings (tables st)))
          (users st) (usersIdSeq st) (sellersIdSeq st + 1) (offeringsIdSeq st).
Proof.
  unfold insertSeller. destruct (_ || _); [discriminate | ].
  intros H. injection H as <- <-. auto.
Qed.

Lemma insertOfferings_some (sid : Z) (names : list string) (st st' : Store) :
  insertOfferings sid names st = Some st' ->
  st' = mkStore
          (mkDb (sellers (tables st))
                (offerings (tables st) ++
                 offeringRows (offeringsIdSeq st) sid names))
          (users st) (usersIdSeq st) (sellersIdSeq st)
          (offeringsIdSeq st + Z.of_nat (List.length names)).
Proof.
  unfold insertOfferings. destruct (_ && _); [ | discriminate].
  intros H. injection H as <-. reflexivity.
Qed.

Lemma find_none_existsb {A : Type} (p : A -> bool) (l : list A) :
  find p l = None -> existsb p l = false.
Proof.
  induction l as [ | a l IH]; simpl; [reflexivity | ].
  destruct (p a); [discriminate | exact IH].
Qed.

Lemma existsb_snoc {A : Type} (p : A -> bool) (l : list A) (a : A) :
  existsb p (l ++ [a]) = existsb p l || p a.
Proof.
  rewrite existsb_app. simpl. now rewrite orb_false_r.
Qed.

(** No seller row belongs to the user the sequence will number next. *)
Lemma next_user_has_no_seller (st : Store) :
  wellFormed st ->
  existsb (fun s => Seller.userId s =? usersIdSeq st + 1)
    (sellers (tables st)) = false.
Proof.
  intros Hwf.
  destruct (existsb _ (sellers (tables st))) eqn:E; [ | reflexivity].
  exfalso. apply existsb_true_in in E.
  apply in_map_iff in E. destruct E as [s [Hs Hin]].
  pose proof (wf_seller_fk st Hwf s Hin) as Hfk.
  apply in_map_iff in Hfk. destruct Hfk as [u [Hid Hu']].
  pose proof (wf_user_seq st Hwf u Hu'). lia.
Qed.

Section RegisterProperties.
Variable jwtSign : Z -> Z -> string -> string.

Lemma register_missing (now : Z) (h : string) (b : RegisterBody) (st : Store) :
  requiredFields b = false ->
  register jwtSign now h b st = (reply_error 400 "Missing required fields", st).
Proof.
  unfold requiredFields, register. intros H.
  destruct (truthyString (r_email b)), (truthyString (r_password b)),
    (truthyString (r_businessName b)), (truthyString (r_ownerName b)),
    (truthyString (r_phone b)); try discriminate; reflexivity.
Qed.

Lemma register_duplicate (now : Z) (h : string) (b : RegisterBody) (st : Store)
    (u : User.t) :
  requiredFields b = true ->
  userByEmail (text (r_email b)) st = Some u ->
  register jwtSign now h b st = (reply_error 400 "Email already registered", st).
Proof.
  unfold requiredFields, register. intros H Hu.
  rewrite !andb_true_iff in H. destruct H as [[[[-> ->] ->] ->] ->].
  simpl. rewrite Hu. reflexivity.
Qed.

(** The steps of a registration that passed the two checks. *)
Lemma register_steps (now : Z) (h : string) (b : RegisterBody) (st : Store) :
  requiredFields b = true ->
  userByEmail (text (r_email b)) st = None ->
  register jwtSign now h b st =
  match insertUser now (text (r_email b)) h "seller" st with
  | None => (reply_error 500 "Registration failed", st)
  | Some (newUser, st1) =>
      match insertSeller now (User.id newUser) (text (r_businessName b))
              (text (r_ownerName b)) (text (r_phone b))
              (Some (if truthyString (r_description b)
                     then text (r_description b) else ""))
              st1 with
      | None => (reply_error 500 "Registration failed", st1)
      | Some (newSeller, st2) =>
          match (match r_offerings b with
                 | Some (n :: l) =>
                     insertOfferings (Seller.id newSeller) (n :: l) st2
                 | _ => Some st2
                 end) with
          | None => (reply_error 500 "Registration failed", st2)
          | Some st3 =>
              (mkReply 201
                 (PAccount (jwtSign now (User.id newUser) "seller")
                    (User.id newUser) (User.email newUser) "seller"
                    (Some (SellerData.mk (Seller.id newSeller)
                             (Seller.businessName newSeller)
                             (Seller.ownerName newSeller)
                             (Seller.phone newSeller)
                             (Seller.description newSeller)
                             (offeringsList b)
                             (Seller.isActive newSeller) None))),
               st3)
          end
      end
  end.
Proof.
  intros H Hu. unfold requiredFields in H. unfold register.
  rewrite !andb_true_iff in H. destruct H as [[[[-> ->] ->] ->] ->].
  simpl negb. simpl orb. cbv iota. rewrite Hu. reflexivity.
Qed.

(** A registration answered 201 passed both checks and stored the three
    kinds of rows. *)
Lemma register_created (now : Z) (h : string) (b : RegisterBody) (st : Store) :
  code (fst (register jwtSign now h b st)) = 201 ->
  requiredFields b = true /\
  userByEmail (text (r_email b)) st = None /\
  register jwtSign now h b st =
  (mkReply 201
     (PAccount (jwtSign now (usersIdSeq st + 1) "seller") (usersIdSeq st + 1)
        (text (r_email b)) "seller"
        (Some (SellerData.mk (sellersIdSeq st + 1) (text (r_businessName b))
                 (text (r_ownerName b)) (text (r_phone b))
                 (Some (if truthyString (r_description b)
                        then text (r_description b) else ""))
                 (offeringsList b) false None))),
   registeredStore now h b st).
Proof.
  intros H201.
  destruct (requiredFields b) eqn:Hreq;
    [ | rewrite (register_missing now h b st Hreq) in H201; discriminate].
  destruct (userByEmail (text (r_email b)) st) as [u | ] eqn:Hu;
    [rewrite (register_duplicate now h b st u Hreq Hu) in H201; discriminate | ].
  split; [reflexivity | split; [reflexivity | ]].
  rewrite (register_steps now h b st Hreq Hu) in *.
  destruct (insertUser now (text (r_email b)) h "seller" st)
    as [[newUser st1] | ] eqn:I1; [ | discriminate].
  apply insertUser_some in I1. destruct I1 as [-> ->].
  simpl User.id in *. simpl User.email.
  destruct (insertSeller now (usersIdSeq st + 1) _ _ _ _ _)
    as [[newSeller st2] | ] eqn:I2; [ | discriminate].
  apply insertSeller_some in I2. destruct I2 as [-> ->].
  simpl in *. unfold registeredStore, registeredSeller, registeredUser, offeringsList.
  destruct (r_offerings b) as [[ | n l] | ].
  - simpl. rewrite app_nil_r, Z.add_0_r. reflexivity.
  - destruct (insertOfferings _ (n :: l) _) as [st3 | ] eqn:I3; [ | discriminate].
    apply insertOfferings_some in I3. subst st3. reflexivity.
  - simpl. rewrite app_nil_r, Z.add_0_r. reflexivity.
Qed.

Lemma register_success (now : Z) (h : string) (b : RegisterBody) (st : Store) :
  wellFormed st ->
  registrationFits h b = true ->
  requiredFields b = true ->
  userByEmail (text (r_email b)) st = None ->
  code (fst (register jwtSign now h b st)) = 201.
Proof.
  intros Hwf Hfit Hreq Hu.
  rewrite (register_steps now h b st Hreq Hu).
  unfold registrationFits in Hfit. rewrite !andb_true_iff in Hfit.
  destruct Hfit as [[[[[F1 F2] F3] F4] F5] F6].
  unfold insertUser. unfold userByEmail in Hu.
  rewrite (find_none_existsb _ _ Hu), F1, F2. simpl.
  unfold insertSeller. simpl tables. simpl users.
  rewrite (next_user_has_no_seller st Hwf), existsb_snoc. simpl User.id.
  rewrite Z.eqb_refl, orb_true_r, F3, F4, F5. simpl.
  destruct (r_offerings b) as [[ | n l] | ]; try reflexivity.
  unfold insertOfferings. simpl tables. simpl sellers.
  rewrite existsb_snoc. simpl Seller.id. rewrite Z.eqb_refl, orb_true_r, F6.
  reflexivity.
Qed.

(** X13: on a database that meets the schema's constraints, with texts that
    fit their columns, registration never ends in a 500: the answer is 201
    exactly when the five required fields are non-empty and the email is not
    yet registered, and then one user of type seller, one inactive seller
    without location and the offerings are added; otherwise the answer is
    400 and nothing is written. *)
Theorem register_outcome (now : Z) (h : string) (b : RegisterBody) (st : Store) :
  wellFormed st ->
  registrationFits h b = true ->
  (code (fst (register jwtSign now h b st)) = 201 /\
   requiredFields b = true /\ userByEmail (text (r_email b)) st = None /\
   snd (register jwtSign now h b st) = registeredStore now h b st) \/
  (code (fst (register jwtSign now h b st)) = 400 /\
   (requiredFields b = false \/ userByEmail (text (r_email b)) st <> None) /\
   snd (register jwtSign now h b st) = st).
Proof.
  intros Hwf Hfit.
  destruct (requiredFields b) eqn:Hreq.
  - destruct (userByEmail (text (r_email b)) st) as [u | ] eqn:Hu.
    + right. rewrite (register_duplicate now h b st u Hreq Hu). simpl.
      split; [reflexivity | split; [right; discriminate | reflexivity]].
    + left. pose proof (register_success now h b st Hwf Hfit Hreq Hu) as H201.
      destruct (register_created now h b st H201) as [_ [_ ->]]. simpl. auto.
  - right. rewrite (register_missing now h b st Hreq). simpl. auto.
Qed.

(** X14: registration is not atomic: when the user and the seller fit their
    columns but an offering name is longer than 100 characters, the answer
    is 500 and the user and seller rows stay behind, so the same email is
    refused from then on. *)
Theorem register_failure_leaves_account (now now' : Z) (h h' : string)
    (b : RegisterBody) (st : Store) :
  wellFormed st ->
  requiredFields b = true ->
  userByEmail (text (r_email b)) st = None ->
  varcharFits 255 (text (r_email b)) = true -> varcharFits 255 h = true ->
  varcharFits 255 (text (r_businessName b)) = true ->
  varcharFits 255 (text (r_ownerName b)) = true ->
  varcharFits 50 (text (r_phone b)) = true ->
  forallb (varcharFits 100) (offeringsList b) = false ->
  register jwtSign now h b st =
    (reply_error 500 "Registration failed",
     mkStore (mkDb (sellers (tables st) ++ [registeredSeller now b st])
                   (offerings (tables st)))
       (users st ++ [registeredUser now h b st])
       (usersIdSeq st + 1) (sellersIdSeq st + 1) (offeringsIdSeq st)) /\
  register jwtSign now' h' b (snd (register jwtSign now h b st)) =
    (reply_error 400 "Email already registered",
     snd (register jwtSign now h b st)).
Proof.
  intros Hwf Hreq Hu F1 F2 F3 F4 F5 F6.
  assert (Hfail : register jwtSign now h b st =
    (reply_error 500 "Registration failed",
     mkStore (mkDb (sellers (tables st) ++ [registeredSeller now b st])
                   (offerings (tables st)))
       (users st ++ [registeredUser now h b st])
       (usersIdSeq st + 1) (sellersIdSeq st + 1) (offeringsIdSeq st))).
  { rewrite (register_steps now h b st Hreq Hu).
    unfold insertUser. unfold userByEmail in Hu.
    rewrite (find_none_existsb _ _ Hu), F1, F2. simpl.
    unfold insertSeller. simpl tables. simpl users.
    rewrite (next_user_has_no_seller st Hwf), existsb_snoc. simpl User.id.
    rewrite Z.eqb_refl, orb_true_r, F3, F4, F5. simpl.
    unfold offeringsList in F6.
    destruct (r_offerings b) as [[ | n l] | ]; try discriminate.
    unfold insertOfferings. rewrite F6, andb_false_r. reflexivity. }
  split; [exact Hfail | ].
  rewrite Hfail. simpl snd.
  apply (register_duplicate now' h' b _ (registeredUser now h b st) Hreq).
  unfold userByEmail. simpl users.
  apply find_snoc_new; [exact Hu | ]. simpl. apply String.eqb_refl.
Qed.

Lemma wellFormed_register (now : Z) (h : string) (b : RegisterBody)
    (st : Store) :
  wellFormed st -> wellFormed (snd (register jwtSign now h b st)).
Proof.
  intros Hwf.
  destruct (requiredFields b) eqn:Hreq;
    [ | now rewrite (register_missing now h b st Hreq)].
  destruct (userByEmail (text (r_email b)) st) as [u | ] eqn:Hu;
    [now rewrite (register_duplicate now h b st u Hreq Hu) | ].
  rewrite (register_steps now h b st Hreq Hu).
  destruct (insertUser now (text (r_email b)) h "seller" st)
    as [[newUser st1] | ] eqn:I1; [ | exact Hwf].
  pose proof (wellFormed_insertUser _ _ _ _ _ _ _ Hwf I1) as Hwf1.
  destruct (insertSeller now (User.id newUser) _ _ _ _ st1)
    as [[newSeller st2] | ] eqn:I2; [ | exact Hwf1].
  pose proof (wellFormed_insertSeller _ _ _ _ _ _ _ _ _ Hwf1 I2) as Hwf2.
  destruct (r_offerings b) as [[ | n l] | ]; try exact Hwf2.
  destruct (insertOfferings (Seller.id newSeller) (n :: l) st2) as [st3 | ] eqn:I3;
    [ | exact Hwf2].
  exact (wellFormed_insertOfferings _ _ _ _ Hwf2 I3).
Qed.

End RegisterProperties.

(** The offerings of a seller once a registration is stored. *)
Lemma registered_offerings_old (now : Z) (h : string) (b : RegisterBody)
    (st : Store) (sid : Z) :
  sid <= sellersIdSeq st ->
  sellerOfferings (tables (registeredStore now h b st)) sid =
  sellerOfferings (tables st) sid.
Proof.
  intros Hle. unfold sellerOfferings, registeredStore. simpl.
  rewrite filter_app, (filter_none _ (offeringRows _ _ _)), app_nil_r;
    [reflexivity | ].
  intros o Ho. apply offeringRows_ids in Ho. destruct Ho as [_ ->].
  apply Z.eqb_neq. lia.
Qed.

Lemma registered_offerings_new (now : Z) (h : string) (b : RegisterBody)
    (st : Store) :
  wellFormed st ->
  map Offering.name
    (sellerOfferings (tables (registeredStore now h b st)) (sellersIdSeq st + 1))
  = offeringsList b.
Proof.
  intros Hwf. unfold sellerOfferings, registeredStore. simpl.
  rewrite filter_app, (filter_none _ (offerings (tables st))).
  - simpl. rewrite filter_all; [apply offeringRows_names | ].
    intros o Ho. apply offeringRows_ids in Ho. destruct Ho as [_ ->].
    apply Z.eqb_refl.
  - intros o Ho. apply Z.eqb_neq. intros E.
    pose proof (wf_offering_fk st Hwf o Ho) as Hfk.
    apply in_map_iff in Hfk. destruct Hfk as [s [Hid Hs]].
    pose proof (wf_seller_seq st Hwf s Hs). lia.
Qed.

(** An inactive row added at the end, with offerings of its own, is not
    seen by the discovery query. *)
Lemma getActiveVendors_grow (later : Z) (q : ActiveQuery) (db : Db)
    (n : Seller.t) (rows : list Offering.t) :
  (forall s, In s (sellers db) -> Seller.id s <> Seller.id n) ->
  Seller.isActive n = false ->
  (forall o, In o rows -> Offering.sellerId o = Seller.id n) ->
  getActiveVendors later q (mkDb (sellers db ++ [n]) (offerings db ++ rows)) =
  getActiveVendors later q db.
Proof.
  intros Hid Hoff Hrows. unfold getActiveVendors.
  set (db' := mkDb _ _).
  replace (map (vendorWithOfferings (lat q) (lng q) db') (activeSellers later db'))
    with (map (vendorWithOfferings (lat q) (lng q) db) (activeSellers later db));
    [reflexivity | ].
  unfold activeSellers at 2. unfold db' at 2. simpl sellers.
  rewrite filter_app. simpl filter. rewrite Hoff. simpl. rewrite app_nil_r.
  apply map_ext_in. intros s Hs. apply filter_In in Hs. destruct Hs as [Hs _].
  unfold vendorWithOfferings, sellerOfferings, db'. simpl offerings.
  rewrite filter_app, (filter_none _ rows), app_nil_r; [reflexivity | ].
  intros o Ho. rewrite (Hrows o Ho). apply Z.eqb_neq.
  intros E. exact (Hid s Hs (eq_sym E)).
Qed.

Section RegisterThenQuery.
Variable jwtSign : Z -> Z -> string -> string.

(** X15: a registration changes no discovery answer, whatever its outcome:
    the new vendor starts inactive and without location, and the other
    vendors keep their rows and offerings. *)
Theorem register_same_discovery (now : Z) (h : string) (b : RegisterBody)
    (st : Store) :
  wellFormed st ->
  forall later q,
    getActiveVendors later q (tables (snd (register jwtSign now h b st))) =
    getActiveVendors later q (tables st).
Proof.
  intros Hwf later q.
  destruct (requiredFields b) eqn:Hreq;
    [ | now rewrite (register_missing jwtSign now h b st Hreq)].
  destruct (userByEmail (text (r_email b)) st) as [u | ] eqn:Hu;
    [now rewrite (register_duplicate jwtSign now h b st u Hreq Hu) | ].
  rewrite (register_steps jwtSign now h b st Hreq Hu).
  destruct (insertUser now (text (r_email b)) h "seller" st)
    as [[newUser st1] | ] eqn:I1; [ | reflexivity].
  apply insertUser_some in I1. destruct I1 as [-> ->]. simpl User.id.
  destruct (insertSeller now (usersIdSeq st + 1) _ _ _ _ _)
    as [[newSeller st2] | ] eqn:I2; [ | reflexivity].
  apply insertSeller_some in I2. destruct I2 as [-> ->].
  simpl tables in *. simpl sellersIdSeq in *. simpl Seller.id.
  assert (Hnew : forall s, In s (sellers (tables st)) ->
                           Seller.id s <> sellersIdSeq st + 1).
  { intros s Hs. pose proof (wf_seller_seq st Hwf s Hs). lia. }
  destruct (r_offerings b) as [[ | n l] | ].
  - simpl snd. simpl tables.
    rewrite <- (app_nil_r (offerings (tables st))).
    apply getActiveVendors_grow; [exact Hnew | reflexivity | intros o []].
  - destruct (insertOfferings _ (n :: l) _) as [st3 | ] eqn:I3.
    + apply insertOfferings_some in I3. subst st3. simpl snd. simpl tables.
      apply getActiveVendors_grow; [exact Hnew | reflexivity | ].
      intros o Ho.
      apply (offeringRows_ids (offeringsIdSeq st) (sellersIdSeq st + 1) (n :: l))
        in Ho.
      tauto.
    + simpl snd. simpl tables.
      rewrite <- (app_nil_r (offerings (tables st))).
      apply getActiveVendors_grow; [exact Hnew | reflexivity | intros o []].
  - simpl snd. simpl tables.
    rewrite <- (app_nil_r (offerings (tables st))).
    apply getActiveVendors_grow; [exact Hnew | reflexivity | intros o []].
Qed.

(** X16: an email registered once cannot be registered again: the second
    call with that email is answered 400 and writes nothing, whatever its
    other fields. *)
Theorem register_twice_rejected (now now' : Z) (h h' : string)
    (b b' : RegisterBody) (st : Store) :
  wellFormed st ->
  code (fst (register jwtSign now h b st)) = 201 ->
  requiredFields b' = true ->
  text (r_email b') = text (r_email b) ->
  register jwtSign now' h' b' (snd (register jwtSign now h b st)) =
  (reply_error 400 "Email already registered",
   snd (register jwtSign now h b st)).
Proof.
  intros Hwf H201 Hreq' Hsame.
  destruct (register_created jwtSign now h b st H201) as [Hreq [Hu Hst]].
  rewrite Hst. simpl snd.
  apply (register_duplicate jwtSign now' h' b' _
           (registeredUser now h b st) Hreq').
  rewrite Hsame. unfold userByEmail, registeredStore. simpl users.
  apply find_snoc_new; [exact Hu | ]. simpl. apply String.eqb_refl.
Qed.

End RegisterThenQuery.

Section AccountProperties.
Variable jwtSign : Z -> Z -> string -> string.
Variable bcryptCompare : string -> string -> bool.

(** X17: an account that has just been registered can log in with a password
    that [bcrypt.compare] accepts against the stored hash; the answer is 200
    and carries the ids, the profile and the offerings given at
    registration, inactive and without coordinates. *)
Theorem login_after_register (now now' : Z) (h password : string)
    (b : RegisterBody) (st : Store) :
  wellFormed st ->
  code (fst (register jwtSign now h b st)) = 201 ->
  password <> "" ->
  bcryptCompare password h = true ->
  login jwtSign bcryptCompare now'
    (mkLoginBody (r_email b) (Some password))
    (snd (register jwtSign now h b st)) =
  mkReply 200
    (PAccount (jwtSign now' (usersIdSeq st + 1) "seller") (usersIdSeq st + 1)
       (text (r_email b)) "seller"
       (Some (SellerData.mk (sellersIdSeq st + 1) (text (r_businessName b))
                (text (r_ownerName b)) (text (r_phone b))
                (Some (if truthyString (r_description b)
                       then text (r_description b) else ""))
                (offeringsList b) false (Some (None, None))))).
Proof.
  intros Hwf H201 Hpw Hcmp.
  destruct (register_created jwtSign now h b st H201) as [Hreq [Hu Hst]].
  rewrite Hst. simpl snd. unfold login. simpl l_email. simpl l_password.
  unfold requiredFields in Hreq. rewrite !andb_true_iff in Hreq.
  destruct Hreq as [[[[E1 _] _] _] _]. rewrite E1.
  assert (Ep : truthyString (Some password) = true).
  { simpl. destruct (String.eqb password "") eqn:E; [ | reflexivity].
    apply String.eqb_eq in E. contradiction. }
  rewrite Ep. simpl negb. simpl orb. cbv iota.
  assert (Hfind : userByEmail (text (r_email b)) (registeredStore now h b st) =
                  Some (registeredUser now h b st)).
  { unfold userByEmail, registeredStore. simpl users.
    apply find_snoc_new; [exact Hu | ]. simpl. apply String.eqb_refl. }
  rewrite Hfind. simpl User.password. simpl text. rewrite Hcmp.
  simpl negb. cbv iota. simpl User.userType. simpl User.id.
  simpl (String.eqb "seller" "seller"). cbv iota.
  assert (Hsel : sellerByUserId (usersIdSeq st + 1)
                   (tables (registeredStore now h b st)) =
                 Some (registeredSeller now b st)).
  { unfold sellerByUserId, registeredStore. simpl sellers.
    apply find_snoc_new; [ | simpl; apply Z.eqb_refl].
    destruct (find _ (sellers (tables st))) as [s | ] eqn:E; [ | reflexivity].
    exfalso. apply find_some in E. destruct E as [Hs Hid].
    apply Z.eqb_eq in Hid.
    pose proof (wf_seller_fk st Hwf s Hs) as Hfk.
    apply in_map_iff in Hfk. destruct Hfk as [u [Hidu Hu']].
    pose proof (wf_user_seq st Hwf u Hu'). lia. }
  rewrite Hsel. unfold generateToken, sellerData, offeringNames.
  simpl Seller.id. rewrite (registered_offerings_new now h b st Hwf).
  reflexivity.
Qed.

(** X18: a login that fails does not tell whether the email is registered:
    an unknown email and a refused password get the same 401 answer. *)
Theorem login_failures_look_alike (now : Z) (b : LoginBody) (st : Store) :
  truthyString (l_email b) = true -> truthyString (l_password b) = true ->
  userByEmail (text (l_email b)) st = None \/
  (exists u, userByEmail (text (l_email b)) st = Some u /\
             bcryptCompare (text (l_password b)) (User.password u) = false) ->
  login jwtSign bcryptCompare now b st = reply_error 401 "Invalid credentials".
Proof.
  intros He Hp Hcase. unfold login. rewrite He, Hp. simpl.
  destruct Hcase as [-> | [u [-> ->]]]; reflexivity.
Qed.

End AccountProperties.

(** ** Deleting *)

Lemma withTables_same (st : Store) : withTables (tables st) st = st.
Proof. destruct st; reflexivity. Qed.

Lemma existsb_filter_negb {A : Type} (p : A -> bool) (l : list A) :
  existsb p (filter (fun a => negb (p a)) l) = false.
Proof.
  induction l as [ | a l IH]; simpl; [reflexivity | ].
  destruct (p a) eqn:E; simpl; [exact IH | ]. rewrite E. exact IH.
Qed.

Lemma same_user_same_seller (st : Store) (r s : Seller.t) :
  wellFormed st -> In r (sellers (tables st)) -> In s (sellers (tables st)) ->
  Seller.userId r = Seller.userId s -> r = s.
Proof.
  intros Hwf. pose proof (wf_seller_users st Hwf) as Hnd.
  induction (sellers (tables st)) as [ | a l IH]; intros Hr Hs Hid; [contradiction | ].
  simpl in Hnd. inversion Hnd as [ | x xs Hnotin Hnd']; subst.
  destruct Hr as [-> | Hr]; destruct Hs as [-> | Hs].
  - reflexivity.
  - exfalso. apply Hnotin. rewrite Hid. now apply in_map.
  - exfalso. apply Hnotin. rewrite <- Hid. now apply in_map.
  - now apply IH.
Qed.

Lemma no_other_seller_of_user (st : Store) (s : Seller.t) :
  wellFormed st -> In s (sellers (tables st)) ->
  existsb (fun r => Seller.userId r =? Seller.userId s)
    (filter (fun r => negb (Seller.id r =? Seller.id s)) (sellers (tables st)))
  = false.
Proof.
  intros Hwf Hs.
  destruct (existsb _ (filter _ _)) eqn:E; [ | reflexivity].
  exfalso. apply existsb_exists in E. destruct E as [r [Hr Hu]].
  apply filter_In in Hr. destruct Hr as [Hr Hid]. apply Z.eqb_eq in Hu.
  rewrite (same_user_same_seller st r s Hwf Hr Hs Hu), Z.eqb_refl in Hid.
  discriminate.
Qed.

Lemma deleteVendorHandler_found (st : Store) (s : Seller.t) :
  wellFormed st ->
  sellerById (Seller.id s) (tables st) = Some s ->
  deleteVendorHandler (Seller.id s) st =
  (mkReply 200 (PMessage "Vendor deleted successfully"), withoutVendor s st).
Proof.
  intros Hwf Hs. unfold deleteVendorHandler. rewrite Hs.
  unfold deleteSellers, deleteOfferings. simpl tables. simpl sellers.
  simpl offerings.
  rewrite (existsb_filter_negb (fun o => Offering.sellerId o =? Seller.id s)).
  rewrite andb_false_r.
  unfold deleteUsers, withTables. simpl tables. simpl sellers. simpl users.
  destruct (sellerById_some _ _ _ Hs) as [Hin _].
  rewrite (no_other_seller_of_user st s Hwf Hin), andb_false_r.
  reflexivity.
Qed.

(** X19: on a database that meets the schema's constraints, deleting a vendor
    that exists succeeds; its seller row, its offerings and its user are
    gone, and no other seller row, offering or user is removed. *)
Theorem deleteVendor_removes_account (uid : Z) (st : Store) (s : Seller.t) :
  wellFormed st ->
  sellerById (Seller.id s) (tables st) = Some s ->
  deleteVendor (adminRequest uid (Seller.id s)) st =
    (inr (mkReply 200 (PMessage "Vendor deleted successfully")),
     withoutVendor s st) /\
  sellerById (Seller.id s) (tables (withoutVendor s st)) = None /\
  userById (Seller.userId s) (withoutVendor s st) = None /\
  sellerOfferings (tables (withoutVendor s st)) (Seller.id s) = [] /\
  (forall r, In r (sellers (tables st)) -> r <> s ->
             In r (sellers (tables (withoutVendor s st)))) /\
  (forall o, In o (offerings (tables st)) -> Offering.sellerId o <> Seller.id s ->
             In o (offerings (tables (withoutVendor s st)))) /\
  (forall u, In u (users st) -> User.id u <> Seller.userId s ->
             In u (users (withoutVendor s st))).
Proof.
  intros Hwf Hs. destruct (sellerById_some _ _ _ Hs) as [Hin _].
  split; [ | split; [ | split; [ | split; [ | split; [ | split]]]]].
  - unfold deleteVendor, adminRequest. simpl.
    rewrite (deleteVendorHandler_found st s Hwf Hs). reflexivity.
  - unfold sellerById, withoutVendor. simpl.
    destruct (find _ (filter _ _)) as [r | ] eqn:E; [ | reflexivity].
    apply find_some in E. destruct E as [Hr Hid]. apply filter_In in Hr.
    destruct Hr as [_ Hn]. rewrite Hid in Hn. discriminate.
  - unfold userById, withoutVendor. simpl.
    destruct (find _ (filter _ _)) as [u | ] eqn:E; [ | reflexivity].
    apply find_some in E. destruct E as [Hu Hid]. apply filter_In in Hu.
    destruct Hu as [_ Hn]. rewrite Hid in Hn. discriminate.
  - unfold sellerOfferings, withoutVendor. simpl. apply filter_none.
    intros o Ho. apply filter_In in Ho. destruct Ho as [_ Hn].
    destruct (Offering.sellerId o =? Seller.id s); [discriminate | reflexivity].
  - intros r Hr Hne. simpl. apply filter_In. split; [exact Hr | ].
    destruct (Seller.id r =? Seller.id s) eqn:E; [ | reflexivity].
    exfalso. apply Hne. apply Z.eqb_eq in E.
    exact (same_id_same_row _ r s (wf_seller_ids st Hwf) Hr Hin E).
  - intros o Ho Hne. simpl. apply filter_In. split; [exact Ho | ].
    apply Z.eqb_neq in Hne. now rewrite Hne.
  - intros u Hu Hne. simpl. apply filter_In. split; [exact Hu | ].
    apply Z.eqb_neq in Hne. now rewrite Hne.
Qed.

(** X20: once a vendor is deleted, its token, still valid, is answered 404 by
    [PATCH /location] and [GET /profile], and no discovery query lists the
    vendor. *)
Theorem deleted_vendor_is_gone (now : Z) (st : Store) (s : Seller.t)
    (b : LocationBody) :
  wellFormed st ->
  sellerById (Seller.id s) (tables st) = Some s ->
  patchLocationStore now (mkReq (Decoded (Seller.userId s) "seller") b)
    (withoutVendor s st)
  = (res_error 404 "Seller profile not found", withoutVendor s st) /\
  getProfile (mkReq (Decoded (Seller.userId s) "seller") tt) (withoutVendor s st)
  = inr (reply_error 404 "Seller profile not found") /\
  (forall later q v,
      In v (getActiveVendors later q (tables (withoutVendor s st))) ->
      Vendor.id v <> Seller.id s).
Proof.
  intros Hwf Hs. destruct (sellerById_some _ _ _ Hs) as [Hin _].
  assert (Hnone : sellerByUserId (Seller.userId s) (tables (withoutVendor s st))
                  = None).
  { unfold sellerByUserId, withoutVendor. simpl.
    destruct (find _ (filter _ _)) as [r | ] eqn:E; [ | reflexivity].
    exfalso. apply find_some in E. destruct E as [Hr Hu].
    apply filter_In in Hr. destruct Hr as [Hr Hid]. apply Z.eqb_eq in Hu.
    rewrite (same_user_same_seller st r s Hwf Hr Hin Hu), Z.eqb_refl in Hid.
    discriminate. }
  split; [ | split].
  - remember (withoutVendor s st) as st' eqn:Est.
    unfold patchLocationStore, patchLocation. simpl.
    unfold patchLocationHandler. rewrite Hnone.
    rewrite withTables_same. reflexivity.
  - remember (withoutVendor s st) as st' eqn:Est.
    unfold getProfile. simpl. unfold getProfileHandler. rewrite Hnone.
    reflexivity.
  - intros later q v Hv Hid. apply getActiveVendors_origin in Hv.
    destruct Hv as [r [Hr [-> _]]]. simpl in Hid, Hr.
    apply filter_In in Hr. destruct Hr as [_ Hn].
    rewrite Hid, Z.eqb_refl in Hn. discriminate.
Qed.

(** X21: an admin cannot delete the account the request is made with (400),
    and deleting a user whose type is not "seller" while a seller row still
    belongs to it is refused by the reference from sellers to users (500);
    in both cases nothing is written. *)
Theorem deleteUser_refusals (reqUserId userId : Z) (st : Store) :
  (userId = reqUserId ->
   deleteUser (adminRequest reqUserId userId) st =
     (inr (reply_error 400 "Cannot delete your own account"), st)) /\
  (forall u s,
      userId <> reqUserId ->
      userById userId st = Some u ->
      User.userType u <> "seller" ->
      sellerByUserId userId (tables st) = Some s ->
      deleteUser (adminRequest reqUserId userId) st =
        (inr (reply_error 500 "Failed to delete user"), st)).
Proof.
  split.
  - intros ->. unfold deleteUser, adminRequest. simpl.
    unfold deleteUserHandler. rewrite Z.eqb_refl. reflexivity.
  - intros u s Hne Hu Ht Hs. unfold deleteUser, adminRequest. simpl.
    unfold deleteUserHandler.
    apply Z.eqb_neq in Hne. rewrite Hne, Hu.
    destruct (String.eqb (User.userType u) "seller") eqn:E.
    { apply String.eqb_eq in E. contradiction. }
    unfold deleteUsers.
    assert (E1 : existsb (fun u0 => User.id u0 =? userId) (users st) = true).
    { unfold userById in Hu. apply find_some in Hu.
      apply existsb_exists. exists u. exact Hu. }
    assert (E2 : existsb (fun r => Seller.userId r =? userId)
                   (sellers (tables st)) = true).
    { unfold sellerByUserId in Hs. apply find_some in Hs.
      apply existsb_exists. exists s. exact Hs. }
    rewrite E1, E2. reflexivity.
Qed.

(** X22: the counts of [GET /stats] are consistent: the active sellers are
    at most the sellers, and the searcher, seller and admin users together
    are at most the users. *)
Theorem getStats_counts (st : Store) :
  exists totalUsers totalSellers activeSellers searcherUsers sellerUsers
         adminUsers,
    getStatsHandler st =
      mkReply 200 (PStats totalUsers totalSellers activeSellers searcherUsers
                     sellerUsers adminUsers) /\
    totalUsers = List.length (users st) /\
    totalSellers = List.length (sellers (tables st)) /\
    (activeSellers <= totalSellers)%nat /\
    (searcherUsers + sellerUsers + adminUsers <= totalUsers)%nat.
Proof.
  unfold getStatsHandler. do 6 eexists.
  split; [reflexivity | split; [reflexivity | split; [reflexivity | split]]].
  - apply filter_length_le.
  - induction (users st) as [ | u l IH]; simpl; [lia | ].
    destruct (String.eqb (User.userType u) "searcher") eqn:E1;
      destruct (String.eqb (User.userType u) "seller") eqn:E2;
      destruct (String.eqb (User.userType u) "admin") eqn:E3;
      try (apply String.eqb_eq in E1); try (apply String.eqb_eq in E2);
      try (apply String.eqb_eq in E3); try congruence; simpl; lia.
Qed.

(** ** Profiles *)

Lemma find_map_same {A : Type} (p : A -> bool) (g : A -> A) (l : list A) :
  (forall a, p (g a) = p a) -> find p (map g l) = option_map g (find p l).
Proof.
  intros H. induction l as [ | a l IH]; simpl; [reflexivity | ].
  rewrite H. destruct (p a); [reflexivity | exact IH].
Qed.

Lemma existsb_map_same {A : Type} (p : A -> bool) (g : A -> A) (l : list A) :
  (forall a, p (g a) = p a) -> existsb p (map g l) = existsb p l.
Proof.
  intros H. induction l as [ | a l IH]; simpl; [reflexivity | ].
  now rewrite H, IH.
Qed.

Lemma find_unique_id (l : list Seller.t) (s : Seller.t) :
  NoDup (map Seller.id l) -> In s l ->
  find (fun r => Seller.id r =? Seller.id s) l = Some s.
Proof.
  intros Hnd Hin. destruct (find_by_id_some s l Hin) as [r Hr]. rewrite Hr.
  apply find_some in Hr. destruct Hr as [Hr Hid]. apply Z.eqb_eq in Hid.
  f_equal. exact (same_id_same_row l r s Hnd Hr Hin Hid).
Qed.

Lemma updateProfile_some (u : ProfileData) (sid : Z) (st st' : Store) :
  updateProfile u sid st = Some st' ->
  st' = withTables
          (mkDb (map (fun s => if Seller.id s =? sid then setProfile u s else s)
                     (sellers (tables st)))
                (offerings (tables st)))
          st.
Proof.
  unfold updateProfile. destruct (profileFits u); [ | discriminate].
  intros H. injection H as <-. reflexivity.
Qed.

Lemma putProfileHandler_found (now uid : Z) (b : ProfileBody) (st : Store)
    (s : Seller.t) :
  NoDup (map Seller.id (sellers (tables st))) ->
  sellerByUserId uid (tables st) = Some s ->
  profileBodyFits b = true ->
  putProfileHandler now uid b st =
  (mkReply 200
     (PProfile
        (sellerData (tables (profileStored now b s st))
           (setProfile (profileUpdateData now b) s) None)
        None),
   profileStored now b s st).
Proof.
  intros Hnd Hs Hfit. unfold putProfileHandler. rewrite Hs.
  unfold profileBodyFits in Hfit. apply andb_true_iff in Hfit.
  destruct Hfit as [Hfit Hnames].
  unfold updateProfile.
  replace (profileFits (profileUpdateData now b)) with true
    by (symmetry; exact Hfit).
  destruct (sellerByUserId_some _ _ _ Hs) as [Hin _].
  set (g := fun r => if Seller.id r =? Seller.id s
                     then setProfile (profileUpdateData now b) r else r).
  assert (Hg : forall a, (Seller.id (g a) =? Seller.id s) = (Seller.id a =? Seller.id s)).
  { intros a. unfold g. destruct (Seller.id a =? Seller.id s) eqn:E; [ | exact E].
    simpl. exact E. }
  assert (Hback : forall offs,
            sellerById (Seller.id s) (mkDb (map g (sellers (tables st))) offs)
            = Some (setProfile (profileUpdateData now b) s)).
  { intros offs. unfold sellerById. simpl sellers.
    rewrite (find_map_same _ g _ Hg), (find_unique_id _ s Hnd Hin). simpl.
    unfold g. rewrite Z.eqb_refl. reflexivity. }
  assert (Hex : existsb (fun r => Seller.id r =? Seller.id s)
                  (map g (sellers (tables st))) = true).
  { rewrite (existsb_map_same _ g _ Hg). apply existsb_exists. exists s.
    split; [exact Hin | apply Z.eqb_refl]. }
  unfold profileStored. fold g.
  destruct (p_offerings b) as [[ | n l] | ].
  - unfold deleteOfferings, withTables.
    cbn [tables sellers offerings users usersIdSeq sellersIdSeq offeringsIdSeq].
    rewrite Hback. simpl. rewrite app_nil_r, Z.add_0_r. reflexivity.
  - unfold insertOfferings, deleteOfferings, withTables.
    cbn [tables sellers offerings users usersIdSeq sellersIdSeq offeringsIdSeq].
    rewrite Hex, Hnames.
    cbn [andb tables sellers offerings users usersIdSeq sellersIdSeq
         offeringsIdSeq].
    rewrite Hback. reflexivity.
  - unfold withTables.
    cbn [tables sellers offerings users usersIdSeq sellersIdSeq offeringsIdSeq].
    rewrite Hback. reflexivity.
Qed.

Lemma offerings_replaced (now : Z) (b : ProfileBody) (s : Seller.t)
    (st : Store) (l : list string) :
  p_offerings b = Some l ->
  offeringNames (tables (profileStored now b s st)) (Seller.id s) = l.
Proof.
  intros Hl. unfold offeringNames, sellerOfferings, profileStored. simpl.
  rewrite Hl, filter_app, filter_none.
  - simpl. rewrite filter_all; [apply offeringRows_names | ].
    intros o Ho. apply offeringRows_ids in Ho. destruct Ho as [_ ->].
    apply Z.eqb_refl.
  - intros o Ho. apply filter_In in Ho. destruct Ho as [_ Hn].
    destruct (Offering.sellerId o =? Seller.id s); [discriminate | reflexivity].
Qed.

(** X23: what [PUT /profile] stores is what [GET /profile] then returns: a
    non-empty business name, owner name or phone replaces the stored one
    and an empty or missing one leaves it; a description that is given,
    even empty or null, replaces the stored one; an offerings list that is
    given, even empty, replaces the seller's offerings, in order; the
    active flag and the location are as before. *)
Theorem profile_round_trip (now uid : Z) (b : ProfileBody) (st : Store)
    (s : Seller.t) :
  NoDup (map Seller.id (sellers (tables st))) ->
  sellerByUserId uid (tables st) = Some s ->
  profileBodyFits b = true ->
  exists st',
    snd (putProfile now (sellerRequest uid b) st) = st' /\
    getProfile (sellerRequest uid tt) st' =
    inr (mkReply 200
           (PProfile
              (SellerData.mk (Seller.id s)
                 (orKeep (ifTruthy (p_businessName b)) (Seller.businessName s))
                 (orKeep (ifTruthy (p_ownerName b)) (Seller.ownerName s))
                 (orKeep (ifTruthy (p_phone b)) (Seller.phone s))
                 (orKeep (p_description b) (Seller.description s))
                 (match p_offerings b with
                  | Some l => l
                  | None => offeringNames (tables st) (Seller.id s)
                  end)
                 (Seller.isActive s)
                 (Some (Seller.latitude s, Seller.longitude s)))
              (Some (Seller.lastLocationUpdate s)))).
Proof.
  intros Hnd Hs Hfit. exists (profileStored now b s st). split.
  - unfold putProfile, sellerRequest. simpl.
    rewrite (putProfileHandler_found now uid b st s Hnd Hs Hfit). reflexivity.
  - unfold getProfile, sellerRequest. simpl. unfold getProfileHandler.
    assert (Hfind : sellerByUserId uid (tables (profileStored now b s st)) =
                    Some (setProfile (profileUpdateData now b) s)).
    { unfold sellerByUserId, profileStored. simpl sellers.
      rewrite find_map_same.
      - unfold sellerByUserId in Hs. rewrite Hs. simpl.
        rewrite Z.eqb_refl. reflexivity.
      - intros a. destruct (Seller.id a =? Seller.id s); reflexivity. }
    rewrite Hfind. unfold sellerData. simpl Seller.id.
    destruct (p_offerings b) as [l | ] eqn:El.
    + rewrite (offerings_replaced now b s st l El). reflexivity.
    + unfold offeringNames, sellerOfferings, profileStored. rewrite El.
      reflexivity.
Qed.

Section PutProfileInvariant.

Variable P : Store -> Prop.
Hypothesis P_update :
  forall u sid st st', P st -> updateProfile u sid st = Some st' -> P st'.
Hypothesis P_delete : forall sid st, P st -> P (deleteOfferings sid st).
Hypothesis P_insert :
  forall sid l st st', P st -> insertOfferings sid l st = Some st' -> P st'.

(** Whatever the three table operations of [PUT /profile] keep, the route
    keeps. *)
Lemma putProfile_invariant (now : Z) (req : AuthRequest ProfileBody)
    (st : Store) :
  P st -> P (snd (putProfile now req st)).
Proof.
  intros HP. unfold putProfile.
  destruct (authorization req) as [ | | uid ut]; simpl; try exact HP.
  unfold sellerOnly. destruct (String.eqb ut "seller"); simpl; [ | exact HP].
  unfold putProfileHandler.
  destruct (sellerByUserId uid (tables st)) as [s | ]; simpl; [ | exact HP].
  destruct (updateProfile (profileUpdateData now (body req)) (Seller.id s) st)
    as [st1 | ] eqn:U; simpl; [ | exact HP].
  pose proof (P_update _ _ _ _ HP U) as H1.
  destruct (p_offerings (body req)) as [[ | n l] | ].
  - pose proof (P_delete (Seller.id s) st1 H1) as H2.
    destruct (sellerById (Seller.id s) (tables (deleteOfferings (Seller.id s) st1)));
      simpl; exact H2.
  - pose proof (P_delete (Seller.id s) st1 H1) as H2.
    destruct (insertOfferings (Seller.id s) (n :: l)
                (deleteOfferings (Seller.id s) st1)) as [st3 | ] eqn:I; simpl.
    + pose proof (P_insert _ _ _ _ H2 I) as H3.
      destruct (sellerById (Seller.id s) (tables st3)); simpl; exact H3.
    + exact H2.
  - destruct (sellerById (Seller.id s) (tables st1)); simpl; exact H1.
Qed.

End PutProfileInvariant.

(** X24: [PUT /profile] never changes a seller's active flag, coordinates or
    location timestamp, whatever the request and its outcome. *)
Theorem putProfile_keeps_location_state (now : Z)
    (req : AuthRequest ProfileBody) (st : Store) :
  map locationState (sellers (tables (snd (putProfile now req st)))) =
  map locationState (sellers (tables st)).
Proof.
  unfold putProfile.
  destruct (authorization req) as [ | | uid ut]; simpl; try reflexivity.
  unfold sellerOnly. destruct (String.eqb ut "seller"); simpl; [ | reflexivity].
  unfold putProfileHandler.
  destruct (sellerByUserId uid (tables st)) as [s | ]; simpl; [ | reflexivity].
  destruct (updateProfile (profileUpdateData now (body req)) (Seller.id s) st)
    as [st1 | ] eqn:U; simpl; [ | reflexivity].
  apply updateProfile_some in U.
  assert (H1 : map locationState (sellers (tables st1)) =
               map locationState (sellers (tables st))).
  { subst st1. simpl. rewrite map_map. apply map_ext.
    intros r. destruct (Seller.id r =? Seller.id s); reflexivity. }
  destruct (p_offerings (body req)) as [[ | n l] | ].
  - destruct (sellerById _ _); simpl; exact H1.
  - destruct (insertOfferings (Seller.id s) (n :: l)
                (deleteOfferings (Seller.id s) st1)) as [st3 | ] eqn:I; simpl.
    + apply insertOfferings_some in I. subst st3.
      destruct (sellerById _ _); simpl; exact H1.
    + exact H1.
  - destruct (sellerById _ _); simpl; exact H1.
Qed.

(** X25: [PUT /profile] is not atomic: when the profile texts fit but a new
    offering name is longer than 100 characters, the answer is 500, the
    profile fields are already written and the seller's former offerings
    are already deleted. *)
Theorem putProfile_failure_loses_offerings (now uid : Z) (b : ProfileBody)
    (st : Store) (s : Seller.t) (n : string) (l : list string) :
  sellerByUserId uid (tables st) = Some s ->
  profileFits (profileUpdateData now b) = true ->
  p_offerings b = Some (n :: l) ->
  forallb (varcharFits 100) (n :: l) = false ->
  exists st',
    putProfile now (sellerRequest uid b) st =
      (inr (reply_error 500 "Failed to update profile"), st') /\
    sellerOfferings (tables st') (Seller.id s) = [] /\
    sellers (tables st') =
      map (fun r => if Seller.id r =? Seller.id s
                    then setProfile (profileUpdateData now b) r else r)
          (sellers (tables st)).
Proof.
  intros Hs Hfit Hl Hlong.
  eexists. split; [ | split].
  - unfold putProfile, sellerRequest. simpl. unfold putProfileHandler.
    rewrite Hs. unfold updateProfile. rewrite Hfit, Hl.
    unfold insertOfferings. rewrite Hlong, andb_false_r. reflexivity.
  - unfold sellerOfferings, deleteOfferings, withTables. simpl.
    apply filter_none. intros o Ho. apply filter_In in Ho.
    destruct Ho as [_ Hn].
    destruct (Offering.sellerId o =? Seller.id s); [discriminate | reflexivity].
  - reflexivity.
Qed.

(** ** The admin's update *)

Lemma rows_unknown_id (u : ProfileData) (sid : Z) (st : Store) :
  sellerById sid (tables st) = None ->
  withTables
    (mkDb (map (fun s => if Seller.id s =? sid then setProfile u s else s)
               (sellers (tables st)))
          (offerings (tables st)))
    st = st.
Proof.
  intros Hnone. unfold withTables.
  replace (map (fun s => if Seller.id s =? sid then setProfile u s else s)
               (sellers (tables st)))
    with (sellers (tables st)).
  - destruct st as [[rows offs] us a b c]. reflexivity.
  - rewrite <- (map_id (sellers (tables st))) at 1. apply map_ext_in.
    intros r Hr. unfold sellerById in Hnone.
    pose proof (find_none _ _ Hnone r Hr) as E. simpl in E. now rewrite E.
Qed.

(** X26: [PUT /vendors/:id] with texts that fit their columns: for an id
    without a row the answer is 404 and the database is as it was; for a
    row that exists, [isActive: false] turns the flag off and leaves the
    coordinates and their timestamp stored, and an empty business name is
    written as given. *)
Theorem putVendor_outcome (now uid sid : Z) (b : VendorBody) (st : Store) :
  fitsIfSet 255 (v_businessName b) && fitsIfSet 255 (v_ownerName b) &&
  fitsIfSet 50 (v_phone b) = true ->
  (sellerById sid (tables st) = None ->
   putVendor now (adminRequest uid (sid, b)) st =
     (inr (reply_error 404 "Vendor not found"), st)) /\
  (forall s,
      sellerById sid (tables st) = Some s ->
      exists s' st',
        putVendor now (adminRequest uid (sid, b)) st =
          (inr (mkReply 200 (PVendor "Vendor updated successfully" s')), st') /\
        sellerById sid (tables st') = Some s' /\
        Seller.isActive s' = orKeep (v_isActive b) (Seller.isActive s) /\
        Seller.businessName s' = orKeep (v_businessName b) (Seller.businessName s) /\
        Seller.latitude s' = Seller.latitude s /\
        Seller.longitude s' = Seller.longitude s /\
        Seller.lastLocationUpdate s' = Seller.lastLocationUpdate s).
Proof.
  intros Hfit.
  set (u := mkProfileData (Some now) (v_businessName b) (v_ownerName b)
              (v_phone b) (v_description b) (v_isActive b)).
  assert (Hu : profileFits u = true) by exact Hfit.
  split.
  - intros Hnone. unfold putVendor, adminRequest. simpl.
    unfold putVendorHandler, updateProfile. fold u. rewrite Hu.
    rewrite (rows_unknown_id u sid st Hnone), Hnone. reflexivity.
  - intros s Hs.
    destruct (sellerById_some _ _ _ Hs) as [Hin Hid].
    set (st' := withTables
                  (mkDb (map (fun r => if Seller.id r =? sid
                                       then setProfile u r else r)
                             (sellers (tables st)))
                        (offerings (tables st)))
                  st).
    assert (Hback : sellerById sid (tables st') = Some (setProfile u s)).
    { unfold sellerById, st'. simpl sellers.
      rewrite find_map_same.
      - unfold sellerById in Hs. rewrite Hs. simpl. rewrite Hid, Z.eqb_refl.
        reflexivity.
      - intros a. destruct (Seller.id a =? sid) eqn:E; [simpl | ]; exact E. }
    exists (setProfile u s), st'.
    split; [ | split; [exact Hback | simpl; auto]].
    unfold putVendor, adminRequest. simpl.
    unfold putVendorHandler, updateProfile. fold u. rewrite Hu. fold st'.
    rewrite Hback. reflexivity.
Qed.

(** ** Every route keeps the schema's constraints *)

Lemma wellFormed_updateProfile (u : ProfileData) (sid : Z) (st st' : Store) :
  wellFormed st -> updateProfile u sid st = Some st' -> wellFormed st'.
Proof.
  intros Hwf U. apply updateProfile_some in U. subst st'.
  apply wellFormed_rows; [ | | exact Hwf];
    intros s; destruct (Seller.id s =? sid); reflexivity.
Qed.

Lemma wellFormed_rowsAfter (u : UpdateData) (sid : Z) (st : Store) :
  wellFormed st ->
  wellFormed (withTables (mkDb (rowsAfter u sid (sellers (tables st)))
                               (offerings (tables st))) st).
Proof.
  intros Hwf. unfold rowsAfter. apply wellFormed_rows; [ | | exact Hwf];
    intros s; destruct (Seller.id s =? sid); reflexivity.
Qed.

Lemma wellFormed_patchLocation (now : Z) (req : AuthRequest LocationBody)
    (st : Store) :
  wellFormed st -> wellFormed (snd (patchLocationStore now req st)).
Proof.
  intros Hwf. unfold patchLocationStore.
  destruct (patchLocation_cases now req (tables st))
    as [[_ Hdb] | [uid [s [u [_ [_ [_ [_ [_ Hdb]]]]]]]]];
    destruct (patchLocation now req (tables st)) as [res t];
    simpl in *; subst t.
  - now rewrite withTables_same.
  - now apply wellFormed_rowsAfter.
Qed.

Lemma wellFormed_toggleActive (now : Z) (req : AuthRequest Z) (st : Store) :
  wellFormed st -> wellFormed (snd (toggleActiveStore now req st)).
Proof.
  intros Hwf. unfold toggleActiveStore.
  destruct (toggleActive_cases now req (tables st))
    as [[_ [Hdb _]] | [uid [s [_ [_ [_ Hdb]]]]]];
    destruct (toggleActive now req (tables st)) as [res t];
    simpl in *; subst t.
  - now rewrite withTables_same.
  - now apply wellFormed_rowsAfter.
Qed.

Lemma wellFormed_putVendor (now : Z) (req : AuthRequest (Z * VendorBody))
    (st : Store) :
  wellFormed st -> wellFormed (snd (putVendor now req st)).
Proof.
  intros Hwf. unfold putVendor.
  destruct (authorization req) as [ | | uid ut]; simpl; try exact Hwf.
  unfold adminOnly. destruct (String.eqb ut "admin"); simpl; [ | exact Hwf].
  unfold putVendorHandler.
  destruct (updateProfile _ (fst (body req)) st) as [st' | ] eqn:U; simpl;
    [ | exact Hwf].
  pose proof (wellFormed_updateProfile _ _ _ _ Hwf U) as H'.
  destruct (sellerById _ _); simpl; exact H'.
Qed.

Lemma wellFormed_deleteVendor (req : AuthRequest Z) (st : Store) :
  wellFormed st -> wellFormed (snd (deleteVendor req st)).
Proof.
  intros Hwf. unfold deleteVendor.
  destruct (authorization req) as [ | | uid ut]; simpl; try exact Hwf.
  unfold adminOnly. destruct (String.eqb ut "admin"); simpl; [ | exact Hwf].
  unfold deleteVendorHandler.
  destruct (sellerById (body req) (tables st)) as [s | ]; simpl; [ | exact Hwf].
  pose proof (wellFormed_deleteOfferings (body req) st Hwf) as H1.
  destruct (deleteSellers (body req) (deleteOfferings (body req) st))
    as [st2 | ] eqn:D2; simpl; [ | exact H1].
  pose proof (wellFormed_deleteSellers _ _ _ H1 D2) as H2.
  destruct (deleteUsers (Seller.userId s) st2) as [st3 | ] eqn:D3; simpl;
    [ | exact H2].
  exact (wellFormed_deleteUsers _ _ _ H2 D3).
Qed.

Lemma wellFormed_deleteUserHandler (reqUserId userId : Z) (st : Store) :
  wellFormed st -> wellFormed (snd (deleteUserHandler reqUserId userId st)).
Proof.
  intros Hwf. unfold deleteUserHandler.
  destruct (userId =? reqUserId); simpl; [exact Hwf | ].
  destruct (userById userId st) as [u | ]; simpl; [ | exact Hwf].
  assert (Hlast : forall st', wellFormed st' ->
            wellFormed (snd (match deleteUsers userId st' with
                             | None => (reply_error 500 "Failed to delete user", st')
                             | Some st'' =>
                                 (mkReply 200 (PMessage "User deleted successfully"), st'')
                             end))).
  { intros st' H'. destruct (deleteUsers userId st') as [st'' | ] eqn:D;
      simpl; [exact (wellFormed_deleteUsers _ _ _ H' D) | exact H']. }
  destruct (String.eqb (User.userType u) "seller"); [ | now apply Hlast].
  destruct (sellerByUserId userId (tables st)) as [s | ]; [ | now apply Hlast].
  pose proof (wellFormed_deleteOfferings (Seller.id s) st Hwf) as H1.
  destruct (deleteSellers (Seller.id s) (deleteOfferings (Seller.id s) st))
    as [st2 | ] eqn:D2; [ | exact H1].
  apply Hlast. exact (wellFormed_deleteSellers _ _ _ H1 D2).
Qed.

Lemma wellFormed_deleteUser (req : AuthRequest Z) (st : Store) :
  wellFormed st -> wellFormed (snd (deleteUser req st)).
Proof.
  intros Hwf. unfold deleteUser.
  destruct (authorization req) as [ | | uid ut]; simpl; try exact Hwf.
  unfold adminOnly. destruct (String.eqb ut "admin"); simpl; [ | exact Hwf].
  pose proof (wellFormed_deleteUserHandler uid (body req) st Hwf) as H.
  destruct (deleteUserHandler uid (body req) st) as [reply st']. exact H.
Qed.

(** X27: every writing route keeps the constraints of the schema: distinct
    primary keys, emails and seller owners, references that resolve, and
    ids not ahead of their sequences. *)
Theorem routes_keep_schema_constraints (st : Store) :
  wellFormed st ->
  (forall jwtSign now h b, wellFormed (snd (register jwtSign now h b st))) /\
  (forall now req, wellFormed (snd (patchLocationStore now req st))) /\
  (forall now req, wellFormed (snd (putProfile now req st))) /\
  (forall now req, wellFormed (snd (toggleActiveStore now req st))) /\
  (forall now req, wellFormed (snd (putVendor now req st))) /\
  (forall req, wellFormed (snd (deleteVendor req st))) /\
  (forall req, wellFormed (snd (deleteUser req st))).
Proof.
  intros Hwf.
  refine (conj _ (conj _ (conj _ (conj _ (conj _ (conj _ _)))))); intros.
  - now apply wellFormed_register.
  - now apply wellFormed_patchLocation.
  - apply (putProfile_invariant wellFormed); try assumption.
    + intros u sid st1 st2 H U. exact (wellFormed_updateProfile _ _ _ _ H U).
    + intros. now apply wellFormed_deleteOfferings.
    + intros sid l st1 st2 H I. exact (wellFormed_insertOfferings _ _ _ _ H I).
  - now apply wellFormed_toggleActive.
  - now apply wellFormed_putVendor.
  - now apply wellFormed_deleteVendor.
  - now apply wellFormed_deleteUser.
Qed.

(** X28: on a database that meets the schema's constraints, deleting a user
    of type "seller" other than the caller succeeds and takes the seller
    row and its offerings along. *)
Theorem deleteUser_cascades (reqUserId : Z) (st : Store) (u : User.t)
    (s : Seller.t) :
  wellFormed st ->
  User.id u <> reqUserId ->
  userById (User.id u) st = Some u ->
  User.userType u = "seller" ->
  sellerByUserId (User.id u) (tables st) = Some s ->
  deleteUser (adminRequest reqUserId (User.id u)) st =
    (inr (mkReply 200 (PMessage "User deleted successfully")),
     withoutVendor s st).
Proof.
  intros Hwf Hne Hu Ht Hs.
  destruct (sellerByUserId_some _ _ _ Hs) as [Hin Huid].
  unfold deleteUser, adminRequest. simpl. unfold deleteUserHandler.
  apply Z.eqb_neq in Hne. rewrite Hne, Hu, Ht. simpl String.eqb. cbv iota.
  rewrite Hs.
  unfold deleteSellers, deleteOfferings. simpl tables. simpl sellers.
  simpl offerings.
  rewrite (existsb_filter_negb (fun o => Offering.sellerId o =? Seller.id s)).
  rewrite andb_false_r.
  unfold deleteUsers, withTables. simpl tables. simpl sellers. simpl users.
  rewrite <- Huid.
  rewrite (no_other_seller_of_user st s Hwf Hin), andb_false_r.
  reflexivity.
Qed.

(** ** The properties above at the sample database *)

Lemma fixture_wellFormed : wellFormed Fixture.store.
Proof.
  constructor; simpl.
  - repeat constructor; simpl; intuition discriminate.
  - repeat constructor; simpl; intuition discriminate.
  - repeat constructor; simpl; intuition discriminate.
  - repeat constructor; simpl; intuition discriminate.
  - repeat constructor; simpl; intuition discriminate.
  - intros s [<- | []]. simpl. auto.
  - intros o [<- | [<- | []]]; simpl; auto.
  - intros u [<- | [<- | []]]; simpl; lia.
  - intros s [<- | []]. simpl. lia.
  - intros o [<- | [<- | []]]; simpl; lia.
Defined.

Lemma twoVendors_ids : NoDup (map Seller.id (sellers Sample.twoVendors)).
Proof.
  simpl. repeat constructor; simpl; intuition discriminate.
Defined.

Lemma fixture_listed :
  getActiveVendors 600000 (mkQuery None None None) (tables Fixture.store) =
  [Vendor.mk 1 1 (Some 40%R) (Some (-75)%R) (Some 500000)
     (Profile.mk "Sweet Treats" "John Doe" "555-0100" (Some "")
        ["Vanilla"; "Chocolate"])
     0%R].
Proof.
  unfold getActiveVendors, hasTruthyCoordinates, vendorWithOfferings.
  simpl. decide_reals. reflexivity.
Defined.

(** Why X7 leaves out a [null] beside another coordinate: there the
    deactivation is answered 500, nothing is written, and the vendor stays
    listed. *)
Lemma null_coordinate_blocks_deactivation :
  patchLocation 550000
    (sellerRequest 1
       (mkLocationBody (Some Null) (Some (Number 34)) (Some false)))
    (tables Fixture.store)
  = (res_error 500 "Failed to update location", tables Fixture.store) /\
  exists v,
    In v (getActiveVendors 600000 (mkQuery None None None)
            (tables Fixture.store)) /\
    Vendor.id v = 1.
Proof.
  split; [reflexivity | ].
  rewrite fixture_listed. eexists. split; [left; reflexivity | reflexivity].
Qed.

Lemma patchLocation_other_sellers_untouched_witness :
  In (Sample.seller 2 8 true (Some 41%R) (Some (-74)%R) (Some 50000) 0)
     (sellers (snd (patchLocation 1000000
                      (Sample.asSeller 7
                         (mkLocationBody (Some (Number 12)) (Some (Number 34)) (Some false)))
                      Sample.twoVendors))).
Proof.
  apply (patchLocation_other_sellers_untouched 1000000 7 "seller").
  - exact twoVendors_ids.
  - reflexivity.
  - simpl. auto.
  - simpl. discriminate.
Defined.

Lemma patchLocation_keeps_location_paired_witness :
  Forall locationConsistent
    (sellers (snd (patchLocation 1000000
                     (Sample.asSeller 7
                        (mkLocationBody (Some (Number 12)) None (Some false)))
                     Sample.twoVendors))).
Proof.
  apply patchLocation_keeps_location_paired.
  repeat constructor; simpl; intros H; discriminate H.
Defined.

Lemma getActive_lists_only_live_vendors_witness :
  exists s t x y,
    In s (sellers (tables Fixture.store)) /\ 1 = Seller.id s /\
    Seller.isActive s = true /\
    Seller.lastLocationUpdate s = Some t /\ 600000 - t <= 15 * 60 * 1000 /\
    Seller.latitude s = Some x /\ Seller.longitude s = Some y /\
    x <> 0%R /\ y <> 0%R /\
    Some 40%R = Some x /\ Some (-75)%R = Some y /\
    ["Vanilla"; "Chocolate"] =
      map Offering.name (sellerOfferings (tables Fixture.store) (Seller.id s)) /\
    (truthy None && truthy None = true -> (0 <= 50)%R).
Proof.
  apply (getActive_lists_only_live_vendors 600000 (mkQuery None None None)
           (tables Fixture.store)
           (Vendor.mk 1 1 (Some 40%R) (Some (-75)%R) (Some 500000)
              (Profile.mk "Sweet Treats" "John Doe" "555-0100" (Some "")
                 ["Vanilla"; "Chocolate"])
              0%R)).
  rewrite fixture_listed. left. reflexivity.
Defined.


Lemma reported_location_listed_until_stale_witness :
  ((exists v,
       In v (getActiveVendors 700000 (mkQuery None None None)
               (snd (patchLocation 600000
                       (sellerRequest 1
                          (mkLocationBody (Some (Number 41))
                             (Some (Number (-74))) None))
                       (tables Fixture.store)))) /\
       Vendor.id v = 1)
   <-> (700000 - 600000 <= 15 * 60 * 1000 /\
        (5 / 10 ^ 8 <= Rabs 41)%R /\ (5 / 10 ^ 8 <= Rabs (-74))%R)) /\
  Forall (fun v => Vendor.id v = 1 ->
                   Vendor.latitude v = Some 41%R /\
                   Vendor.longitude v = Some (-74)%R)
    (getActiveVendors 700000 (mkQuery None None None)
       (snd (patchLocation 600000
               (sellerRequest 1
                  (mkLocationBody (Some (Number 41)) (Some (Number (-74))) None))
               (tables Fixture.store)))).
Proof.
  replace (Some 41%R) with (Some (toScale7 41)) by (now rewrite toScale7_IZR).
  replace (Some (-74)%R) with (Some (toScale7 (-74)))
    by (now rewrite toScale7_IZR).
  rewrite Forall_forall.
  apply (reported_location_listed_until_stale 600000 1
           (sellerRequest 1 (mkLocationBody (Some (Number 41)) (Some (Number (-74))) None))
           (tables Fixture.store) Fixture.vendor 41%R (-74)%R);
    try reflexivity; rabs.
Defined.

Lemma toggleActive_errors_leave_state_witness :
  toggleActive 5000 (mkReq (Decoded 1 "seller") 1) (tables Fixture.store)
  = (res_error 403 "Admin access required", tables Fixture.store) /\
  toggleActive 5000 (adminRequest 2 9) (tables Fixture.store)
  = (res_error 404 "Vendor not found", tables Fixture.store).
Proof.
  split.
  - apply (toggleActive_errors_leave_state 5000 1 "seller");
      [reflexivity | left; discriminate].
  - apply (toggleActive_errors_leave_state 5000 2 "admin");
      [reflexivity | right; reflexivity].
Defined.

Lemma toggled_off_vendor_never_listed_witness :
  Forall (fun v => Vendor.id v <> 1)
    (getActiveVendors 600000 (mkQuery None None None)
       (snd (toggleActive 550000 (adminRequest 2 1) (tables Fixture.store)))).
Proof.
  apply Forall_forall.
  apply (toggled_off_vendor_never_listed 550000 2 (adminRequest 2 1)
           (tables Fixture.store) Fixture.vendor); reflexivity.
Defined.

Lemma toggleActive_twice_same_discovery_witness :
  Permutation
    (getActiveVendors 600000 (mkQuery None None None)
       (Sample.db
          [Sample.seller 2 8 true (Some 41%R) (Some (-74)%R) (Some 50000) 0;
           Sample.seller 1 7 true (Some 40%R) (Some (-75)%R) (Some 500000)
             560000]))
    (getActiveVendors 600000 (mkQuery None None None) Sample.twoVendors).
Proof.
  apply (toggleActive_twice_same_discovery 550000 560000 (adminRequest 2 1)
           Sample.twoVendors
           (Sample.db
              [Sample.seller 2 8 true (Some 41%R) (Some (-74)%R) (Some 50000) 0;
               Sample.seller 1 7 false (Some 40%R) (Some (-75)%R)
                 (Some 500000) 550000])).
  - exact twoVendors_ids.
  - split; [apply perm_swap | reflexivity].
  - split; [apply Permutation_refl | reflexivity].
Defined.

Lemma getActive_smaller_radius_witness :
  getActiveVendors 600000 (mkQuery (Some 40%R) (Some (-75)%R) (Some 10%R))
    Sample.twoVendors =
  filter (withinRadius 10%R)
    (getActiveVendors 600000 (mkQuery (Some 40%R) (Some (-75)%R) (Some 50%R))
       Sample.twoVendors).
Proof.
  apply (getActive_smaller_radius 600000 40%R (-75)%R 10%R 50%R); lra.
Defined.

Lemma register_outcome_witness :
  (code (fst (register Fixture.jwtSign 1000 "hash-of-password123"
                Fixture.newAccount Fixture.store)) = 201 /\
   requiredFields Fixture.newAccount = true /\
   userByEmail (text (r_email Fixture.newAccount)) Fixture.store = None /\
   snd (register Fixture.jwtSign 1000 "hash-of-password123"
          Fixture.newAccount Fixture.store) =
     registeredStore 1000 "hash-of-password123" Fixture.newAccount
       Fixture.store) \/
  (code (fst (register Fixture.jwtSign 1000 "hash-of-password123"
                Fixture.newAccount Fixture.store)) = 400 /\
   (requiredFields Fixture.newAccount = false \/
    userByEmail (text (r_email Fixture.newAccount)) Fixture.store <> None) /\
   snd (register Fixture.jwtSign 1000 "hash-of-password123"
          Fixture.newAccount Fixture.store) = Fixture.store).
Proof.
  apply (register_outcome Fixture.jwtSign 1000 "hash-of-password123"
           Fixture.newAccount Fixture.store fixture_wellFormed).
  reflexivity.
Defined.

Lemma register_failure_leaves_account_witness :
  register Fixture.jwtSign 2000 "another-hash" Fixture.longOffering
    (snd (register Fixture.jwtSign 1000 "hash-of-password123"
            Fixture.longOffering Fixture.store)) =
  (reply_error 400 "Email already registered",
   snd (register Fixture.jwtSign 1000 "hash-of-password123"
          Fixture.longOffering Fixture.store)).
Proof.
  apply (register_failure_leaves_account Fixture.jwtSign 1000 2000
           "hash-of-password123" "another-hash" Fixture.longOffering
           Fixture.store fixture_wellFormed);
    reflexivity.
Defined.

Lemma register_same_discovery_witness :
  getActiveVendors 600000 (mkQuery None None None)
    (tables (snd (register Fixture.jwtSign 1000 "hash-of-password123"
                    Fixture.newAccount Fixture.store))) =
  getActiveVendors 600000 (mkQuery None None None) (tables Fixture.store).
Proof.
  apply (register_same_discovery Fixture.jwtSign 1000 "hash-of-password123"
           Fixture.newAccount Fixture.store fixture_wellFormed).
Defined.

Lemma register_twice_rejected_witness :
  register Fixture.jwtSign 2000 "another-hash" Fixture.newAccount
    (snd (register Fixture.jwtSign 1000 "hash-of-password123"
            Fixture.newAccount Fixture.store)) =
  (reply_error 400 "Email already registered",
   snd (register Fixture.jwtSign 1000 "hash-of-password123"
          Fixture.newAccount Fixture.store)).
Proof.
  apply (register_twice_rejected Fixture.jwtSign 1000 2000
           "hash-of-password123" "another-hash" Fixture.newAccount
           Fixture.newAccount Fixture.store fixture_wellFormed);
    reflexivity.
Defined.

Lemma login_after_register_witness :
  login Fixture.jwtSign Fixture.bcryptCompare 3000
    (mkLoginBody (r_email Fixture.newAccount) (Some "password123"))
    (snd (register Fixture.jwtSign 1000 "hash-of-password123"
            Fixture.newAccount Fixture.store)) =
  mkReply 200
    (PAccount "signed-token" 3 "new@example.com" "seller"
       (Some (SellerData.mk 2 "Cool Cones" "Jane Roe" "555-0101" (Some "")
                ["Mint"] false (Some (None, None))))).
Proof.
  apply (login_after_register Fixture.jwtSign Fixture.bcryptCompare 1000 3000
           "hash-of-password123" "password123" Fixture.newAccount
           Fixture.store fixture_wellFormed);
    [reflexivity | discriminate | reflexivity].
Defined.

Lemma login_failures_look_alike_witness :
  login Fixture.jwtSign Fixture.bcryptCompare 3000
    (mkLoginBody (Some "nobody@example.com") (Some "password123"))
    Fixture.store
  = reply_error 401 "Invalid credentials" /\
  login Fixture.jwtSign Fixture.bcryptCompare 3000
    (mkLoginBody (Some "seller@example.com") (Some "wrong"))
    Fixture.store
  = reply_error 401 "Invalid credentials".
Proof.
  split.
  - apply (login_failures_look_alike Fixture.jwtSign Fixture.bcryptCompare);
      [reflexivity | reflexivity | left; reflexivity].
  - apply (login_failures_look_alike Fixture.jwtSign Fixture.bcryptCompare);
      [reflexivity | reflexivity | ].
    right. exists Fixture.vendorUser. split; reflexivity.
Defined.

Lemma deleteVendor_removes_account_witness :
  deleteVendor (adminRequest 2 1) Fixture.store =
  (inr (mkReply 200 (PMessage "Vendor deleted successfully")),
   withoutVendor Fixture.vendor Fixture.store).
Proof.
  apply (deleteVendor_removes_account 2 Fixture.store Fixture.vendor
           fixture_wellFormed).
  reflexivity.
Defined.

Lemma deleted_vendor_is_gone_witness :
  patchLocationStore 5000
    (mkReq (Decoded 1 "seller") (mkLocationBody (Some (Number 12)) (Some (Number 34)) None))
    (withoutVendor Fixture.vendor Fixture.store)
  = (res_error 404 "Seller profile not found",
     withoutVendor Fixture.vendor Fixture.store).
Proof.
  apply (deleted_vendor_is_gone 5000 Fixture.store Fixture.vendor
           (mkLocationBody (Some (Number 12)) (Some (Number 34)) None) fixture_wellFormed).
  reflexivity.
Defined.

Lemma deleteUser_refusals_witness :
  deleteUser (adminRequest 2 3) Fixture.promoted =
  (inr (reply_error 500 "Failed to delete user"), Fixture.promoted).
Proof.
  apply (proj2 (deleteUser_refusals 2 3 Fixture.promoted)
           Fixture.promotedUser Fixture.promotedSeller);
    [discriminate | reflexivity | discriminate | reflexivity].
Defined.

Lemma deleteUser_cascades_witness :
  deleteUser (adminRequest 2 1) Fixture.store =
  (inr (mkReply 200 (PMessage "User deleted successfully")),
   withoutVendor Fixture.vendor Fixture.store).
Proof.
  apply (deleteUser_cascades 2 Fixture.store Fixture.vendorUser Fixture.vendor
           fixture_wellFormed);
    [discriminate | reflexivity | reflexivity | reflexivity].
Defined.

Lemma profile_round_trip_witness :
  exists st',
    snd (putProfile 5000
           (sellerRequest 1
              (mkProfileBody (Some "Cool Cones") (Some "") None
                 (Some (Some "Now with sprinkles")) (Some ["Mint"; "Lime"])))
           Fixture.store) = st' /\
    getProfile (sellerRequest 1 tt) st' =
    inr (mkReply 200
           (PProfile
              (SellerData.mk 1 "Cool Cones" "John Doe" "555-0100"
                 (Some "Now with sprinkles") ["Mint"; "Lime"] true
                 (Some (Some 40%R, Some (-75)%R)))
              (Some (Some 500000)))).
Proof.
  apply (profile_round_trip 5000 1
           (mkProfileBody (Some "Cool Cones") (Some "") None
              (Some (Some "Now with sprinkles")) (Some ["Mint"; "Lime"]))
           Fixture.store Fixture.vendor).
  - exact (wf_seller_ids _ fixture_wellFormed).
  - reflexivity.
  - reflexivity.
Defined.

Lemma putVendor_outcome_witness :
  exists s' st',
    putVendor 5000
      (adminRequest 2 (1, mkVendorBody (Some "") None None None (Some false)))
      Fixture.store =
      (inr (mkReply 200 (PVendor "Vendor updated successfully" s')), st') /\
    sellerById 1 (tables st') = Some s' /\
    Seller.isActive s' = false /\
    Seller.businessName s' = "" /\
    Seller.latitude s' = Some 40%R /\
    Seller.longitude s' = Some (-75)%R /\
    Seller.lastLocationUpdate s' = Some 500000.
Proof.
  apply (proj2 (putVendor_outcome 5000 2 1
                  (mkVendorBody (Some "") None None None (Some false))
                  Fixture.store eq_refl) Fixture.vendor).
  reflexivity.
Defined.

Lemma routes_keep_schema_constraints_witness :
  wellFormed (snd (deleteVendor (adminRequest 2 1) Fixture.store)).
Proof.
  apply (routes_keep_schema_constraints Fixture.store fixture_wellFormed).
Defined.

Lemma putProfile_failure_loses_offerings_witness :
  exists st',
    putProfile 5000
      (sellerRequest 1
         (mkProfileBody (Some "Cool Cones") None None None
            (r_offerings Fixture.longOffering)))
      Fixture.store =
      (inr (reply_error 500 "Failed to update profile"), st') /\
    sellerOfferings (tables st') 1 = [] /\
    sellers (tables st') =
      map (fun r => if Seller.id r =? 1
                    then setProfile
                           (profileUpdateData 5000
                              (mkProfileBody (Some "Cool Cones") None None None
                                 (r_offerings Fixture.longOffering))) r
                    else r)
          (sellers (tables Fixture.store)).
Proof.
  apply (putProfile_failure_loses_offerings 5000 1
           (mkProfileBody (Some "Cool Cones") None None None
              (r_offerings Fixture.longOffering))
           Fixture.store Fixture.vendor "Mint"
           (List.tl (offeringsList Fixture.longOffering)));
    reflexivity.
Defined.
